(** * trading-agent: the presentation layer over the TradingAgents framework

    A shallow embedding of the repository's own logic: the string and JSON
    helpers of [streamlit_utils.py], the session-state lifecycle and the result
    renderer of [streamlit_app.py], the chat-style front end of
    [gradio_app.py] and the launcher [run_streamlit.py].

    Python values are modelled as follows.
    - [str] is [string]; every character stands for the code point of the
      same number, so the strings covered are those over code points 0..255.
    - [dict] is stdpp's [gmap] where only lookups matter, and an association
      list where the insertion order is observable (JSON text).
    - [float] is the primitive binary64 type, read through its exact value
      [m * 2^e].
    - Exceptions, the session state, the calls made to Streamlit and to
      the external framework, and the rerun or stop request that can cut a
      script run off at a call to Streamlit, are threaded through a small
      monad. *)

From Stdlib Require Import ZArith String Ascii List Lia Bool.
From Stdlib Require Import PrimFloat FloatOps SpecFloat FloatAxioms.
From Stdlib Require Import DecimalString.
From stdpp Require Import base option list gmap strings.

Local Open Scope string_scope.
Local Open Scope list_scope.

(** ** Python strings *)

Module PyStr.

Definition nl : string := String "010" EmptyString.

(** The double quote, by its code. *)
Definition dquote : ascii := "034"%char.

(** A text between double quotes. *)
Definition quoted (s : string) : string :=
  String dquote s +:+ String dquote EmptyString.

(** [bool(s)]: a string is truthy when it is not empty. *)
Definition truthy (s : string) : bool :=
  match s with
  | EmptyString => false
  | String _ _ => true
  end.

(** [s * n] *)
Fixpoint repeat_str (s : string) (n : nat) : string :=
  match n with
  | O => ""
  | S n' => s +:+ repeat_str s n'
  end.

(** [sep.join(l)] *)
Fixpoint join (sep : string) (l : list string) : string :=
  match l with
  | [] => ""
  | [x] => x
  | x :: xs => x +:+ sep +:+ join sep xs
  end.

Fixpoint map_chars (f : ascii -> ascii) (s : string) : string :=
  match s with
  | EmptyString => EmptyString
  | String c r => String (f c) (map_chars f r)
  end.

(** [s.replace(a, b)] for one-character [a] and [b]. *)
Definition replace_char (a b : ascii) (s : string) : string :=
  map_chars (fun c => if Ascii.eqb c a then b else c) s.

(** [str.lower] on code points below 256: the upper-case letters are A-Z and
    the Latin-1 letters 0xC0-0xDE without the multiplication sign 0xD7; each
    one has its lower-case partner 32 places further. *)
Definition lower_char (c : ascii) : ascii :=
  let n := nat_of_ascii c in
  if (((65 <=? n) && (n <=? 90)) ||
      ((192 <=? n) && (n <=? 222) && negb (n =? 215)))%nat
  then ascii_of_nat (n + 32)
  else c.

Definition lower (s : string) : string := map_chars lower_char s.

(** [sub in s] *)
Fixpoint contains (sub s : string) : bool :=
  if String.prefix sub s then true
  else match s with
       | EmptyString => false
       | String _ r => contains sub r
       end.

(** Decimal text of a natural number, and the same padded with zeros to a
    width ([%02d], [%04d], [%06d]). *)
Definition dec (n : nat) : string := NilZero.string_of_uint (Nat.to_uint n).

Definition zfill (width : nat) (s : string) : string :=
  repeat_str "0" (width - String.length s) +:+ s.

Definition hex_digit (n : nat) : ascii :=
  match n with
  | 0 => "0" | 1 => "1" | 2 => "2" | 3 => "3" | 4 => "4" | 5 => "5" | 6 => "6"
  | 7 => "7" | 8 => "8" | 9 => "9" | 10 => "a" | 11 => "b" | 12 => "c"
  | 13 => "d" | 14 => "e" | _ => "f"
  end%char.

(** Two lower-case hexadecimal digits of a code point below 256. *)
Definition hex2 (c : ascii) : string :=
  let n := nat_of_ascii c in
  String (hex_digit (n / 16)) (String (hex_digit (n mod 16)) EmptyString).

(** [repr(s)] for a string.  The quote is the single one unless the text
    holds a single quote and no double quote; the quote and the backslash are
    escaped, tab, newline and return have their letters, and what is not
    printable is written as x and two hexadecimal digits. *)
Definition printable (c : ascii) : bool :=
  let n := nat_of_ascii c in
  (((32 <=? n) && (n <=? 126)) || ((161 <=? n) && negb (n =? 173)))%nat.

Definition repr_char (quote c : ascii) : string :=
  if Ascii.eqb c quote || Ascii.eqb c "\"%char then String "\"%char (String c EmptyString)
  else if Ascii.eqb c "009"%char then "\t"
  else if Ascii.eqb c "010"%char then "\n"
  else if Ascii.eqb c "013"%char then "\r"
  else if printable c then String c EmptyString
  else "\x" +:+ hex2 c.

Fixpoint concat_map (f : ascii -> string) (s : string) : string :=
  match s with
  | EmptyString => EmptyString
  | String c r => f c +:+ concat_map f r
  end.

Definition repr_str (s : string) : string :=
  let quote : ascii :=
    if contains "'" s && negb (contains (String dquote EmptyString) s)
    then dquote else "'"%char in
  String quote (concat_map (repr_char quote) s) +:+ String quote EmptyString.

End PyStr.

(** ** Values of the framework's state mapping

    The final state maps report kinds to text; [debate_history] is a
    sequence of texts; a key may also hold [None]. *)

Inductive pyval :=
| VNone
| VStr (s : string)
| VSeq (l : list string).

(** [bool(v)] *)
Definition truthy (v : pyval) : bool :=
  match v with
  | VNone => false
  | VStr s => PyStr.truthy s
  | VSeq l => match l with [] => false | _ :: _ => true end
  end.

(** [str(v)] *)
Definition py_str (v : pyval) : string :=
  match v with
  | VNone => "None"
  | VStr s => s
  | VSeq l => "[" +:+ PyStr.join ", " (List.map PyStr.repr_str l) +:+ "]"
  end.

(** [key in d and d[key]] *)
Definition populated (d : gmap string pyval) (key : string) : bool :=
  match d !! key with
  | Some v => truthy v
  | None => false
  end.

(** ** The json module, as far as the export uses it

    [json.dumps(obj, indent=2)] and [json.loads] on documents made of
    objects, arrays and strings, the only forms the export emits.  An object
    keeps its members in insertion order, as a Python [dict] does. *)

Module Json.

#[local] Set Warnings "-register-all".

Inductive json :=
| JStr (s : string)
| JArr (items : list json)
| JObj (members : list (string * json)).

(** *** Encoder *)

(** [py_encode_basestring_ascii]: the quote and the backslash are escaped,
    backspace, form feed, newline, return and tab have their letters, and
    every other character outside space..tilde is written as u and four
    lower-case hexadecimal digits. *)
Definition escape_char (c : ascii) : string :=
  let n := nat_of_ascii c in
  if Ascii.eqb c PyStr.dquote then String "\" (String PyStr.dquote EmptyString)
  else if Ascii.eqb c "\"%char then "\\"
  else if Ascii.eqb c "008"%char then "\b"
  else if Ascii.eqb c "012"%char then "\f"
  else if Ascii.eqb c "010"%char then "\n"
  else if Ascii.eqb c "013"%char then "\r"
  else if Ascii.eqb c "009"%char then "\t"
  else if ((32 <=? n) && (n <=? 126))%nat then String c EmptyString
  else "\u00" +:+ PyStr.hex2 c.

Definition encode_basestring_ascii (s : string) : string :=
  String PyStr.dquote (PyStr.concat_map escape_char s) +:+ String PyStr.dquote EmptyString.

(** With [indent=2] every item starts on a line of its own, two spaces
    deeper than the bracket that holds it. *)
Definition newline_indent (level : nat) : string :=
  PyStr.nl +:+ PyStr.repeat_str " " (2 * level).

Fixpoint encode (level : nat) (v : json) : string :=
  match v with
  | JStr s => encode_basestring_ascii s
  | JArr [] => "[]"
  | JArr (x :: xs) =>
      "[" +:+ newline_indent (S level) +:+ encode (S level) x +:+
      (fix rest (l : list json) : string :=
         match l with
         | [] => newline_indent level +:+ "]"
         | y :: ys => "," +:+ newline_indent (S level) +:+ encode (S level) y +:+ rest ys
         end) xs
  | JObj [] => "{}"
  | JObj ((k, x) :: ms) =>
      "{" +:+ newline_indent (S level) +:+
      encode_basestring_ascii k +:+ ": " +:+ encode (S level) x +:+
      (fix rest (l : list (string * json)) : string :=
         match l with
         | [] => newline_indent level +:+ "}"
         | (k', y) :: ys =>
             "," +:+ newline_indent (S level) +:+
             encode_basestring_ascii k' +:+ ": " +:+ encode (S level) y +:+ rest ys
         end) ms
  end.

Definition dumps (v : json) : string := encode 0 v.

(** *** Decoder *)

Definition is_ws (c : ascii) : bool :=
  Ascii.eqb c " "%char || Ascii.eqb c "009"%char ||
  Ascii.eqb c "010"%char || Ascii.eqb c "013"%char.

Fixpoint skip_ws (s : string) : string :=
  match s with
  | String c r => if is_ws c then skip_ws r else s
  | EmptyString => s
  end.

Definition hex_value (c : ascii) : option nat :=
  let n := nat_of_ascii c in
  if ((48 <=? n) && (n <=? 57))%nat then Some (n - 48)
  else if ((97 <=? n) && (n <=? 102))%nat then Some (n - 87)
  else if ((65 <=? n) && (n <=? 70))%nat then Some (n - 55)
  else None.

(** The code point of four hexadecimal digits; [None] when a digit is
    malformed or the code point lies outside the modelled range. *)
Definition decode_uxxxx (a b c d : ascii) : option ascii :=
  match hex_value a, hex_value b, hex_value c, hex_value d with
  | Some x, Some y, Some z, Some w =>
      let n := ((x * 16 + y) * 16 + z) * 16 + w in
      if (n <? 256)%nat then Some (ascii_of_nat n) else None
  | _, _, _, _ => None
  end.

Definition unescape (e : ascii) : option ascii :=
  if Ascii.eqb e PyStr.dquote then Some PyStr.dquote
  else if Ascii.eqb e "\"%char then Some "\"%char
  else if Ascii.eqb e "/"%char then Some "/"%char
  else if Ascii.eqb e "b"%char then Some "008"%char
  else if Ascii.eqb e "f"%char then Some "012"%char
  else if Ascii.eqb e "n"%char then Some "010"%char
  else if Ascii.eqb e "r"%char then Some "013"%char
  else if Ascii.eqb e "t"%char then Some "009"%char
  else None.

(** [scanstring] in strict mode, from the character after the opening
    quote: the text up to the closing quote, and what follows it. *)
Fixpoint scanstring (s : string) : option (string * string) :=
  match s with
  | EmptyString => None
  | String c r =>
      if Ascii.eqb c PyStr.dquote then Some (EmptyString, r)
      else if Ascii.eqb c "\"%char then
        match r with
        | EmptyString => None
        | String e r1 =>
            if Ascii.eqb e "u"%char then
              match r1 with
              | String h1 (String h2 (String h3 (String h4 r2))) =>
                  match decode_uxxxx h1 h2 h3 h4, scanstring r2 with
                  | Some ch, Some (t, r3) => Some (String ch t, r3)
                  | _, _ => None
                  end
              | _ => None
              end
            else
              match unescape e, scanstring r1 with
              | Some ch, Some (t, r3) => Some (String ch t, r3)
              | _, _ => None
              end
        end
      else if (nat_of_ascii c <? 32)%nat then None
      else
        match scanstring r with
        | Some (t, r3) => Some (String c t, r3)
        | None => None
        end
  end.

(** The value that starts at the head of the text, and what follows it.
    [fuel] bounds the number of values, array items and object members
    read. *)
Fixpoint parse_value (fuel : nat) (s : string) : option (json * string) :=
  match fuel with
  | O => None
  | S fuel' =>
      match s with
      | String c r =>
          if Ascii.eqb c PyStr.dquote then
            match scanstring r with
            | Some (t, r') => Some (JStr t, r')
            | None => None
            end
          else if Ascii.eqb c "["%char then
            match skip_ws r with
            | String "]" r' => Some (JArr [], r')
            | r' =>
                match parse_items fuel' r' with
                | Some (items, r'') => Some (JArr items, r'')
                | None => None
                end
            end
          else if Ascii.eqb c "{"%char then
            match skip_ws r with
            | String "}" r' => Some (JObj [], r')
            | r' =>
                match parse_members fuel' r' with
                | Some (members, r'') => Some (JObj members, r'')
                | None => None
                end
            end
          else None
      | EmptyString => None
      end
  end
with parse_items (fuel : nat) (s : string) : option (list json * string) :=
  match fuel with
  | O => None
  | S fuel' =>
      match parse_value fuel' s with
      | Some (v, r) =>
          match skip_ws r with
          | String "," r' =>
              match parse_items fuel' (skip_ws r') with
              | Some (vs, r'') => Some (v :: vs, r'')
              | None => None
              end
          | String "]" r' => Some ([v], r')
          | _ => None
          end
      | None => None
      end
  end
with parse_members (fuel : nat) (s : string) : option (list (string * json) * string) :=
  match fuel with
  | O => None
  | S fuel' =>
      match s with
      | String c r =>
          if Ascii.eqb c PyStr.dquote then
            match scanstring r with
            | Some (k, r1) =>
                match skip_ws r1 with
                | String ":" r2 =>
                    match parse_value fuel' (skip_ws r2) with
                    | Some (v, r3) =>
                        match skip_ws r3 with
                        | String "," r4 =>
                            match parse_members fuel' (skip_ws r4) with
                            | Some (ms, r5) => Some ((k, v) :: ms, r5)
                            | None => None
                            end
                        | String "}" r4 => Some ([(k, v)], r4)
                        | _ => None
                        end
                    | None => None
                    end
                | _ => None
                end
            | None => None
            end
          else None
      | EmptyString => None
      end
  end.

(** [json.loads]: blanks, one value, blanks, and nothing more.  [None]
    stands for [JSONDecodeError]. *)
Definition loads (s : string) : option json :=
  match parse_value (String.length s) (skip_ws s) with
  | Some (v, r) =>
      match skip_ws r with
      | EmptyString => Some v
      | String _ _ => None
      end
  | None => None
  end.

(** The Python [dict] behind a parsed object: a later member replaces an
    earlier one of the same key. *)
Definition to_dict (members : list (string * json)) : gmap string json :=
  fold_left (fun d kv => <[kv.1 := kv.2]> d) members ∅.

End Json.

(** ** datetime *)

Record date := Date { d_year : nat; d_month : nat; d_day : nat }.

Record datetime := DateTime {
  year : nat; month : nat; day : nat;
  hour : nat; minute : nat; second : nat; microsecond : nat }.

Definition pad (width n : nat) : string := PyStr.zfill width (PyStr.dec n).

(** [str(d)] for a [datetime.date] *)
Definition date_str (d : date) : string :=
  pad 4 (d_year d) +:+ "-" +:+ pad 2 (d_month d) +:+ "-" +:+ pad 2 (d_day d).

(** [t.isoformat()] for a naive [datetime.datetime]: the microseconds are
    written when they are not zero. *)
Definition isoformat (t : datetime) : string :=
  pad 4 (year t) +:+ "-" +:+ pad 2 (month t) +:+ "-" +:+ pad 2 (day t) +:+ "T" +:+
  pad 2 (hour t) +:+ ":" +:+ pad 2 (minute t) +:+ ":" +:+ pad 2 (second t) +:+
  (if (microsecond t =? 0)%nat then EmptyString else "." +:+ pad 6 (microsecond t)).

(** [t.strftime('%Y-%m-%d %H:%M')] and the same with [:%S], for years of
    four digits. *)
Definition strftime_minutes (t : datetime) : string :=
  pad 4 (year t) +:+ "-" +:+ pad 2 (month t) +:+ "-" +:+ pad 2 (day t) +:+ " " +:+
  pad 2 (hour t) +:+ ":" +:+ pad 2 (minute t).

Definition strftime_seconds (t : datetime) : string :=
  strftime_minutes t +:+ ":" +:+ pad 2 (second t).

(** ** The result bundle

    The dictionary [analysis_result] that [run_analysis] builds. *)
Record analysis_result := AnalysisResult {
  ticker : string;
  trade_date : string;
  final_state : gmap string pyval;
  decision : pyval;
  timestamp : datetime;
  selected_analysts : list string }.

(** ** streamlit_utils.py *)

Module StreamlitUtils.

(** *** Fixed-point formatting of a float

    [format(x, '.2f')] writes the decimal of two places nearest to the exact
    value of the float; a value halfway between two such decimals goes to
    the one whose last digit is even. *)

(** The integer nearest to [n * 2^e], ties to even; [n] is not negative. *)
Definition round_half_even (n e : Z) : Z :=
  if (0 <=? e)%Z then (n * 2 ^ e)%Z
  else
    let d := (2 ^ (- e))%Z in
    let q := (n / d)%Z in
    let r := (n mod d)%Z in
    if (2 * r <? d)%Z then q
    else if (d <? 2 * r)%Z then (q + 1)%Z
    else if Z.even q then q else (q + 1)%Z.

Definition dec_Z (z : Z) : string := NilZero.string_of_uint (N.to_uint (Z.to_N z)).

(** A count of hundredths as a decimal with two places. *)
Definition hundredths (q : Z) : string :=
  dec_Z (q / 100) +:+ "." +:+ PyStr.zfill 2 (dec_Z (q mod 100)).

Definition sign_text (s : bool) : string := if s then "-" else EmptyString.

Definition format_2f (x : float) : string :=
  match Prim2SF x with
  | S754_nan => "nan"
  | S754_infinity s => sign_text s +:+ "inf"
  | S754_zero s => sign_text s +:+ "0.00"
  | S754_finite s m e => sign_text s +:+ hundredths (round_half_even (100 * Z.pos m) e)
  end.

Definition format_currency (value : float) : string :=
  if PrimFloat.leb 1e9 value then "$" +:+ format_2f (value / 1e9) +:+ "B"
  else if PrimFloat.leb 1e6 value then "$" +:+ format_2f (value / 1e6) +:+ "M"
  else if PrimFloat.leb 1e3 value then "$" +:+ format_2f (value / 1e3) +:+ "K"
  else "$" +:+ format_2f value.

Definition format_percentage (value : float) : string :=
  format_2f value +:+ "%".

(** *** JSON export *)

(** The report keys that the export copies, in the order of the loop. *)
Definition EXPORT_KEYS : list string :=
  ["market_report"; "sentiment_report"; "news_report";
   "fundamentals_report"; "investment_plan"; "trader_investment_plan";
   "final_trade_decision"].

(** The loop over the keys: [export_data['final_state'][key] = str(...)] for
    every key that the state holds with a truthy value.  The keys of the
    loop are distinct, so every assignment adds a member at the end. *)
Definition exported_reports (fs : gmap string pyval) : list (string * Json.json) :=
  List.flat_map
    (fun key => if populated fs key
                then match fs !! key with
                     | Some v => [(key, Json.JStr (py_str v))]
                     | None => []
                     end
                else [])
    EXPORT_KEYS.

Definition export_data (r : analysis_result) : Json.json :=
  Json.JObj
    [("ticker", Json.JStr (ticker r));
     ("trade_date", Json.JStr (trade_date r));
     ("timestamp", Json.JStr (isoformat (timestamp r)));
     ("decision", Json.JStr (py_str (decision r)));
     ("selected_analysts", Json.JArr (List.map Json.JStr (selected_analysts r)));
     ("final_state", Json.JObj (exported_reports (final_state r)))].

(** No step of the [try] block can raise on a bundle of this type, so the
    handler that returns the empty string is never entered. *)
Definition export_analysis_to_json (r : analysis_result) : string :=
  Json.dumps (export_data r).

End StreamlitUtils.

(** ** streamlit_app.py *)

Module StreamlitApp.

#[local] Set Warnings "-register-all".

(** *** Session state *)

(** A configuration value: a model name, a round count, or the mapping of
    data vendors. *)
Inductive cfgval :=
| CStr (s : string)
| CInt (n : Z)
| CDict (d : gmap string string).

(** [st.session_state] once [initialize_session_state] has run. *)
Record session_state := SessionState {
  analysis_history : list analysis_result;
  current_analysis : option analysis_result;
  analysis_running : bool;
  config : gmap string cfgval }.

(** [st.session_state] as a script run finds it: each of the four keys is
    there ([Some]) or not yet ([None]). *)
Record stored_state := StoredState {
  stored_history : option (list analysis_result);
  stored_current : option (option analysis_result);
  stored_running : option bool;
  stored_config : option (gmap string cfgval) }.

(** The state of a session that has run no script yet. *)
Definition fresh : stored_state := StoredState None None None None.

(** What the next script run of the session finds. *)
Definition store (s : session_state) : stored_state :=
  StoredState (Some (analysis_history s)) (Some (current_analysis s))
              (Some (analysis_running s)) (Some (config s)).

(** *** Calls to Streamlit

    The page is the sequence of display calls of a script run; a [with]
    block holds the calls made inside it.  Input widgets are represented by
    the values they return (see [widgets]). *)
Inductive st_call :=
| st_error (body : string)
| st_success (body : string)
| st_info (body : string)
| st_subheader (body : string)
| st_write (body : string)
| st_markdown (body : string)
| st_html (body : string)
| st_metric (label value : string) (delta : option string)
| st_progress (value : nat)
| st_empty
| st_text (body : string)
| st_code (body : string)
| st_download_button (label data file_name mime : string)
| st_dataframe (rows : list (list string))
| st_expander (label : string) (expanded : bool) (body : list st_call)
| st_tab (label : string) (body : list st_call).

(** *** The external framework *)

(** What [ta.propagate(ticker, trade_date)] does: it raises, or it returns
    the final state and the decision. *)
Inductive propagated :=
| PropagateRaised (message : string)
| Propagated (final_state : gmap string pyval) (decision : pyval).

(** What [TradingAgentsGraph(selected_analysts=..., debug=False, config=...)]
    does: it raises (as the stand-in class does when the framework is not
    installed), or it returns a graph, given by its [propagate] method. *)
Inductive constructed :=
| ConstructRaised (message : string)
| Constructed (propagate : string -> string -> propagated).

(** One call of the framework's entry point. *)
Record framework_call := FrameworkCall {
  call_analysts : list string;
  call_config : gmap string cfgval;
  call_ticker : string;
  call_date : string }.

(** What a script run takes from outside the repository. *)
Record environment := Environment {
  DEFAULT_CONFIG : gmap string cfgval;
  TradingAgentsGraph : list string -> gmap string cfgval -> constructed;
  now : datetime;
  format_exc : string -> string;
  (** the calls that [get_stock_info] and [create_metrics_dashboard] make
      for a ticker; they read the market-data source and are taken to
      return *)
  stock_summary : string -> list st_call;
  (** the charts tab *)
  charts : string -> list st_call;
  (** [display_config_summary] *)
  config_summary : gmap string cfgval -> list st_call;
  (** [display_agent_status] *)
  agent_status : list st_call }.

(** *** Effects *)

(** [RerunException] is what [st.rerun()] raises, and what every call to
    Streamlit raises once a rerun request is pending.  A stop request makes
    the calls raise [StopException] at the same places; neither of the two is
    an [Exception], no handler of this program catches them, and the model
    has the one constructor for both. *)
Inductive exn :=
| Exception (message : string)
| RerunException.

Inductive outcome (A : Type) :=
| Return (a : A)
| Raise (e : exn).
Arguments Return {A} a.
Arguments Raise {A} e.

(** A script run can be cut off from outside: when the user touches a
    widget or stops the script, the request is served at the next call to
    Streamlit, which raises.  [pending] says when the request arrives:
    [Some n] after [n] more calls to Streamlit, [None] not during this
    run. *)
Record world := MkWorld {
  session : session_state;
  page : list st_call;
  calls : list framework_call;
  pending : option nat }.

(** The world of a run during which no request arrives. *)
Abbreviation World s pg cl := (MkWorld s pg cl None).

Definition M (A : Type) : Type := world -> outcome A * world.

#[export] Instance M_ret : MRet M := fun A a w => (Return a, w).

#[export] Instance M_bind : MBind M := fun A B f m w =>
  match m w with
  | (Return a, w') => f a w'
  | (Raise e, w') => (Raise e, w')
  end.

Definition raise {A : Type} (e : exn) : M A := fun w => (Raise e, w).

(** [try: body except Exception as e: handler(str(e))] *)
Definition try_except {A : Type} (body : M A) (handler : string -> M A) : M A :=
  fun w =>
    match body w with
    | (Raise (Exception message), w') => handler message w'
    | r => r
    end.

(** Every call to Streamlit is a point at which a pending request is
    served: the call raises instead of returning.  [yield] is such a call
    with nothing to show on the page modelled here (an input widget, a
    column layout, a sidebar notice); one [yield] stands for a run of such
    calls between which the program writes nothing to the session state. *)
Definition yield : M unit :=
  fun w =>
    match pending w with
    | None => (Return tt, w)
    | Some (S n) => (Return tt, MkWorld (session w) (page w) (calls w) (Some n))
    | Some O => (Raise RerunException, w)
    end.

Definition show (c : st_call) : M unit :=
  fun w => (Return tt, MkWorld (session w) (page w ++ [c]) (calls w) (pending w)).

(** A display call. *)
Definition emit (c : st_call) : M unit := yield;; show c.

(** Display calls made one after the other: those before the request are
    shown. *)
Definition emit_all (cs : list st_call) : M unit :=
  fun w =>
    match pending w with
    | None => (Return tt, MkWorld (session w) (page w ++ cs) (calls w) None)
    | Some n =>
        if (n <? length cs)%nat
        then (Raise RerunException,
              MkWorld (session w) (page w ++ take n cs) (calls w) (Some O))
        else (Return tt,
              MkWorld (session w) (page w ++ cs) (calls w) (Some (n - length cs)))
    end.

(** [with container: body], where making the container is a call to
    Streamlit; the container keeps what the body has shown when the body
    raises. *)
Definition within {A : Type} (container : list st_call -> st_call) (body : M A) : M A :=
  yield;;
  ((fun w =>
      let '(r, w') := body (MkWorld (session w) [] (calls w) (pending w)) in
      (r, MkWorld (session w') (page w ++ [container (page w')]) (calls w')
                  (pending w'))) : M A).

(** [tabs = st.tabs(labels)] makes all the tabs at once, each of them empty;
    the blocks [with tab:] then fill them in their order.  When a block
    raises, its tab keeps what the block has shown and the tabs after it
    stay empty. *)
Fixpoint fill_tabs (blocks : list (string * M unit)) : M unit :=
  match blocks with
  | [] => mret tt
  | (label, body) :: rest =>
      fun w =>
        let '(r, w') := body (MkWorld (session w) [] (calls w) (pending w)) in
        let filled := page w ++ [st_tab label (page w')] in
        match r with
        | Return _ =>
            fill_tabs rest (MkWorld (session w') filled (calls w') (pending w'))
        | Raise e =>
            (Raise e,
             MkWorld (session w')
                     (filled ++ List.map (fun block => st_tab block.1 []) rest)
                     (calls w') (pending w'))
        end
  end.

Definition st_tabs (blocks : list (string * M unit)) : M unit :=
  yield;; fill_tabs blocks.

Definition get_state : M session_state := fun w => (Return (session w), w).

Definition put_state (s : session_state) : M unit :=
  fun w => (Return tt, MkWorld s (page w) (calls w) (pending w)).

Definition record_call (c : framework_call) : M unit :=
  fun w => (Return tt, MkWorld (session w) (page w) (calls w ++ [c]) (pending w)).

Definition when (b : bool) (body : M unit) : M unit :=
  if b then body else mret tt.

(** [st.rerun()] leaves the script run; the script then runs again. *)
Definition st_rerun {A : Type} : M A := raise RerunException.

Definition initialize_session_state (env : environment) (stored : stored_state)
  : session_state :=
  SessionState
    (match stored_history stored with Some h => h | None => [] end)
    (match stored_current stored with Some c => c | None => None end)
    (match stored_running stored with Some b => b | None => false end)
    (match stored_config stored with Some c => c | None => DEFAULT_CONFIG env end).

(** *** Widgets *)

(** The values that the input widgets return in a script run.  [w_ticker]
    is the text input in upper case, as [.upper()] leaves it. *)
Record widgets := Widgets {
  w_llm_provider : string;
  w_deep_think_model : string;
  w_quick_think_model : string;
  w_selected_analysts : list string;
  w_max_debate_rounds : Z;
  w_max_risk_rounds : Z;
  w_core_stock_vendor : string;
  w_technical_vendor : string;
  w_fundamental_vendor : string;
  w_news_vendor : string;
  w_ticker : string;
  w_trade_date : date;
  w_submitted : bool;
  w_copy_clicked : bool;
  w_selected_analysis : nat;
  w_view_clicked : bool }.

(** The titles, notices and widgets of the sidebar, which are not part of
    the page modelled here; then [st.session_state.config.update({...})] and
    the analysts chosen. *)
Definition create_sidebar (w : widgets) : M (list string) :=
  yield;;
  s ← get_state;
  put_state
    (SessionState (analysis_history s) (current_analysis s) (analysis_running s)
       (<["data_vendors" :=
            CDict (<["news_data" := w_news_vendor w]>
                   (<["fundamental_data" := w_fundamental_vendor w]>
                    (<["technical_indicators" := w_technical_vendor w]>
                     (<["core_stock_apis" := w_core_stock_vendor w]> ∅))))]>
        (<["max_risk_discuss_rounds" := CInt (w_max_risk_rounds w)]>
         (<["max_debate_rounds" := CInt (w_max_debate_rounds w)]>
          (<["quick_think_llm" := CStr (w_quick_think_model w)]>
           (<["deep_think_llm" := CStr (w_deep_think_model w)]>
            (<["llm_provider" := CStr (w_llm_provider w)]> (config s))))))));;
  mret (w_selected_analysts w).

(** *** The analysis invoker *)

Definition set_running (b : bool) : M unit :=
  s ← get_state;
  put_state (SessionState (analysis_history s) (current_analysis s) b (config s)).

Definition set_current (c : option analysis_result) : M unit :=
  s ← get_state;
  put_state (SessionState (analysis_history s) c (analysis_running s) (config s)).

Definition append_history (r : analysis_result) : M unit :=
  s ← get_state;
  put_state (SessionState (analysis_history s ++ [r]) (current_analysis s)
                          (analysis_running s) (config s)).

Definition construct (env : environment) (selected_analysts : list string)
    (cfg : gmap string cfgval) : M (string -> string -> propagated) :=
  match TradingAgentsGraph env selected_analysts cfg with
  | ConstructRaised message => raise (Exception message)
  | Constructed propagate => mret propagate
  end.

Definition propagate_call (ta : string -> string -> propagated)
    (selected_analysts : list string) (cfg : gmap string cfgval)
    (ticker trade_date : string) : M (gmap string pyval * pyval) :=
  record_call (FrameworkCall selected_analysts cfg ticker trade_date);;
  match ta ticker trade_date with
  | PropagateRaised message => raise (Exception message)
  | Propagated final_state decision => mret (final_state, decision)
  end.

Definition run_analysis (env : environment) (ticker trade_date : string)
    (selected_analysts : list string) : M (option analysis_result) :=
  try_except
    (if negb (PyStr.truthy ticker) || negb (PyStr.truthy trade_date) then
       emit (st_error "Please provide both ticker symbol and trade date");;
       mret None
     else
       emit (st_progress 0);;
       emit st_empty;;
       emit (st_text "Initializing TradingAgents...");;
       emit (st_progress 10);;
       s ← get_state;
       ta ← construct env selected_analysts (config s);
       emit (st_progress 20);;
       emit (st_text "Running analysis...");;
       fd ← propagate_call ta selected_analysts (config s) ticker trade_date;
       emit (st_progress 100);;
       emit (st_text "Analysis completed!");;
       let analysis_result :=
         AnalysisResult ticker trade_date fd.1 fd.2 (now env) selected_analysts in
       append_history analysis_result;;
       set_current (Some analysis_result);;
       mret (Some analysis_result))
    (fun message =>
       emit (st_error ("Analysis failed: " +:+ message));;
       emit (st_error ("Details: " +:+ format_exc env message));;
       mret None).

(** [with st.form("analysis_form")] in [main]: the form and its widgets,
    then what the submit button starts. *)
Definition analysis_form (env : environment) (w : widgets)
    (selected_analysts : list string) : M unit :=
  yield;;
  if w_submitted w then
    set_running true;;
    result ← run_analysis env (w_ticker w) (date_str (w_trade_date w)) selected_analysts;
    set_running false;;
    match result with
    | Some _ =>
        emit (st_success ("✅ Analysis completed for " +:+ w_ticker w +:+ "!"));;
        st_rerun
    | None => mret tt
    end
  else mret tt.

(** *** The result renderer *)

(** The colour of the decision banner. *)
Definition decision_color (decision : pyval) : string :=
  if PyStr.contains "buy" (PyStr.lower (py_str decision)) then "green"
  else if PyStr.contains "sell" (PyStr.lower (py_str decision)) then "red"
  else "gray".

Definition decision_banner (decision : pyval) : string :=
  "<div style=" +:+
  PyStr.quoted ("background-color: " +:+ decision_color decision +:+
                "; color: white; padding: 1rem; border-radius: 5px; " +:+
                "text-align: center; font-size: 1.2rem; font-weight: bold;") +:+
  ">" +:+ py_str decision +:+ "</div>".

(** The text that [st.markdown(final_state[key])] shows. *)
Definition report_text (fs : gmap string pyval) (key : string) : string :=
  match fs !! key with
  | Some v => py_str v
  | None => EmptyString
  end.

(** A report shown in an expander of its own (analyst reports). *)
Definition report_expander (fs : gmap string pyval) (key label : string) : M unit :=
  when (populated fs key)
    (within (st_expander label true) (emit (st_markdown (report_text fs key)))).

(** A report shown under a heading (research, trading and risk tabs). *)
Definition report_section (fs : gmap string pyval) (key heading : string) : M unit :=
  when (populated fs key)
    (emit (st_markdown heading);; emit (st_markdown (report_text fs key))).

(** [iter(v)]: [None] is not iterable, a string yields its characters. *)
Fixpoint chars (s : string) : list string :=
  match s with
  | EmptyString => []
  | String c r => String c EmptyString :: chars r
  end.

Definition py_iter (v : pyval) : M (list string) :=
  match v with
  | VNone => raise (Exception "'NoneType' object is not iterable")
  | VStr s => mret (chars s)
  | VSeq l => mret l
  end.

(** [for round_num, debate in enumerate(rounds, start)] *)
Fixpoint debate_rounds (round_num : nat) (rounds : list string) : M unit :=
  match rounds with
  | [] => mret tt
  | debate :: rest =>
      within (st_expander ("Debate Round " +:+ PyStr.dec round_num) false)
             (emit (st_markdown debate));;
      debate_rounds (S round_num) rest
  end.

(** The debate history is shown whenever the key is in the state. *)
Definition debate_history_section (fs : gmap string pyval) : M unit :=
  match fs !! "debate_history" with
  | Some v =>
      emit (st_markdown "### Debate History");;
      rounds ← py_iter v;
      debate_rounds 1 rounds
  | None => mret tt
  end.

Definition summary_tab (env : environment) (r : analysis_result) : M unit :=
  emit (st_subheader ("Analysis Summary for " +:+ ticker r));;
  emit (st_write ("**Date:** " +:+ trade_date r));;
  emit (st_write ("**Analysis Time:** " +:+ strftime_seconds (timestamp r)));;
  emit_all (stock_summary env (ticker r));;
  when (truthy (decision r))
    (emit (st_markdown "### 🎯 Final Trading Decision");;
     emit (st_html (decision_banner (decision r))));;
  emit (st_metric "Analysts Used" (PyStr.dec (length (selected_analysts r))) None);;
  emit (st_metric "Confidence Level" "High" None);;
  emit (st_metric "Risk Level" "Medium" None).

Definition analyst_reports_tab (fs : gmap string pyval) : M unit :=
  emit (st_subheader "📊 Analyst Team Reports");;
  report_expander fs "market_report" "📈 Market Analysis";;
  report_expander fs "sentiment_report" "💭 Social Sentiment Analysis";;
  report_expander fs "news_report" "📰 News Analysis";;
  report_expander fs "fundamentals_report" "📊 Fundamentals Analysis".

Definition research_tab (fs : gmap string pyval) : M unit :=
  emit (st_subheader "🔬 Research Team Analysis");;
  report_section fs "investment_plan" "### Research Team Recommendation";;
  debate_history_section fs.

Definition trading_tab (fs : gmap string pyval) : M unit :=
  emit (st_subheader "💼 Trading Team Decision");;
  report_section fs "trader_investment_plan" "### Trader Analysis";;
  report_section fs "final_trade_decision" "### Final Trade Decision".

Definition risk_tab (fs : gmap string pyval) : M unit :=
  emit (st_subheader "⚠️ Risk Management Assessment");;
  report_section fs "risk_assessment" "### Risk Analysis";;
  emit (st_markdown "### Risk Metrics");;
  emit (st_metric "Market Risk" "Medium" (Some "0.2"));;
  emit (st_metric "Volatility Risk" "High" (Some "-0.1"));;
  emit (st_metric "Liquidity Risk" "Low" (Some "0.0")).

Definition charts_tab (env : environment) (r : analysis_result) : M unit :=
  emit (st_subheader "📈 Stock Charts and Analysis");;
  emit_all (charts env (ticker r)).

Definition export_tab (env : environment) (w : widgets) (r : analysis_result) : M unit :=
  emit (st_subheader "💾 Export Analysis");;
  s ← get_state;
  emit_all (config_summary env (config s));;
  emit (st_markdown "---");;
  emit (st_markdown "### Export Options");;
  when (w_copy_clicked w)
    (let json_data := StreamlitUtils.export_analysis_to_json r in
     when (PyStr.truthy json_data)
       (emit (st_code (if (500 <? String.length json_data)%nat
                       then String.substring 0 500 json_data +:+ "..."
                       else json_data));;
        emit (st_success "Analysis data ready for copying!")));;
  let json_data := StreamlitUtils.export_analysis_to_json r in
  when (PyStr.truthy json_data)
    (emit (st_download_button "💾 Download as JSON" json_data
             (ticker r +:+ "_" +:+ trade_date r +:+ "_analysis.json")
             "application/json")).

(** A bundle is a dictionary of six keys, so [if not analysis_result] never
    leaves the function. *)
Definition display_analysis_results (env : environment) (w : widgets)
    (r : analysis_result) : M unit :=
  let fs := final_state r in
  st_tabs
    [("📊 Summary", summary_tab env r);
     ("🔍 Analyst Reports", analyst_reports_tab fs);
     ("🔬 Research Debate", research_tab fs);
     ("💼 Trading Decision", trading_tab fs);
     ("⚠️ Risk Assessment", risk_tab fs);
     ("📈 Charts", charts_tab env r);
     ("💾 Export", export_tab env w r)].

(** *** The history view *)

Definition history_row (r : analysis_result) : list string :=
  [ticker r; trade_date r; strftime_minutes (timestamp r);
   (if (50 <? String.length (py_str (decision r)))%nat
    then String.substring 0 50 (py_str (decision r)) +:+ "..."
    else py_str (decision r));
   PyStr.join ", " (selected_analysts r)].

(** [history[i]], which raises [IndexError] outside the list. *)
Definition history_item (i : nat) : M analysis_result :=
  s ← get_state;
  match analysis_history s !! i with
  | Some r => mret r
  | None => raise (Exception "list index out of range")
  end.

Definition display_analysis_history (w : widgets) : M unit :=
  emit (st_subheader "📚 Analysis History");;
  s ← get_state;
  match analysis_history s with
  | [] => emit (st_info "No previous analyses found. Run your first analysis above!")
  | _ :: _ =>
      let history_data := List.map history_row (analysis_history s) in
      yield;;
      when (w_view_clicked w)
        (r ← history_item (w_selected_analysis w);
         set_current (Some r));;
      emit (st_dataframe history_data)
  end.

(** *** The script *)

Definition header : string :=
  PyStr.nl +:+ "    <div class=" +:+ PyStr.quoted "main-header" +:+ ">" +:+ PyStr.nl +:+
  "        <h1>🤖 TradingAgents</h1>" +:+ PyStr.nl +:+
  "        <h3>Multi-Agent LLM Financial Trading Framework</h3>" +:+ PyStr.nl +:+
  "        <p>Powered by specialized AI agents for comprehensive market analysis</p>" +:+
  PyStr.nl +:+ "    </div>" +:+ PyStr.nl +:+ "    ".

Definition script (env : environment) (w : widgets) : M unit :=
  emit (st_html header);;
  selected_analysts ← create_sidebar w;
  emit (st_subheader "🚀 Run Analysis");;
  analysis_form env w selected_analysts;;
  emit (st_markdown "---");;
  emit_all (agent_status env);;
  s ← get_state;
  match current_analysis s with
  | Some r => emit (st_markdown "---");; display_analysis_results env w r
  | None => mret tt
  end;;
  s' ← get_state;
  match analysis_history s' with
  | _ :: _ => emit (st_markdown "---");; display_analysis_history w
  | [] => mret tt
  end.

(** One run of [main] on what the session has stored, with the request
    that arrives during the run.  A run that is cut off before [main] is
    entered, at a call of the module level, leaves what the session has
    stored as it is. *)
Definition script_run (env : environment) (stored : stored_state) (w : widgets)
    (request : option nat) : outcome unit * world :=
  script env w (MkWorld (initialize_session_state env stored) [] [] request).

(** A run during which no request arrives. *)
Definition main (env : environment) (stored : stored_state) (w : widgets)
  : outcome unit * world :=
  script_run env stored w None.

End StreamlitApp.

(** ** gradio_app.py *)

Module GradioApp.

Import StreamlitApp.

Record environment := Environment {
  TRADING_AGENTS_AVAILABLE : bool;
  DEFAULT_CONFIG : gmap string cfgval;
  TradingAgentsGraph : list string -> gmap string cfgval -> constructed;
  now : datetime }.

(** The three Markdown outputs, and the calls made to the framework. *)
Record outputs := Outputs {
  summary : string;
  detailed_reports : string;
  trading_info : string;
  framework_calls : list framework_call }.

Definition report (fs : gmap string pyval) (key heading : string) : list string :=
  if populated fs key
  then [heading +:+ PyStr.nl +:+ report_text fs key +:+ PyStr.nl]
  else [].

Definition plan (fs : gmap string pyval) (key heading tail : string) : string :=
  if populated fs key
  then heading +:+ PyStr.nl +:+ report_text fs key +:+ tail
  else EmptyString.

Definition format_results (env : environment) (ticker date_str : string)
    (fs : gmap string pyval) (decision : pyval) : string * string * string :=
  (PyStr.nl +:+ "## 🎯 Final Decision for " +:+ ticker +:+ PyStr.nl +:+
   "**Decision:** " +:+ py_str decision +:+ PyStr.nl +:+
   "**Date:** " +:+ date_str +:+ PyStr.nl +:+
   "**Analysis Time:** " +:+ strftime_seconds (now env) +:+ PyStr.nl +:+
   "        ",
   PyStr.join PyStr.nl
     (report fs "market_report" "## 📊 Market Analysis" ++
      report fs "sentiment_report" "## 💭 Sentiment Analysis" ++
      report fs "news_report" "## 📰 News Analysis" ++
      report fs "fundamentals_report" "## 📈 Fundamentals Analysis"),
   plan fs "investment_plan" "## 🔬 Research Team Decision" (PyStr.nl +:+ PyStr.nl) +:+
   plan fs "trader_investment_plan" "## 💼 Trading Plan" (PyStr.nl +:+ PyStr.nl) +:+
   plan fs "final_trade_decision" "## 📋 Final Trade Decision" PyStr.nl).

Definition run_trading_analysis (env : environment) (ticker date_str : string)
    (selected_analysts : list string) : outputs :=
  if negb (TRADING_AGENTS_AVAILABLE env) then
    Outputs "❌ TradingAgents framework not available" EmptyString EmptyString []
  else if negb (PyStr.truthy ticker) then
    Outputs "❌ Please enter a stock ticker" EmptyString EmptyString []
  else
    let config :=
      <["max_debate_rounds" := CInt 1]>
        (<["quick_think_llm" := CStr "gpt-4o-mini"]>
           (<["deep_think_llm" := CStr "gpt-4o-mini"]> (DEFAULT_CONFIG env))) in
    match TradingAgentsGraph env selected_analysts config with
    | ConstructRaised message =>
        Outputs ("❌ Analysis failed: " +:+ message) EmptyString EmptyString []
    | Constructed propagate =>
        let call := FrameworkCall selected_analysts config ticker date_str in
        match propagate ticker date_str with
        | PropagateRaised message =>
            Outputs ("❌ Analysis failed: " +:+ message) EmptyString EmptyString [call]
        | Propagated fs decision =>
            let '(s, d, t) := format_results env ticker date_str fs decision in
            Outputs s d t [call]
        end
    end.

End GradioApp.

(** ** run_streamlit.py *)

Module RunStreamlit.

(** How [subprocess.run(..., check=True)] ends. *)
Inductive run_outcome :=
| Completed
| KeyboardInterrupt
| CalledProcessError (text : string)
| FileNotFoundError.

(** The machine the launcher runs on: the working directory and whether it
    holds [streamlit_app.py], the modules that can be imported, the
    environment variables once [load_dotenv] has run, the interpreter, and
    what running a command does. *)
Record environment := Environment {
  cwd : string;
  app_exists : bool;
  importable : string -> bool;
  getenv : string -> option string;
  executable : string;
  subprocess_run : list string -> run_outcome }.

(** What a launcher run leaves behind: the texts printed, the command
    started (if any), and the exit status ([None]: the script ran to its
    end). *)
Record result := Result {
  printed : list string;
  started : option (list string);
  exit_status : option nat }.

Definition required_packages : list string :=
  ["streamlit"; "plotly"; "pandas"; "yfinance"; "python-dotenv"].

Definition missing_packages (env : environment) : list string :=
  List.filter (fun package => negb (importable env (PyStr.replace_char "-" "_" package)))
              required_packages.

Definition check_requirements (env : environment) : list string * bool :=
  match missing_packages env with
  | [] => ([], true)
  | missing =>
      (["❌ Missing required packages: " +:+ PyStr.join ", " missing;
        "Please install them using:";
        "pip install " +:+ PyStr.join " " missing], false)
  end.

Definition required_env_vars : list string := ["OPENAI_API_KEY"; "ALPHA_VANTAGE_API_KEY"].

Definition is_set (env : environment) (var : string) : bool :=
  match getenv env var with
  | Some value => PyStr.truthy value
  | None => false
  end.

Definition missing_vars (env : environment) : list string :=
  List.filter (fun var => negb (is_set env var)) required_env_vars.

Definition check_env_setup (env : environment) : list string * bool :=
  match missing_vars env with
  | [] => ([], true)
  | missing =>
      (["⚠️  Missing environment variables: " +:+ PyStr.join ", " missing;
        "Please set them in your .env file or as environment variables.";
        "You can also enter them in the Streamlit UI sidebar."], false)
  end.

(** [current_dir / "streamlit_app.py"] on a POSIX file system. *)
Definition streamlit_app_path (env : environment) : string :=
  if String.eqb (cwd env) "/" then "/streamlit_app.py"
  else cwd env +:+ "/streamlit_app.py".

Definition command (env : environment) : list string :=
  [executable env; "-m"; "streamlit"; "run"; streamlit_app_path env;
   "--server.address"; "localhost"; "--server.port"; "8501"].

Definition banner : list string :=
  ["🤖 TradingAgents Streamlit Application"; PyStr.repeat_str "=" 50].

Definition starting : list string :=
  [PyStr.nl +:+ "🚀 Starting Streamlit application...";
   "The application will open in your default web browser.";
   "If it doesn't open automatically, go to: http://localhost:8501";
   PyStr.nl +:+ PyStr.repeat_str "=" 50].

Definition main (env : environment) : result :=
  if negb (app_exists env) then
    Result (banner ++
            ["❌ streamlit_app.py not found in " +:+ cwd env;
             "Please run this script from the TradingAgents project directory."])%list
           None (Some 1)
  else
    let out1 :=
      (banner ++ ["📁 Running from: " +:+ cwd env; "🔍 Checking requirements..."])%list in
    let '(req_out, req_ok) := check_requirements env in
    if negb req_ok then Result (out1 ++ req_out)%list None (Some 1)
    else
      let '(env_out, env_ok) := check_env_setup env in
      let out2 :=
        (out1 ++ req_out ++
         ["✅ Requirements check passed"; "🔍 Checking environment setup..."] ++
         env_out ++
         [if env_ok then "✅ Environment variables configured"
          else "⚠️  Some environment variables missing (you can set them in the UI)"] ++
         starting)%list in
      match subprocess_run env (command env) with
      | Completed => Result out2 (Some (command env)) None
      | KeyboardInterrupt =>
          Result (out2 ++ [PyStr.nl +:+ "👋 Application stopped by user"])%list
                 (Some (command env)) None
      | CalledProcessError text =>
          Result (out2 ++ ["❌ Error running Streamlit: " +:+ text])%list
                 (Some (command env)) (Some 1)
      | FileNotFoundError =>
          Result (out2 ++ ["❌ Streamlit not found. Please install it using: pip install streamlit"])%list
                 None (Some 1)
      end.

(** Running the file: the imports of its first lines come before [main].
    [from dotenv import load_dotenv] raises [ModuleNotFoundError] where the
    module [dotenv] cannot be imported; the interpreter then writes the
    traceback to the error stream and ends with status 1, and nothing has
    been printed. *)
Definition run_module (env : environment) : result :=
  if importable env "dotenv" then main env else Result [] None (Some 1).

End RunStreamlit.

(** ** streamlit_utils.py: the configuration check and the agent statuses *)

Module StreamlitConfig.

Import StreamlitApp.

(** [bool(v)] for a configuration value. *)
Definition cfg_truthy (v : cfgval) : bool :=
  match v with
  | CStr s => PyStr.truthy s
  | CInt n => negb (n =? 0)%Z
  | CDict d => negb (bool_decide (d = ∅))
  end.

(** [not config.get(field)] *)
Definition field_missing (config : gmap string cfgval) (field : string) : bool :=
  match config !! field with
  | Some v => negb (cfg_truthy v)
  | None => true
  end.

(** [not data_vendors.get(vendor)] *)
Definition vendor_missing (data_vendors : gmap string string) (vendor : string) : bool :=
  match data_vendors !! vendor with
  | Some s => negb (PyStr.truthy s)
  | None => true
  end.

Definition required_fields : list string :=
  ["llm_provider"; "deep_think_llm"; "quick_think_llm"].

Definition required_vendors : list string :=
  ["core_stock_apis"; "technical_indicators"; "fundamental_data"; "news_data"].

(** [for x in xs: if missing(x): issues.append(message(x))] *)
Definition check_each (missing : string -> bool) (message : string -> string)
    (xs : list string) (issues : list string) : list string :=
  fold_left (fun issues x => if missing x then issues ++ [message x] else issues)
            xs issues.

(** [config.get('data_vendors', {})] is a mapping, or a value without the
    method [get], on which the call raises [AttributeError]. *)
Definition validate_configuration (config : gmap string cfgval) : outcome (list string) :=
  let issues :=
    check_each (field_missing config) (fun field => "Missing " +:+ field)
               required_fields [] in
  match default (CDict ∅) (config !! "data_vendors") with
  | CDict data_vendors =>
      Return (check_each (vendor_missing data_vendors)
                (fun vendor => "Missing data vendor for " +:+ vendor)
                required_vendors issues)
  | CStr _ => Raise (Exception "'str' object has no attribute 'get'")
  | CInt _ => Raise (Exception "'int' object has no attribute 'get'")
  end.

(** The key under which the status of an agent is kept in the session
    state. *)
Definition status_key (agent_name : string) : string :=
  PyStr.replace_char " " "_" (PyStr.lower agent_name) +:+ "_status".

(** The part of [st.session_state] that holds the statuses: texts under
    their keys. *)
Definition update_agent_status_in_session (agent_name status : string)
    (state : gmap string string) : gmap string string :=
  <[status_key agent_name := status]> state.

(** The groups of [display_agent_status] in streamlit_app.py, and the status
    that it reads for an agent. *)
Definition agent_groups : list (string * list string) :=
  [("📊 Analysts",
    ["Market Analyst"; "Social Analyst"; "News Analyst"; "Fundamentals Analyst"]);
   ("🔬 Researchers", ["Bull Researcher"; "Bear Researcher"; "Research Manager"]);
   ("💼 Trading", ["Trader"]);
   ("⚠️ Risk Mgmt", ["Risky Analyst"; "Neutral Analyst"; "Safe Analyst"]);
   ("👔 Portfolio", ["Portfolio Manager"])].

Definition shown_status (state : gmap string string) (agent : string) : string :=
  default "pending" (state !! status_key agent).

End StreamlitConfig.

(** * Vocabulary of the statements

    The definitions that the theorems below speak with: the encoder's
    auxiliary functions, the outcomes of the external call, sample inputs,
    the session invariant and the reachable states, the reading of a parsed
    export, and the specification's reading of the percentage format. *)

Import StreamlitApp.

(** ** Documents *)

(** Induction over documents, with the hypothesis for every item of an array
    and every member of an object. *)
Fixpoint json_ind' (P : Json.json -> Prop)
    (Hs : forall s, P (Json.JStr s))
    (Ha : forall items, Forall P items -> P (Json.JArr items))
    (Ho : forall members, Forall (fun kv => P kv.2) members -> P (Json.JObj members))
    (v : Json.json) {struct v} : P v :=
  match v with
  | Json.JStr s => Hs s
  | Json.JArr items =>
      Ha items
        ((fix go (l : list Json.json) : Forall P l :=
            match l with
            | [] => List.Forall_nil P
            | x :: xs => @List.Forall_cons _ P x xs (json_ind' P Hs Ha Ho x) (go xs)
            end) items)
  | Json.JObj members =>
      Ho members
        ((fix go (l : list (string * Json.json)) : Forall (fun kv => P kv.2) l :=
            match l with
            | [] => List.Forall_nil _
            | kv :: xs =>
                @List.Forall_cons _ (fun kv => P kv.2) kv xs
                  (json_ind' P Hs Ha Ho kv.2) (go xs)
            end) members)
  end.

(** What follows the first item of an array, and the first member of an
    object, in the encoder's output. *)
Fixpoint encode_more_items (level : nat) (l : list Json.json) : string :=
  match l with
  | [] => Json.newline_indent level +:+ "]"
  | y :: ys =>
      "," +:+ Json.newline_indent (S level) +:+ Json.encode (S level) y +:+
      encode_more_items level ys
  end.

Fixpoint encode_more_members (level : nat) (l : list (string * Json.json)) : string :=
  match l with
  | [] => Json.newline_indent level +:+ "}"
  | (k, y) :: ys =>
      "," +:+ Json.newline_indent (S level) +:+
      Json.encode_basestring_ascii k +:+ ": " +:+ Json.encode (S level) y +:+
      encode_more_members level ys
  end.

(** The fuel that reading a document back takes: one unit per value, and
    one more per array item and object member. *)
Fixpoint need (v : Json.json) : nat :=
  match v with
  | Json.JStr _ => 1
  | Json.JArr items => S (list_sum (List.map (fun x => S (need x)) items))
  | Json.JObj members => S (list_sum (List.map (fun kv => S (need kv.2)) members))
  end.

(** Every encoded value starts with a quote or an opening bracket. *)
Definition value_head (c : ascii) : Prop :=
  c = PyStr.dquote \/ c = "["%char \/ c = "{"%char.

(** A value is read back by any decoder run that has the fuel for it. *)
Definition reads_back (v : Json.json) : Prop :=
  forall (level : nat) (rest : string) (fuel : nat),
    need v <= fuel ->
    Json.parse_value fuel (Json.encode level v +:+ rest) = Some (v, rest).

(** ** Runs of the invoker *)

(** The calls that a run of the invoker shows up to the framework call. *)
Definition progress_start : list st_call :=
  [st_progress 0; st_empty; st_text "Initializing TradingAgents..."; st_progress 10].

Definition progress_running : list st_call :=
  [st_progress 20; st_text "Running analysis..."].

Definition progress_done : list st_call :=
  [st_progress 100; st_text "Analysis completed!"].

(** The two error calls of the handler. *)
Definition failure_report (env : environment) (message : string) : list st_call :=
  [st_error ("Analysis failed: " +:+ message);
   st_error ("Details: " +:+ format_exc env message)].

(** The external call raises: the constructor does, or [propagate] does. *)
Definition framework_raises (env : environment) (analysts : list string)
    (cfg : gmap string cfgval) (ticker trade_date message : string) : Prop :=
  TradingAgentsGraph env analysts cfg = ConstructRaised message \/
  exists ta, TradingAgentsGraph env analysts cfg = Constructed ta /\
             ta ticker trade_date = PropagateRaised message.

(** The external call returns a final state and a decision. *)
Definition framework_returns (env : environment) (analysts : list string)
    (cfg : gmap string cfgval) (ticker trade_date : string)
    (fs : gmap string pyval) (dec : pyval) : Prop :=
  exists ta, TradingAgentsGraph env analysts cfg = Constructed ta /\
             ta ticker trade_date = Propagated fs dec.

Definition with_running (b : bool) (s : session_state) : session_state :=
  SessionState (analysis_history s) (current_analysis s) b (config s).

(** ** Sample inputs *)

Definition sample_time : datetime := DateTime 2024 11 17 9 5 0 0.

Definition sample_env (c : constructed) : environment :=
  Environment ∅ (fun _ _ => c) sample_time
    (fun message => "Traceback (most recent call last): " +:+ message)
    (fun _ => []) (fun _ => []) (fun _ => []) [].

Definition sample_widgets (ticker : string) (submitted : bool) : widgets :=
  Widgets "openai" "gpt-4o-mini" "gpt-4o-mini" ["market"; "news"] 1 1
          "yfinance" "yfinance" "alpha_vantage" "alpha_vantage"
          ticker (Date 2024 11 16) submitted false 0 false.

Definition sample_state : session_state := SessionState [] None false ∅.

Definition uptrend : gmap string pyval := {[ "market_report" := VStr "Uptrend" ]}.

Definition returns_buy : constructed :=
  Constructed (fun _ _ => Propagated uptrend (VStr "BUY")).

Definition raises_timeout : constructed :=
  Constructed (fun _ _ => PropagateRaised "request timed out").

(** ** Session states *)

(** The current analysis, when there is one, is an entry of the history. *)
Definition current_in_history (s : session_state) : Prop :=
  match current_analysis s with
  | None => True
  | Some b => b ∈ analysis_history s
  end.

(** A script fragment keeps a property of the session state, whether it
    returns or raises. *)
Definition preserves {A : Type} (P : session_state -> Prop) (m : M A) : Prop :=
  forall w, P (session w) -> P (session (m w).2).

(** The states that a session can have stored between two script runs: the
    empty one, and what a run of the script leaves, whatever the widgets
    return and whatever the framework does, whether the run ends, raises or
    asks for a rerun, and whether or not a request cuts it off. *)
Inductive reachable : stored_state -> Prop :=
| reachable_fresh : reachable fresh
| reachable_run (env : environment) (stored : stored_state) (w : widgets)
    (request : option nat) :
    reachable stored ->
    reachable (store (session (script_run env stored w request).2)).

(** ** Parsed exports *)

(** The text of a JSON string value. *)
Definition json_text (v : Json.json) : option string :=
  match v with
  | Json.JStr s => Some s
  | _ => None
  end.

(** [parsed['final_state']] of a parsed export, as a mapping from report
    keys to texts. *)
Definition parsed_reports (doc : Json.json) : option (gmap string string) :=
  match doc with
  | Json.JObj members =>
      match Json.to_dict members !! "final_state" with
      | Some (Json.JObj reports) => Some (omap json_text (Json.to_dict reports))
      | _ => None
      end
  | _ => None
  end.

(** What the export writes for a key: the [str] of a truthy value. *)
Definition entry (fs : gmap string pyval) (key : string) : option string :=
  match fs !! key with
  | Some v => if truthy v then Some (py_str v) else None
  | None => None
  end.

Definition sample_bundle (fs : gmap string pyval) : analysis_result :=
  AnalysisResult "NVDA" "2024-11-16" fs (VStr "BUY") sample_time ["market"; "news"].

(** ** Decisions and percentages *)


(** The reading of the specification: two decimal places, a half rounded
    up. *)
Definition round_half_up (n e : Z) : Z :=
  if (0 <=? e)%Z then (n * 2 ^ e)%Z
  else (2 * n + 2 ^ (- e)) / (2 * 2 ^ (- e)).

Definition format_percentage_half_up (value : float) : string :=
  match Prim2SF value with
  | S754_nan => "nan%"
  | S754_infinity s => StreamlitUtils.sign_text s +:+ "inf%"
  | S754_zero s => StreamlitUtils.sign_text s +:+ "0.00%"
  | S754_finite s m e =>
      StreamlitUtils.sign_text s +:+
      StreamlitUtils.hundredths (round_half_up (100 * Z.pos m) e) +:+ "%"
  end.

(** The two digits of a number below one hundred. *)
Definition two_digits (r : Z) : string :=
  String (ascii_of_nat (48 + Z.to_nat (r / 10)))
         (String (ascii_of_nat (48 + Z.to_nat (r mod 10))) EmptyString).

(** ** Launcher and chat front end *)

Definition launch_env (importable : string -> bool) (getenv : string -> option string)
    (outcome : RunStreamlit.run_outcome) : RunStreamlit.environment :=
  RunStreamlit.Environment "/srv/trading-agent" true importable getenv
    "/usr/bin/python3" (fun _ => outcome).

Definition sample_gradio_env (c : constructed) : GradioApp.environment :=
  GradioApp.Environment true ∅ (fun _ _ => c) sample_time.

(** The configuration that the chat front end passes to the framework. *)
Definition gradio_config (env : GradioApp.environment) : gmap string cfgval :=
  <["max_debate_rounds" := CInt 1]>
    (<["quick_think_llm" := CStr "gpt-4o-mini"]>
       (<["deep_think_llm" := CStr "gpt-4o-mini"]> (GradioApp.DEFAULT_CONFIG env))).

(** ** Configuration, pages and script runs *)

(** The agents of the status view. *)
Definition agents : list string :=
  List.flat_map snd StreamlitConfig.agent_groups.

(** The four keys of the session state that [initialize_session_state]
    sets. *)
Definition state_keys : list string :=
  ["analysis_history"; "current_analysis"; "analysis_running"; "config"].


(** The configuration that the sidebar leaves. *)
Definition sidebar_config (w : widgets) (cfg : gmap string cfgval) : gmap string cfgval :=
  <["data_vendors" :=
      CDict (<["news_data" := w_news_vendor w]>
             (<["fundamental_data" := w_fundamental_vendor w]>
              (<["technical_indicators" := w_technical_vendor w]>
               (<["core_stock_apis" := w_core_stock_vendor w]> ∅))))]>
  (<["max_risk_discuss_rounds" := CInt (w_max_risk_rounds w)]>
   (<["max_debate_rounds" := CInt (w_max_debate_rounds w)]>
    (<["quick_think_llm" := CStr (w_quick_think_model w)]>
     (<["deep_think_llm" := CStr (w_deep_think_model w)]>
      (<["llm_provider" := CStr (w_llm_provider w)]> cfg))))).

Definition with_config (cfg : gmap string cfgval) (s : session_state) : session_state :=
  SessionState (analysis_history s) (current_analysis s) (analysis_running s) cfg.

(** The call that a submission makes to the framework. *)
Definition submitted_call (w : widgets) (cfg : gmap string cfgval) : framework_call :=
  FrameworkCall (w_selected_analysts w) cfg (w_ticker w) (date_str (w_trade_date w)).

(** The bundle that a submission leaves when the framework returns. *)
Definition submitted_bundle (env : environment) (w : widgets)
    (fs : gmap string pyval) (dec : pyval) : analysis_result :=
  AnalysisResult (w_ticker w) (date_str (w_trade_date w)) fs dec (now env)
                 (w_selected_analysts w).



(** A script fragment that, when no request arrives, returns and only adds
    to the page. *)
Definition shows {A : Type} (m : M A) : Prop :=
  forall s pg cl, exists (a : A) (shown : list st_call),
    m (World s pg cl) = (Return a, World s (pg ++ shown) cl).

(** A script fragment that, whatever its outcome, leaves the session state
    and the calls of the framework as they are. *)
Definition displays {A : Type} (m : M A) : Prop :=
  forall w, session (m w).2 = session w /\ calls (m w).2 = calls w.

(** The labels of the tabs of a page. *)
Definition tab_labels (pg : list st_call) : list string :=
  omap (fun c => match c with st_tab label _ => Some label | _ => None end) pg.

(** The labels of [st.tabs] in [display_analysis_results]. *)
Definition result_tabs : list string :=
  ["📊 Summary"; "🔍 Analyst Reports"; "🔬 Research Debate"; "💼 Trading Decision";
   "⚠️ Risk Assessment"; "📈 Charts"; "💾 Export"].

(** What [main] does after the form. *)
Definition after_form (env : environment) (w : widgets) : M unit :=
  emit (st_markdown "---");;
  emit_all (agent_status env);;
  s ← get_state;
  match current_analysis s with
  | Some r => emit (st_markdown "---");; display_analysis_results env w r
  | None => mret tt
  end;;
  s' ← get_state;
  match analysis_history s' with
  | _ :: _ => emit (st_markdown "---");; display_analysis_history w
  | [] => mret tt
  end.

(** The same widgets with the view button pressed or not. *)
Definition with_view_clicked (b : bool) (w : widgets) : widgets :=
  Widgets (w_llm_provider w) (w_deep_think_model w) (w_quick_think_model w)
          (w_selected_analysts w) (w_max_debate_rounds w) (w_max_risk_rounds w)
          (w_core_stock_vendor w) (w_technical_vendor w) (w_fundamental_vendor w)
          (w_news_vendor w) (w_ticker w) (w_trade_date w) (w_submitted w)
          (w_copy_clicked w) (w_selected_analysis w) b.

(** The expander of the debate round at a position of the sequence. *)
Definition round_expander (first : nat) (i : nat) (debate : string) : st_call :=
  st_expander ("Debate Round " +:+ PyStr.dec (first + i)) false [st_markdown debate].

(** A text of printable ASCII characters and newlines. *)
Fixpoint plain_ascii (s : string) : bool :=
  match s with
  | EmptyString => true
  | String c r =>
      let n := nat_of_ascii c in
      ((((32 <=? n) && (n <=? 126)) || (n =? 10))%nat && plain_ascii r)%bool
  end.

(** An entry of the history as the form leaves it: a ticker, and the text
    of a date. *)
Definition complete_entry (b : analysis_result) : Prop :=
  ticker b <> EmptyString /\ exists d, trade_date b = date_str d.

(** The members of a parsed export under a key. *)
Definition parsed_member (doc : Json.json) (key : string) : option Json.json :=
  match doc with
  | Json.JObj members => Json.to_dict members !! key
  | _ => None
  end.

(** * Examples *)

Example lower_sell : PyStr.lower "SELL NOW" = "sell now".
Proof. reflexivity. Qed.

Example repr_plain : PyStr.repr_str "it's" = PyStr.quoted "it's".
Proof. reflexivity. Qed.

Example dumps_small :
  Json.dumps (Json.JObj [("a", Json.JStr "x");
                         ("b", Json.JArr [Json.JStr "y"; Json.JStr "z"]);
                         ("c", Json.JObj [])])
  = "{" +:+ PyStr.nl +:+
    "  " +:+ PyStr.quoted "a" +:+ ": " +:+ PyStr.quoted "x" +:+ "," +:+ PyStr.nl +:+
    "  " +:+ PyStr.quoted "b" +:+ ": [" +:+ PyStr.nl +:+
    "    " +:+ PyStr.quoted "y" +:+ "," +:+ PyStr.nl +:+
    "    " +:+ PyStr.quoted "z" +:+ PyStr.nl +:+
    "  ]," +:+ PyStr.nl +:+
    "  " +:+ PyStr.quoted "c" +:+ ": {}" +:+ PyStr.nl +:+
    "}".
Proof. reflexivity. Qed.

Example loads_small :
  let v := Json.JObj [("a", Json.JStr ("x" +:+ PyStr.nl +:+ String "233" EmptyString));
                      ("b", Json.JArr [Json.JStr "y"; Json.JObj [("q", Json.JArr [])]]);
                      ("c", Json.JObj [])] in
  Json.loads (Json.dumps v) = Some v.
Proof. vm_compute. reflexivity. Qed.

(** * Facts about the string helpers *)

#[local] Arguments String.append !s1 s2 / : simpl nomatch.

Lemma str_app_assoc (a b c : string) : (a +:+ b) +:+ c = a +:+ (b +:+ c).
Proof. induction a as [|x a IH]; simpl; [reflexivity | now rewrite IH]. Qed.

Lemma str_app_nil_r (a : string) : a +:+ EmptyString = a.
Proof. induction a as [|x a IH]; simpl; [reflexivity | now rewrite IH]. Qed.

Lemma str_length_app (a b : string) :
  String.length (a +:+ b) = String.length a + String.length b.
Proof. induction a as [|x a IH]; simpl; [reflexivity | now rewrite IH]. Qed.

Lemma truthy_not_empty (s : string) : s <> EmptyString -> PyStr.truthy s = true.
Proof. destruct s; [congruence | reflexivity]. Qed.

Lemma date_str_truthy (d : date) : PyStr.truthy (date_str d) = true.
Proof. unfold date_str. destruct (pad 4 (d_year d)); reflexivity. Qed.

(** * The decoder reads back what the encoder writes *)

Lemma encode_arr_cons level x xs :
  Json.encode level (Json.JArr (x :: xs)) =
  "[" +:+ Json.newline_indent (S level) +:+ Json.encode (S level) x +:+
  encode_more_items level xs.
Proof.
  cbn [Json.encode].
  repeat (apply (f_equal2 String.append); [reflexivity|]).
  induction xs as [|y ys IH]; [reflexivity|].
  cbn [encode_more_items]. rewrite <- IH. reflexivity.
Qed.

Lemma encode_obj_cons level k x ms :
  Json.encode level (Json.JObj ((k, x) :: ms)) =
  "{" +:+ Json.newline_indent (S level) +:+
  Json.encode_basestring_ascii k +:+ ": " +:+ Json.encode (S level) x +:+
  encode_more_members level ms.
Proof.
  cbn [Json.encode].
  repeat (apply (f_equal2 String.append); [reflexivity|]).
  induction ms as [|[k' y] ys IH]; [reflexivity|].
  cbn [encode_more_members]. rewrite <- IH. reflexivity.
Qed.

(** One escaped character is read back as the character. *)
Lemma scanstring_escape_char (c : ascii) (r : string) :
  Json.scanstring (Json.escape_char c +:+ r) =
  match Json.scanstring r with
  | Some (t, r') => Some (String c t, r')
  | None => None
  end.
Proof.
  destruct c as [[|] [|] [|] [|] [|] [|] [|] [|]]; reflexivity.
Qed.

(** A string literal is read back, whatever follows its closing quote. *)
Lemma scanstring_escape (s rest : string) :
  Json.scanstring (PyStr.concat_map Json.escape_char s +:+ String PyStr.dquote rest)
  = Some (s, rest).
Proof.
  induction s as [|c s IH]; [reflexivity|].
  cbn [PyStr.concat_map].
  rewrite str_app_assoc, scanstring_escape_char, IH. reflexivity.
Qed.

Lemma skip_ws_spaces (n : nat) (r : string) :
  Json.skip_ws (PyStr.repeat_str " " n +:+ r) = Json.skip_ws r.
Proof. induction n as [|n IH]; [reflexivity | exact IH]. Qed.

Lemma skip_ws_newline_indent (level : nat) (r : string) :
  Json.skip_ws (Json.newline_indent level +:+ r) = Json.skip_ws r.
Proof.
  unfold Json.newline_indent. rewrite str_app_assoc.
  change (Json.skip_ws (PyStr.repeat_str " " (2 * level) +:+ r) = Json.skip_ws r).
  apply skip_ws_spaces.
Qed.

Lemma encode_head (level : nat) (v : Json.json) :
  exists c r, Json.encode level v = String c r /\ value_head c.
Proof.
  unfold value_head.
  destruct v as [s | [|x xs] | [|[k x] ms]].
  - exists PyStr.dquote. eexists. split; [reflexivity | auto].
  - exists "["%char. eexists. split; [reflexivity | auto].
  - exists "["%char. eexists. split; [reflexivity | auto].
  - exists "{"%char. eexists. split; [reflexivity | auto].
  - exists "{"%char. eexists. split; [reflexivity | auto].
Qed.

Lemma skip_ws_value_head (c : ascii) (r : string) :
  value_head c -> Json.skip_ws (String c r) = String c r.
Proof. intros [-> | [-> | ->]]; reflexivity. Qed.

(** The decoder's equations, one step of fuel at a time. *)
Lemma parse_value_string (fuel : nat) (r : string) :
  Json.parse_value (S fuel) (String PyStr.dquote r) =
  match Json.scanstring r with
  | Some (t, r') => Some (Json.JStr t, r')
  | None => None
  end.
Proof. reflexivity. Qed.

Lemma parse_value_array (fuel : nat) (r : string) (c : ascii) (r' : string) :
  Json.skip_ws r = String c r' -> value_head c ->
  Json.parse_value (S fuel) (String "[" r) =
  match Json.parse_items fuel (String c r') with
  | Some (items, r'') => Some (Json.JArr items, r'')
  | None => None
  end.
Proof.
  intros H Hc. cbn [Json.parse_value]. cbn [Ascii.eqb Bool.eqb PyStr.dquote].
  rewrite H. destruct Hc as [-> | [-> | ->]]; reflexivity.
Qed.

Lemma parse_value_object (fuel : nat) (r : string) (r' : string) :
  Json.skip_ws r = String PyStr.dquote r' ->
  Json.parse_value (S fuel) (String "{" r) =
  match Json.parse_members fuel (String PyStr.dquote r') with
  | Some (members, r'') => Some (Json.JObj members, r'')
  | None => None
  end.
Proof.
  intros H. cbn [Json.parse_value]. cbn [Ascii.eqb Bool.eqb PyStr.dquote].
  rewrite H. reflexivity.
Qed.

Lemma parse_items_step (fuel : nat) (s : string) :
  Json.parse_items (S fuel) s =
  match Json.parse_value fuel s with
  | Some (v, r) =>
      match Json.skip_ws r with
      | String "," r' =>
          match Json.parse_items fuel (Json.skip_ws r') with
          | Some (vs, r'') => Some (v :: vs, r'')
          | None => None
          end
      | String "]" r' => Some ([v], r')
      | _ => None
      end
  | None => None
  end.
Proof. reflexivity. Qed.

Lemma parse_members_step (fuel : nat) (r : string) :
  Json.parse_members (S fuel) (String PyStr.dquote r) =
  match Json.scanstring r with
  | Some (k, r1) =>
      match Json.skip_ws r1 with
      | String ":" r2 =>
          match Json.parse_value fuel (Json.skip_ws r2) with
          | Some (v, r3) =>
              match Json.skip_ws r3 with
              | String "," r4 =>
                  match Json.parse_members fuel (Json.skip_ws r4) with
                  | Some (ms, r5) => Some ((k, v) :: ms, r5)
                  | None => None
                  end
              | String "}" r4 => Some ([(k, v)], r4)
              | _ => None
              end
          | None => None
          end
      | _ => None
      end
  | None => None
  end.
Proof. reflexivity. Qed.

Lemma skip_ws_encode (level : nat) (v : Json.json) (rest : string) :
  Json.skip_ws (Json.encode level v +:+ rest) = Json.encode level v +:+ rest.
Proof.
  destruct (encode_head level v) as (c & r & E & Hc).
  rewrite E. change (String c r +:+ rest) with (String c (r +:+ rest)).
  now apply skip_ws_value_head.
Qed.

Lemma encode_app_head (level : nat) (v : Json.json) (rest : string) :
  exists c r, Json.encode level v +:+ rest = String c r /\ value_head c.
Proof.
  destruct (encode_head level v) as (c & r & E & Hc).
  exists c, (r +:+ rest). rewrite E. split; [reflexivity | assumption].
Qed.

Lemma basestring_app (k rest : string) :
  Json.encode_basestring_ascii k +:+ rest =
  String PyStr.dquote (PyStr.concat_map Json.escape_char k +:+ String PyStr.dquote rest).
Proof.
  unfold Json.encode_basestring_ascii.
  change (String PyStr.dquote ?a +:+ ?b) with (String PyStr.dquote (a +:+ b)).
  cbn [String.append]. rewrite str_app_assoc. reflexivity.
Qed.

Ltac fuel_arith :=
  cbn [need] in *; unfold list_sum in *; cbn [List.map fold_right snd] in *; lia.

Lemma parse_items_encode (xs : list Json.json) :
  Forall reads_back xs ->
  forall (x : Json.json), reads_back x ->
  forall (level : nat) (rest : string) (fuel : nat),
    S (need x) + list_sum (List.map (fun y => S (need y)) xs) <= fuel ->
    Json.parse_items fuel
      (Json.encode (S level) x +:+ encode_more_items level xs +:+ rest)
    = Some (x :: xs, rest).
Proof.
  induction 1 as [|y ys Hy Hys IH]; intros x Hx level rest fuel Hfuel;
    (destruct fuel as [|fuel]; [fuel_arith|]);
    rewrite parse_items_step, (Hx (S level) _ fuel) by fuel_arith.
  - cbn [encode_more_items].
    rewrite str_app_assoc, skip_ws_newline_indent. reflexivity.
  - cbn [encode_more_items]. rewrite !str_app_assoc.
    change ("," +:+ ?a) with (String "," a).
    change (Json.skip_ws (String "," ?a)) with (String "," a).
    cbv iota beta.
    rewrite skip_ws_newline_indent, skip_ws_encode.
    rewrite (IH y Hy level rest fuel) by fuel_arith.
    reflexivity.
Qed.

Lemma parse_members_encode (ms : list (string * Json.json)) :
  Forall (fun kv => reads_back kv.2) ms ->
  forall (k : string) (x : Json.json), reads_back x ->
  forall (level : nat) (rest : string) (fuel : nat),
    S (need x) + list_sum (List.map (fun kv => S (need kv.2)) ms) <= fuel ->
    Json.parse_members fuel
      (Json.encode_basestring_ascii k +:+ ": " +:+
       Json.encode (S level) x +:+ encode_more_members level ms +:+ rest)
    = Some ((k, x) :: ms, rest).
Proof.
  induction 1 as [|[k' y] ys Hy Hys IH]; intros k x Hx level rest fuel Hfuel;
    (destruct fuel as [|fuel]; [fuel_arith|]);
    rewrite basestring_app, parse_members_step, scanstring_escape;
    change (": " +:+ ?a) with (String ":" (String " " a));
    change (Json.skip_ws (String ":" ?a)) with (String ":" a);
    cbv iota beta;
    change (Json.skip_ws (String " " ?a)) with (Json.skip_ws a);
    rewrite skip_ws_encode, (Hx (S level) _ fuel) by fuel_arith.
  - cbn [encode_more_members].
    rewrite str_app_assoc, skip_ws_newline_indent. reflexivity.
  - cbn [encode_more_members]. rewrite !str_app_assoc.
    change ("," +:+ ?a) with (String "," a).
    change (Json.skip_ws (String "," ?a)) with (String "," a).
    cbv iota beta.
    rewrite skip_ws_newline_indent.
    assert (Hk : forall a, Json.skip_ws (Json.encode_basestring_ascii k' +:+ a)
                           = Json.encode_basestring_ascii k' +:+ a).
    { intros a. rewrite basestring_app. reflexivity. }
    rewrite Hk.
    rewrite (IH k' y Hy level rest fuel) by fuel_arith.
    reflexivity.
Qed.

Lemma parse_encode (v : Json.json) : reads_back v.
Proof.
  induction v as [s | items IH | members IH] using json_ind';
    intros level rest fuel Hfuel;
    (destruct fuel as [|fuel]; [fuel_arith|]).
  - cbn [Json.encode]. rewrite basestring_app, parse_value_string, scanstring_escape.
    reflexivity.
  - destruct items as [|x xs]; [reflexivity|].
    rewrite encode_arr_cons, !str_app_assoc.
    change ("[" +:+ ?a) with (String "[" a).
    destruct (encode_app_head (S level) x (encode_more_items level xs +:+ rest))
      as (c & r & E & Hc).
    rewrite (parse_value_array fuel _ c r).
    + rewrite <- E.
      inversion IH as [|? ? Hx Hxs]; subst.
      rewrite (parse_items_encode xs Hxs x Hx level rest fuel)
        by fuel_arith.
      reflexivity.
    + rewrite skip_ws_newline_indent, skip_ws_encode. exact E.
    + exact Hc.
  - destruct members as [|[k x] ms]; [reflexivity|].
    rewrite encode_obj_cons, !str_app_assoc.
    change ("{" +:+ ?a) with (String "{" a).
    rewrite (parse_value_object fuel _
               (PyStr.concat_map Json.escape_char k +:+
                String PyStr.dquote
                  (": " +:+ Json.encode (S level) x +:+
                   encode_more_members level ms +:+ rest))).
    + rewrite <- basestring_app.
      inversion IH as [|? ? Hx Hxs]; subst.
      rewrite (parse_members_encode ms Hxs k x Hx level rest fuel)
        by fuel_arith.
      reflexivity.
    + rewrite skip_ws_newline_indent, basestring_app. reflexivity.
Qed.

Lemma length_newline_indent (level : nat) :
  1 <= String.length (Json.newline_indent level).
Proof. unfold Json.newline_indent. rewrite str_length_app. cbn. lia. Qed.

Lemma length_basestring (k : string) :
  1 <= String.length (Json.encode_basestring_ascii k).
Proof. unfold Json.encode_basestring_ascii. cbn. lia. Qed.

(** The encoded text is at least as long as the fuel its decoding takes. *)
Lemma need_le_length (v : Json.json) :
  forall level, need v <= String.length (Json.encode level v).
Proof.
  induction v as [s | items IH | members IH] using json_ind'; intros level.
  - cbn. lia.
  - destruct items as [|x xs]; [cbn; lia|].
    rewrite encode_arr_cons. inversion IH as [|? ? Hx Hxs]; subst.
    assert (Hmore : list_sum (List.map (fun y => S (need y)) xs)
                    <= String.length (encode_more_items level xs)).
    { clear Hx IH. induction Hxs as [|y ys Hy Hys IHys]; [cbn; lia|].
      cbn [encode_more_items]. rewrite !str_length_app.
      specialize (Hy (S level)). cbn [List.map String.length].
      change (list_sum (?a :: ?l)) with (a + list_sum l). lia. }
    rewrite !str_length_app. specialize (Hx (S level)).
    pose proof (length_newline_indent (S level)).
    cbn [need List.map String.length].
    change (list_sum (?a :: ?l)) with (a + list_sum l). lia.
  - destruct members as [|[k x] ms]; [cbn; lia|].
    rewrite encode_obj_cons. inversion IH as [|? ? Hx Hxs]; subst.
    assert (Hmore : list_sum (List.map (fun kv => S (need kv.2)) ms)
                    <= String.length (encode_more_members level ms)).
    { clear Hx IH. induction Hxs as [|[k' y] ys Hy Hys IHys]; [cbn; lia|].
      cbn [encode_more_members]. rewrite !str_length_app.
      specialize (Hy (S level)). cbn [List.map String.length snd] in Hy |- *.
      change (list_sum (?a :: ?l)) with (a + list_sum l). lia. }
    rewrite !str_length_app. specialize (Hx (S level)).
    pose proof (length_newline_indent (S level)).
    cbn [need List.map String.length snd] in Hx |- *.
    change (list_sum (?a :: ?l)) with (a + list_sum l). lia.
Qed.

(** [json.loads(json.dumps(v, indent=2)) == v] on the modelled documents. *)
Lemma loads_dumps (v : Json.json) : Json.loads (Json.dumps v) = Some v.
Proof.
  unfold Json.loads, Json.dumps.
  pose proof (skip_ws_encode 0 v EmptyString) as Hskip.
  rewrite str_app_nil_r in Hskip. rewrite Hskip.
  pose proof (parse_encode v 0 EmptyString (String.length (Json.encode 0 v))
                (need_le_length v 0)) as Hparse.
  rewrite str_app_nil_r in Hparse. rewrite Hparse. reflexivity.
Qed.

(** * Formatting examples *)

#[local] Set Warnings "-inexact-float".

Example format_currency_billions : StreamlitUtils.format_currency 1500000000 = "$1.50B".
Proof. vm_compute. reflexivity. Qed.

Example format_currency_thousands : StreamlitUtils.format_currency 2500 = "$2.50K".
Proof. vm_compute. reflexivity. Qed.

Example format_currency_units : StreamlitUtils.format_currency 7 = "$7.00".
Proof. vm_compute. reflexivity. Qed.

Example format_percentage_12_345 : StreamlitUtils.format_percentage 12.345 = "12.35%".
Proof. vm_compute. reflexivity. Qed.

Example format_percentage_0_125 : StreamlitUtils.format_percentage 0.125 = "0.12%".
Proof. vm_compute. reflexivity. Qed.

Example format_percentage_2_675 : StreamlitUtils.format_percentage 2.675 = "2.67%".
Proof. vm_compute. reflexivity. Qed.

Example format_percentage_neg : StreamlitUtils.format_percentage (-0.001) = "-0.00%".
Proof. vm_compute. reflexivity. Qed.

Example isoformat_example :
  isoformat (DateTime 2024 11 17 9 5 0 1234) = "2024-11-17T09:05:00.001234".
Proof. vm_compute. reflexivity. Qed.

(** * The chat front end *)

Lemma gradio_empty_ticker (env : GradioApp.environment) (date_str : string)
    (analysts : list string) :
  GradioApp.run_trading_analysis env EmptyString date_str analysts =
  GradioApp.Outputs
    (if GradioApp.TRADING_AGENTS_AVAILABLE env then "❌ Please enter a stock ticker"
     else "❌ TradingAgents framework not available")
    EmptyString EmptyString [].
Proof.
  unfold GradioApp.run_trading_analysis.
  destruct (GradioApp.TRADING_AGENTS_AVAILABLE env); reflexivity.
Qed.

Lemma gradio_analysis_failed (env : GradioApp.environment) (ticker date_str : string)
    (analysts : list string) (message : string) :
  GradioApp.TRADING_AGENTS_AVAILABLE env = true ->
  PyStr.truthy ticker = true ->
  (GradioApp.TradingAgentsGraph env analysts (gradio_config env)
     = ConstructRaised message \/
   exists ta, GradioApp.TradingAgentsGraph env analysts (gradio_config env)
                = Constructed ta /\
              ta ticker date_str = PropagateRaised message) ->
  let out := GradioApp.run_trading_analysis env ticker date_str analysts in
  GradioApp.summary out = "❌ Analysis failed: " +:+ message /\
  GradioApp.detailed_reports out = EmptyString /\
  GradioApp.trading_info out = EmptyString.
Proof.
  intros Ha Ht Hraise out. subst out.
  unfold GradioApp.run_trading_analysis. rewrite Ha, Ht. cbn [negb].
  fold (gradio_config env).
  destruct Hraise as [-> | (ta & -> & ->)]; repeat split.
Qed.

(** The chat front end checks the ticker only: an empty date goes to the
    framework. *)
Lemma gradio_empty_date_is_sent (env : GradioApp.environment) (ticker : string)
    (analysts : list string) (ta : string -> string -> propagated) :
  GradioApp.TRADING_AGENTS_AVAILABLE env = true ->
  PyStr.truthy ticker = true ->
  GradioApp.TradingAgentsGraph env analysts (gradio_config env) = Constructed ta ->
  GradioApp.framework_calls
    (GradioApp.run_trading_analysis env ticker EmptyString analysts)
  = [FrameworkCall analysts (gradio_config env) ticker EmptyString].
Proof.
  intros Ha Ht Hc.
  unfold GradioApp.run_trading_analysis. rewrite Ha, Ht. cbn [negb].
  fold (gradio_config env). rewrite Hc.
  destruct (ta ticker EmptyString) as [m | fs dec]; [reflexivity|].
  destruct (GradioApp.format_results env ticker EmptyString fs dec) as [[? ?] ?].
  reflexivity.
Qed.

(** With a ticker and an empty date the chat front end calls the framework,
    with the empty date, and shows the reports that come back. *)
Lemma gradio_sends_empty_date :
  let out := GradioApp.run_trading_analysis (sample_gradio_env returns_buy)
               "NVDA" EmptyString ["market"] in
  GradioApp.framework_calls out
    = [FrameworkCall ["market"] (gradio_config (sample_gradio_env returns_buy))
                     "NVDA" EmptyString] /\
  GradioApp.detailed_reports out
    = "## 📊 Market Analysis" +:+ PyStr.nl +:+ "Uptrend" +:+ PyStr.nl.
Proof. split; reflexivity. Qed.
(** * The analysis invoker *)

(** Runs the monadic plumbing of a script fragment on an explicit world. *)
Ltac run_script :=
  cbv [mbind mret M_bind M_ret raise try_except yield show emit emit_all within when
       get_state put_state record_call st_rerun set_running set_current
       append_history construct propagate_call history_item
       session page calls pending fst snd].

(** ** Calls to Streamlit and the request *)

(** A display call shows its element and returns, unless the request is
    due: then it raises and shows nothing. *)
Lemma emit_cases (c : st_call) (s : session_state) (pg : list st_call)
    (cl : list framework_call) (rq : option nat) :
  (exists rq',
     emit c (MkWorld s pg cl rq) = (Return tt, MkWorld s (pg ++ [c]) cl rq') /\
     (rq = None -> rq' = None)) \/
  (rq = Some 0 /\ emit c (MkWorld s pg cl rq) = (Raise RerunException, MkWorld s pg cl rq)).
Proof.
  destruct rq as [[|n]|].
  - right. split; reflexivity.
  - left. exists (Some n). split; [reflexivity | discriminate].
  - left. exists None. split; reflexivity.
Qed.

Lemma yield_cases (s : session_state) (pg : list st_call)
    (cl : list framework_call) (rq : option nat) :
  (exists rq',
     yield (MkWorld s pg cl rq) = (Return tt, MkWorld s pg cl rq') /\
     (rq = None -> rq' = None)) \/
  (rq = Some 0 /\ yield (MkWorld s pg cl rq) = (Raise RerunException, MkWorld s pg cl rq)).
Proof.
  destruct rq as [[|n]|].
  - right. split; reflexivity.
  - left. exists (Some n). split; [reflexivity | discriminate].
  - left. exists None. split; reflexivity.
Qed.

(** Display calls made in a row are the calls made one after the other. *)
Lemma emit_all_cons (c : st_call) (cs : list st_call) (w : world) :
  emit_all (c :: cs) w = (emit c;; emit_all cs) w.
Proof.
  destruct w as [s pg cl [[|n]|]]; run_script; cbn [length take].
  - change (0 <? S (length cs))%nat with true. cbv iota. now rewrite app_nil_r.
  - change (S n <? S (length cs))%nat with (n <? length cs)%nat.
    change (S n - S (length cs)) with (n - length cs).
    destruct (n <? length cs)%nat; rewrite <- app_assoc; reflexivity.
  - rewrite <- app_assoc. reflexivity.
Qed.

(** Steps over the next display call of the goal: it returns, or the
    request is due. *)
Ltac step_emit :=
  match goal with
  | |- context [emit ?c (MkWorld ?s ?pg ?cl ?rq)] =>
      let rq' := fresh "rq" in
      let E := fresh "E" in
      let Hq := fresh "Hq" in
      destruct (emit_cases c s pg cl rq) as [(rq' & E & Hq) | (Hq & E)];
      rewrite E; clear E; cbv beta iota
  end.

(** ** Runs of the invoker that no request cuts off *)

Lemma run_analysis_returns (env : environment) (ticker trade_date : string)
    (analysts : list string) (s : session_state) (pg : list st_call)
    (cl : list framework_call) (ta : string -> string -> propagated)
    (fs : gmap string pyval) (dec : pyval) :
  PyStr.truthy ticker = true -> PyStr.truthy trade_date = true ->
  TradingAgentsGraph env analysts (config s) = Constructed ta ->
  ta ticker trade_date = Propagated fs dec ->
  let b := AnalysisResult ticker trade_date fs dec (now env) analysts in
  run_analysis env ticker trade_date analysts (World s pg cl) =
  (Return (Some b),
   World (SessionState (analysis_history s ++ [b]) (Some b)
                       (analysis_running s) (config s))
         (pg ++ progress_start ++ progress_running ++ progress_done)
         (cl ++ [FrameworkCall analysts (config s) ticker trade_date])).
Proof.
  intros Ht Hd Hc Hp b.
  unfold run_analysis. rewrite Ht, Hd. cbn [negb orb]. run_script.
  rewrite Hc, Hp. cbn [config analysis_history current_analysis analysis_running].
  rewrite <- !app_assoc. reflexivity.
Qed.

(** With an empty ticker or an empty date the invoker makes its one display
    call and nothing else. *)
Lemma run_analysis_invalid_any (env : environment) (ticker trade_date : string)
    (analysts : list string) (w : world) :
  PyStr.truthy ticker = false \/ PyStr.truthy trade_date = false ->
  run_analysis env ticker trade_date analysts w =
  (emit (st_error "Please provide both ticker symbol and trade date");; mret None) w.
Proof.
  intros H. unfold run_analysis.
  assert (Hguard : negb (PyStr.truthy ticker) || negb (PyStr.truthy trade_date) = true).
  { destruct H as [-> | ->]; [reflexivity | apply orb_true_r]. }
  rewrite Hguard. destruct w as [s pg cl rq].
  unfold try_except, mbind, M_bind.
  destruct (emit_cases (st_error "Please provide both ticker symbol and trade date")
              s pg cl rq) as [(rq' & -> & _) | (_ & ->)]; reflexivity.
Qed.

Lemma run_analysis_invalid (env : environment) (ticker trade_date : string)
    (analysts : list string) (s : session_state) (pg : list st_call)
    (cl : list framework_call) :
  PyStr.truthy ticker = false \/ PyStr.truthy trade_date = false ->
  run_analysis env ticker trade_date analysts (World s pg cl) =
  (Return None,
   World s (pg ++ [st_error "Please provide both ticker symbol and trade date"]) cl).
Proof. intros H. now rewrite run_analysis_invalid_any. Qed.

Lemma run_analysis_construct_raises (env : environment) (ticker trade_date : string)
    (analysts : list string) (s : session_state) (pg : list st_call)
    (cl : list framework_call) (message : string) :
  PyStr.truthy ticker = true -> PyStr.truthy trade_date = true ->
  TradingAgentsGraph env analysts (config s) = ConstructRaised message ->
  run_analysis env ticker trade_date analysts (World s pg cl) =
  (Return None,
   World s (pg ++ progress_start ++ failure_report env message) cl).
Proof.
  intros Ht Hd Hc.
  unfold run_analysis. rewrite Ht, Hd. cbn [negb orb]. run_script.
  rewrite Hc. rewrite <- !app_assoc. reflexivity.
Qed.

Lemma run_analysis_propagate_raises (env : environment) (ticker trade_date : string)
    (analysts : list string) (s : session_state) (pg : list st_call)
    (cl : list framework_call) (ta : string -> string -> propagated)
    (message : string) :
  PyStr.truthy ticker = true -> PyStr.truthy trade_date = true ->
  TradingAgentsGraph env analysts (config s) = Constructed ta ->
  ta ticker trade_date = PropagateRaised message ->
  run_analysis env ticker trade_date analysts (World s pg cl) =
  (Return None,
   World s (pg ++ progress_start ++ progress_running ++ failure_report env message)
         (cl ++ [FrameworkCall analysts (config s) ticker trade_date])).
Proof.
  intros Ht Hd Hc Hp.
  unfold run_analysis. rewrite Ht, Hd. cbn [negb orb]. run_script.
  rewrite Hc, Hp. rewrite <- !app_assoc. reflexivity.
Qed.

(** Every run of the invoker that no request cuts off returns: it raises
    nothing, it leaves the running flag and the configuration alone, and it
    either leaves history and current alone and returns [None], or appends
    the bundle it returns and makes it current. *)
Lemma run_analysis_cases (env : environment) (ticker trade_date : string)
    (analysts : list string) (s : session_state) (pg : list st_call)
    (cl : list framework_call) :
  exists (r : option analysis_result) (s' : session_state)
         (pg' : list st_call) (cl' : list framework_call),
    run_analysis env ticker trade_date analysts (World s pg cl)
      = (Return r, World s' pg' cl') /\
    analysis_running s' = analysis_running s /\ config s' = config s /\
    (cl' = cl \/ cl' = cl ++ [FrameworkCall analysts (config s) ticker trade_date]) /\
    match r with
    | None => s' = s
    | Some b => analysis_history s' = analysis_history s ++ [b] /\
                current_analysis s' = Some b
    end.
Proof.
  destruct (PyStr.truthy ticker) eqn:Ht; [destruct (PyStr.truthy trade_date) eqn:Hd|].
  - destruct (TradingAgentsGraph env analysts (config s)) as [m | ta] eqn:Hc.
    + rewrite (run_analysis_construct_raises _ _ _ _ _ _ _ m Ht Hd Hc).
      do 4 eexists. repeat split; auto.
    + destruct (ta ticker trade_date) as [m | fs dec] eqn:Hp.
      * rewrite (run_analysis_propagate_raises _ _ _ _ _ _ _ ta m Ht Hd Hc Hp).
        do 4 eexists. repeat split; auto.
      * pose proof (run_analysis_returns _ _ _ _ _ pg cl ta fs dec Ht Hd Hc Hp) as E.
        cbv zeta in E. rewrite E.
        do 4 eexists. repeat split; auto.
  - rewrite run_analysis_invalid by (right; exact Hd).
    do 4 eexists. repeat split; auto.
  - rewrite run_analysis_invalid by (left; exact Ht).
    do 4 eexists. repeat split; auto.
Qed.

(** ** Runs of the invoker, cut off or not *)

(** A run of the invoker ends in one of three ways.  It returns a bundle,
    which it has appended to the history and made current after the one call
    of the framework.  Or it returns [None], or a request cuts it off: in
    both cases the session state is what it was. *)
Lemma run_analysis_any (env : environment) (ticker trade_date : string)
    (analysts : list string) (s : session_state) (pg : list st_call)
    (cl : list framework_call) (rq : option nat) :
  let call := FrameworkCall analysts (config s) ticker trade_date in
  let out := run_analysis env ticker trade_date analysts (MkWorld s pg cl rq) in
  (calls out.2 = cl \/ PyStr.truthy ticker = true /\ calls out.2 = cl ++ [call]) /\
  ((exists fs dec,
      framework_returns env analysts (config s) ticker trade_date fs dec /\
      PyStr.truthy ticker = true /\ calls out.2 = cl ++ [call] /\
      out.1 = Return (Some (AnalysisResult ticker trade_date fs dec (now env) analysts)) /\
      session out.2
      = SessionState
          (analysis_history s ++
           [AnalysisResult ticker trade_date fs dec (now env) analysts])
          (Some (AnalysisResult ticker trade_date fs dec (now env) analysts))
          (analysis_running s) (config s)) \/
   ((out.1 = Return None /\
      (PyStr.truthy ticker = false \/ PyStr.truthy trade_date = false \/
       exists message,
         framework_raises env analysts (config s) ticker trade_date message) \/
     out.1 = Raise RerunException /\ rq <> None) /\
    session out.2 = s)).
Proof.
  intros call out. subst out.
  assert (Hquiet : forall r pg' cl',
    (cl' = cl \/ PyStr.truthy ticker = true /\ cl' = cl ++ [call]) ->
    (PyStr.truthy ticker = false \/ PyStr.truthy trade_date = false \/
     exists message,
       framework_raises env analysts (config s) ticker trade_date message) ->
    run_analysis env ticker trade_date analysts (MkWorld s pg cl rq)
      = (Return None, MkWorld s pg' cl' r) ->
    (calls (run_analysis env ticker trade_date analysts (MkWorld s pg cl rq)).2 = cl \/
     PyStr.truthy ticker = true /\
     calls (run_analysis env ticker trade_date analysts (MkWorld s pg cl rq)).2
       = cl ++ [call]) /\
    ((exists fs dec,
        framework_returns env analysts (config s) ticker trade_date fs dec /\
        PyStr.truthy ticker = true /\
        calls (run_analysis env ticker trade_date analysts (MkWorld s pg cl rq)).2
          = cl ++ [call] /\
        (run_analysis env ticker trade_date analysts (MkWorld s pg cl rq)).1
          = Return (Some (AnalysisResult ticker trade_date fs dec (now env) analysts)) /\
        session (run_analysis env ticker trade_date analysts (MkWorld s pg cl rq)).2
        = SessionState
            (analysis_history s ++
             [AnalysisResult ticker trade_date fs dec (now env) analysts])
            (Some (AnalysisResult ticker trade_date fs dec (now env) analysts))
            (analysis_running s) (config s)) \/
     (((run_analysis env ticker trade_date analysts (MkWorld s pg cl rq)).1 = Return None /\
       (PyStr.truthy ticker = false \/ PyStr.truthy trade_date = false \/
        exists message,
          framework_raises env analysts (config s) ticker trade_date message) \/
       (run_analysis env ticker trade_date analysts (MkWorld s pg cl rq)).1
         = Raise RerunException /\ rq <> None) /\
      session (run_analysis env ticker trade_date analysts (MkWorld s pg cl rq)).2 = s))).
  { intros r pg' cl' Hcl Hwhy ->. cbn [fst snd session calls].
    split; [exact Hcl|]. right. split; [left; split; [reflexivity | exact Hwhy]|].
    reflexivity. }
  destruct (negb (PyStr.truthy ticker) || negb (PyStr.truthy trade_date)) eqn:Hguard.
  - assert (H : PyStr.truthy ticker = false \/ PyStr.truthy trade_date = false).
    { apply orb_true_iff in Hguard as [H | H]; apply negb_true_iff in H; auto. }
    clear Hquiet. rewrite (run_analysis_invalid_any env _ _ analysts _ H).
    unfold mbind, M_bind, mret, M_ret. step_emit; cbn [fst snd session calls].
    + split; [now left|]. right. split; [left; split; [reflexivity | tauto]|].
      reflexivity.
    + split; [now left|]. right. split; [right; split; [reflexivity | congruence]|].
      reflexivity.
  - apply orb_false_iff in Hguard as [Ht Hd].
    apply negb_false_iff in Ht, Hd.
    destruct rq as [n|].
    2: { destruct (TradingAgentsGraph env analysts (config s)) as [m | ta] eqn:Hc.
         - eapply Hquiet; [| |apply run_analysis_construct_raises; eassumption].
           + now left.
           + right. right. exists m. now left.
         - destruct (ta ticker trade_date) as [m | fs dec] eqn:Hp.
           + eapply Hquiet;
               [| |apply (run_analysis_propagate_raises env _ _ _ _ _ _ ta); eassumption].
             * right. now split.
             * right. right. exists m. right. now exists ta.
           + pose proof (run_analysis_returns _ _ _ _ _ pg cl ta fs dec Ht Hd Hc Hp) as E.
             cbv zeta in E. rewrite E. cbn [fst snd session calls].
             split; [right; now split|]. left. exists fs, dec.
             split; [now exists ta|]. repeat split; try exact Ht. }
    clear Hquiet.
    unfold run_analysis. rewrite Ht, Hd. cbn [negb orb].
    cbv [mbind mret M_bind M_ret raise try_except get_state put_state record_call
         set_current append_history construct propagate_call session page calls pending].
    do 4 (step_emit;
          [|cbn [fst snd session calls]; split; [now left|]; right;
            split; [right; split; [reflexivity | discriminate] | reflexivity]]).
    destruct (TradingAgentsGraph env analysts (config s)) as [m | ta] eqn:Hc.
    + do 2 (step_emit;
            [|cbn [fst snd session calls]; split; [now left|]; right;
              split; [right; split; [reflexivity | discriminate] | reflexivity]]).
      cbn [fst snd session calls]. split; [now left|]. right.
      split; [left; split; [reflexivity|]; right; right; exists m; now left|].
      reflexivity.
    + do 2 (step_emit;
            [|cbn [fst snd session calls]; split; [now left|]; right;
              split; [right; split; [reflexivity | discriminate] | reflexivity]]).
      destruct (ta ticker trade_date) as [m | fs dec] eqn:Hp.
      * do 2 (step_emit;
              [|cbn [fst snd session calls]; split; [right; now split|]; right;
                split; [right; split; [reflexivity | discriminate] | reflexivity]]).
        cbn [fst snd session calls]. split; [right; now split|]. right.
        split; [left; split; [reflexivity|]; right; right; exists m; right;
                now exists ta|].
        reflexivity.
      * cbn [fst snd].
        do 2 (step_emit;
              [|cbn [fst snd session calls]; split; [right; now split|]; right;
                split; [right; split; [reflexivity | discriminate] | reflexivity]]).
        cbn [fst snd session calls analysis_history current_analysis analysis_running
             config].
        split; [right; now split|]. left. exists fs, dec.
        split; [now exists ta|]. repeat split; try exact Ht.
Qed.

(** ** The form *)

Lemma bind_yield {A : Type} (k : M A) (s : session_state) (pg : list st_call)
    (cl : list framework_call) (rq : option nat) :
  (yield;; k) (MkWorld s pg cl rq) =
  match rq with
  | Some O => (Raise RerunException, MkWorld s pg cl rq)
  | Some (S n) => k (MkWorld s pg cl (Some n))
  | None => k (World s pg cl)
  end.
Proof. destruct rq as [[|n]|]; reflexivity. Qed.

(** The form with the button pressed, in terms of the invoker's result, when
    no request arrives. *)
Lemma analysis_form_submitted (env : environment) (w : widgets)
    (analysts : list string) (s : session_state) (pg : list st_call)
    (cl : list framework_call) (r : option analysis_result)
    (s' : session_state) (pg' : list st_call) (cl' : list framework_call) :
  w_submitted w = true ->
  run_analysis env (w_ticker w) (date_str (w_trade_date w)) analysts
    (World (with_running true s) pg cl) = (Return r, World s' pg' cl') ->
  analysis_form env w analysts (World s pg cl) =
  match r with
  | Some _ =>
      (Raise RerunException,
       World (with_running false s')
             (pg' ++ [st_success ("✅ Analysis completed for " +:+ w_ticker w +:+ "!")])
             cl')
  | None => (Return tt, World (with_running false s') pg' cl')
  end.
Proof.
  intros Hs Hr. unfold analysis_form. rewrite Hs.
  cbv [mbind M_bind yield set_running get_state put_state session page calls pending].
  unfold with_running in Hr. rewrite Hr.
  destruct r; reflexivity.
Qed.

(** The form, cut off or not.  Either the bundle of a framework call that
    returned is stored, the flag is clear and the run asks for a rerun.  Or
    history and current are what they were; the form then returns with the
    flag clear after a submission, or a request has cut it off, and the flag
    is set if that was during the run of the invoker. *)
Lemma analysis_form_any (env : environment) (w : widgets) (analysts : list string)
    (s : session_state) (pg : list st_call) (cl : list framework_call)
    (rq : option nat) :
  let call := FrameworkCall analysts (config s) (w_ticker w)
                            (date_str (w_trade_date w)) in
  let out := analysis_form env w analysts (MkWorld s pg cl rq) in
  config (session out.2) = config s /\
  (calls out.2 = cl \/
   w_submitted w = true /\ PyStr.truthy (w_ticker w) = true /\
   calls out.2 = cl ++ [call]) /\
  ((exists fs dec,
      w_submitted w = true /\ PyStr.truthy (w_ticker w) = true /\
      framework_returns env analysts (config s) (w_ticker w)
        (date_str (w_trade_date w)) fs dec /\
      calls out.2 = cl ++ [call] /\ out.1 = Raise RerunException /\
      session out.2
      = SessionState
          (analysis_history s ++
           [AnalysisResult (w_ticker w) (date_str (w_trade_date w)) fs dec (now env)
                           analysts])
          (Some (AnalysisResult (w_ticker w) (date_str (w_trade_date w)) fs dec
                                (now env) analysts))
          false (config s)) \/
   (analysis_history (session out.2) = analysis_history s /\
    current_analysis (session out.2) = current_analysis s /\
    ((out.1 = Return tt /\
      analysis_running (session out.2)
      = (if w_submitted w then false else analysis_running s) /\
      (w_submitted w = false \/ PyStr.truthy (w_ticker w) = false \/
       exists message,
         framework_raises env analysts (config s) (w_ticker w)
           (date_str (w_trade_date w)) message)) \/
     (out.1 = Raise RerunException /\ rq <> None /\
      (analysis_running (session out.2) = analysis_running s \/
       w_submitted w = true /\ analysis_running (session out.2) = true))))).
Proof.
  intros call out. subst out. unfold analysis_form. rewrite !bind_yield.
  destruct rq as [[|n]|].
  { cbn [fst snd session calls]. split; [reflexivity|]. split; [now left|].
    right. repeat split. right. split; [reflexivity|]. split; [discriminate|].
    now left. }
  all: destruct (w_submitted w) eqn:Hs;
    [|cbn; split; [reflexivity|]; split; [now left|]; right; repeat split;
      left; repeat split; now left].
  all: cbv [mbind M_bind set_running get_state put_state session page calls pending].
  all: match goal with |- context [run_analysis _ _ _ _ (MkWorld ?s1 _ _ ?rq1)] =>
         pose proof (run_analysis_any env (w_ticker w) (date_str (w_trade_date w))
                       analysts s1 pg cl rq1) as H
       end.
  all: cbv zeta in H;
    cbn [config analysis_history current_analysis analysis_running] in H.
  all: destruct (run_analysis env (w_ticker w) (date_str (w_trade_date w)) analysts _)
         as [o [s' pg' cl' rq2]].
  all: cbn [fst snd session calls] in H.
  all: destruct H as (Hcl & [(fs & dec & Hret & Ht & Hcl' & -> & ->)
                            | ([(-> & Hwhy) | (-> & Hne)] & ->)]).
  all: cbn [fst snd session calls analysis_history current_analysis analysis_running
            config].
  1,4: step_emit; cbn [fst snd session calls config];
    (split; [reflexivity|]); (split; [right; auto|]);
    left; exists fs, dec; repeat split; assumption.
  1,3: split; [reflexivity|]; (split; [destruct Hcl as [? | (? & ?)]; auto|]);
    right; repeat split; left; repeat split; right;
    destruct Hwhy as [? | [Hd | ?]]; auto;
    rewrite date_str_truthy in Hd; discriminate.
  all: split; [reflexivity|]; (split; [destruct Hcl as [? | (? & ?)]; auto|]);
    right; repeat split; right; (split; [reflexivity|]);
    (split; [first [discriminate | now destruct Hne]|]); right; now split.
Qed.

(** ** Invalid input *)

(** C7, as the code has it.  A call of the invoker of the Streamlit
    application with an empty ticker or an empty date returns [None] after
    the one inline error message; whether or not a request cuts the call off,
    no call reaches the framework and the session state, its history
    included, is what it was.  The chat front end returns its message for an
    empty ticker without calling the framework; it does not look at the
    date: with a ticker and an empty date it calls the framework. *)
Theorem invalid_input_not_attempted (env : environment) (ticker trade_date : string)
    (analysts : list string) (s : session_state) (pg : list st_call)
    (cl : list framework_call) :
  ticker = EmptyString \/ trade_date = EmptyString ->
  run_analysis env ticker trade_date analysts (World s pg cl) =
    (Return None,
     World s (pg ++ [st_error "Please provide both ticker symbol and trade date"]) cl) /\
  (forall rq,
     let out := run_analysis env ticker trade_date analysts (MkWorld s pg cl rq) in
     session out.2 = s /\ calls out.2 = cl /\
     (out.1 = Return None \/ out.1 = Raise RerunException /\ rq = Some 0)) /\
  (forall (chat : GradioApp.environment) (date_str : string) (selected : list string),
     GradioApp.run_trading_analysis chat EmptyString date_str selected =
     GradioApp.Outputs
       (if GradioApp.TRADING_AGENTS_AVAILABLE chat then "❌ Please enter a stock ticker"
        else "❌ TradingAgents framework not available")
       EmptyString EmptyString []) /\
  (forall (chat : GradioApp.environment) (symbol : string) (selected : list string)
          (ta : string -> string -> propagated),
     GradioApp.TRADING_AGENTS_AVAILABLE chat = true ->
     PyStr.truthy symbol = true ->
     GradioApp.TradingAgentsGraph chat selected (gradio_config chat) = Constructed ta ->
     GradioApp.framework_calls
       (GradioApp.run_trading_analysis chat symbol EmptyString selected)
     = [FrameworkCall selected (gradio_config chat) symbol EmptyString]).
Proof.
  intros H.
  assert (H' : PyStr.truthy ticker = false \/ PyStr.truthy trade_date = false)
    by (destruct H as [-> | ->]; [left | right]; reflexivity).
  split; [now apply run_analysis_invalid|]. split; [|split].
  - intros rq out. subst out. rewrite (run_analysis_invalid_any env _ _ analysts _ H').
    unfold mbind, M_bind, mret, M_ret. step_emit; cbn [fst snd session calls]; auto.
  - intros chat date_str selected. apply gradio_empty_ticker.
  - intros chat symbol selected ta. apply gradio_empty_date_is_sent.
Qed.

(** The same on a sample invocation with an empty ticker. *)
Lemma invalid_input_witness :
  run_analysis (sample_env returns_buy) EmptyString "2024-11-16" ["market"]
    (World sample_state [] []) =
    (Return None,
     World sample_state
           ([] ++ [st_error "Please provide both ticker symbol and trade date"]) []) /\
  (forall rq,
     let out := run_analysis (sample_env returns_buy) EmptyString "2024-11-16" ["market"]
                  (MkWorld sample_state [] [] rq) in
     session out.2 = sample_state /\ calls out.2 = [] /\
     (out.1 = Return None \/ out.1 = Raise RerunException /\ rq = Some 0)) /\
  (forall (chat : GradioApp.environment) (date_str : string) (selected : list string),
     GradioApp.run_trading_analysis chat EmptyString date_str selected =
     GradioApp.Outputs
       (if GradioApp.TRADING_AGENTS_AVAILABLE chat then "❌ Please enter a stock ticker"
        else "❌ TradingAgents framework not available")
       EmptyString EmptyString []) /\
  (forall (chat : GradioApp.environment) (symbol : string) (selected : list string)
          (ta : string -> string -> propagated),
     GradioApp.TRADING_AGENTS_AVAILABLE chat = true ->
     PyStr.truthy symbol = true ->
     GradioApp.TradingAgentsGraph chat selected (gradio_config chat) = Constructed ta ->
     GradioApp.framework_calls
       (GradioApp.run_trading_analysis chat symbol EmptyString selected)
     = [FrameworkCall selected (gradio_config chat) symbol EmptyString]).
Proof.
  exact (invalid_input_not_attempted (sample_env returns_buy) EmptyString "2024-11-16"
           ["market"] sample_state [] [] (or_introl eq_refl)).
Defined.

(** ** Failure of the external call *)

Lemma raises_or_returns (env : environment) (analysts : list string)
    (cfg : gmap string cfgval) (ticker trade_date message : string)
    (fs : gmap string pyval) (dec : pyval) :
  framework_raises env analysts cfg ticker trade_date message ->
  framework_returns env analysts cfg ticker trade_date fs dec -> False.
Proof.
  intros [Hc | (ta & Hc & Hp)] (ta' & Hc' & Hp'); [congruence|].
  rewrite Hc in Hc'. injection Hc' as <-. congruence.
Qed.

Lemma returns_unique (env : environment) (analysts : list string)
    (cfg : gmap string cfgval) (ticker trade_date : string)
    (fs fs' : gmap string pyval) (dec dec' : pyval) :
  framework_returns env analysts cfg ticker trade_date fs dec ->
  framework_returns env analysts cfg ticker trade_date fs' dec' ->
  fs' = fs /\ dec' = dec.
Proof.
  intros (ta & Hc & Hp) (ta' & Hc' & Hp').
  rewrite Hc in Hc'. injection Hc' as <-. rewrite Hp in Hp'. now injection Hp'.
Qed.

(** A request that is due at the first error message of the handler: the
    framework call has raised, no message is shown, the run ends there and
    the running flag is left set. *)
Lemma interrupted_failure_keeps_flag :
  let out := analysis_form (sample_env raises_timeout) (sample_widgets "NVDA" true)
               ["market"] (MkWorld sample_state [] [] (Some 7)) in
  framework_raises (sample_env raises_timeout) ["market"] (config sample_state) "NVDA"
    "2024-11-16" "request timed out" /\
  length (calls out.2) = 1 /\
  out.1 = Raise RerunException /\
  page out.2 = progress_start ++ progress_running /\
  (forall body, st_error body ∉ page out.2) /\
  analysis_running (session out.2) = true.
Proof.
  split; [right; eexists; split; reflexivity|].
  vm_compute. do 3 (split; [reflexivity|]). split; [|reflexivity].
  intros body H.
  repeat (apply elem_of_cons in H as [H | H]; [discriminate|]).
  now apply elem_of_nil in H.
Qed.

(** C4, as the code has it.  When the external call raises and no request
    cuts the run off, the invoker shows the error with the external message
    and returns [None] with the session state untouched, and once the form
    has handled the submission, history, current and configuration are what
    they were and the running flag is false.  Whether or not a request cuts
    the run off, history, current and configuration are what they were, and
    the form has either returned with the flag clear or was cut off.  The
    chat front end returns the message with the external text and two empty
    panes. *)
Theorem analysis_failed_leaves_state (env : environment) (w : widgets)
    (analysts : list string) (s : session_state) (pg : list st_call)
    (cl : list framework_call) (message : string) :
  w_submitted w = true ->
  PyStr.truthy (w_ticker w) = true ->
  framework_raises env analysts (config s) (w_ticker w) (date_str (w_trade_date w))
    message ->
  (exists (shown : list st_call) (cl' : list framework_call),
     run_analysis env (w_ticker w) (date_str (w_trade_date w)) analysts
       (World (with_running true s) pg cl)
     = (Return None,
        World (with_running true s) (pg ++ shown ++ failure_report env message) cl') /\
     analysis_form env w analysts (World s pg cl)
     = (Return tt,
        World (SessionState (analysis_history s) (current_analysis s) false (config s))
              (pg ++ shown ++ failure_report env message) cl')) /\
  (forall rq,
     let out := analysis_form env w analysts (MkWorld s pg cl rq) in
     analysis_history (session out.2) = analysis_history s /\
     current_analysis (session out.2) = current_analysis s /\
     config (session out.2) = config s /\
     (out.1 = Return tt /\ analysis_running (session out.2) = false \/
      out.1 = Raise RerunException /\ rq <> None)) /\
  (forall (chat : GradioApp.environment) (ticker date_str text : string)
          (selected : list string),
     GradioApp.TRADING_AGENTS_AVAILABLE chat = true ->
     PyStr.truthy ticker = true ->
     (GradioApp.TradingAgentsGraph chat selected (gradio_config chat)
        = ConstructRaised text \/
      exists ta, GradioApp.TradingAgentsGraph chat selected (gradio_config chat)
                   = Constructed ta /\
                 ta ticker date_str = PropagateRaised text) ->
     GradioApp.run_trading_analysis chat ticker date_str selected
     = GradioApp.Outputs ("❌ Analysis failed: " +:+ text) EmptyString EmptyString
         (GradioApp.framework_calls
            (GradioApp.run_trading_analysis chat ticker date_str selected))).
Proof.
  intros Hs Ht Hraise.
  pose proof (date_str_truthy (w_trade_date w)) as Hd.
  split; [|split].
  - assert (Hrun : exists shown cl',
      run_analysis env (w_ticker w) (date_str (w_trade_date w)) analysts
        (World (with_running true s) pg cl)
      = (Return None,
         World (with_running true s) (pg ++ shown ++ failure_report env message) cl')).
    { destruct Hraise as [Hc | (ta & Hc & Hp)].
      - exists progress_start, cl.
        now apply run_analysis_construct_raises.
      - exists (progress_start ++ progress_running),
               (cl ++ [FrameworkCall analysts (config s) (w_ticker w)
                                     (date_str (w_trade_date w))]).
        rewrite <- app_assoc.
        now apply (run_analysis_propagate_raises env _ _ _ (with_running true s) pg cl ta). }
    destruct Hrun as (shown & cl' & Hrun).
    exists shown, cl'. split; [exact Hrun|].
    rewrite (analysis_form_submitted env w analysts s pg cl _ _ _ _ Hs Hrun).
    reflexivity.
  - intros rq out. subst out.
    destruct (analysis_form_any env w analysts s pg cl rq)
      as (Hcfg & _ & [(fs & dec & _ & _ & Hret & _) | (Hh & Hc & Hout)]).
    + destruct (raises_or_returns _ _ _ _ _ _ _ _ Hraise Hret).
    + repeat split; try assumption.
      destruct Hout as [(Ho & Hf & _) | (Ho & Hne & _)].
      * left. rewrite Hs in Hf. now split.
      * right. now split.
  - intros chat ticker date_str text selected Ha Htk Hfail.
    unfold GradioApp.run_trading_analysis. rewrite Ha, Htk. cbn [negb].
    fold (gradio_config chat).
    destruct Hfail as [-> | (ta & -> & ->)]; reflexivity.
Qed.

(** The same on a sample submission whose framework call times out. *)
Lemma analysis_failed_witness :
  let env := sample_env raises_timeout in
  let w := sample_widgets "NVDA" true in
  (exists (shown : list st_call) (cl' : list framework_call),
     run_analysis env "NVDA" "2024-11-16" ["market"]
       (World (with_running true sample_state) [] [])
     = (Return None,
        World (with_running true sample_state)
              ([] ++ shown ++ failure_report env "request timed out") cl') /\
     analysis_form env w ["market"] (World sample_state [] [])
     = (Return tt,
        World (SessionState [] None false ∅)
              ([] ++ shown ++ failure_report env "request timed out") cl')) /\
  (forall rq,
     let out := analysis_form env w ["market"] (MkWorld sample_state [] [] rq) in
     analysis_history (session out.2) = [] /\
     current_analysis (session out.2) = None /\
     config (session out.2) = ∅ /\
     (out.1 = Return tt /\ analysis_running (session out.2) = false \/
      out.1 = Raise RerunException /\ rq <> None)) /\
  (forall (chat : GradioApp.environment) (ticker date_str text : string)
          (selected : list string),
     GradioApp.TRADING_AGENTS_AVAILABLE chat = true ->
     PyStr.truthy ticker = true ->
     (GradioApp.TradingAgentsGraph chat selected (gradio_config chat)
        = ConstructRaised text \/
      exists ta, GradioApp.TradingAgentsGraph chat selected (gradio_config chat)
                   = Constructed ta /\
                 ta ticker date_str = PropagateRaised text) ->
     GradioApp.run_trading_analysis chat ticker date_str selected
     = GradioApp.Outputs ("❌ Analysis failed: " +:+ text) EmptyString EmptyString
         (GradioApp.framework_calls
            (GradioApp.run_trading_analysis chat ticker date_str selected))).
Proof.
  exact (analysis_failed_leaves_state (sample_env raises_timeout)
           (sample_widgets "NVDA" true) ["market"] sample_state [] []
           "request timed out" eq_refl eq_refl
           (or_intror (ex_intro _ (fun _ _ => PropagateRaised "request timed out")
                                (conj eq_refl eq_refl)))).
Defined.

(** ** Success *)

(** A request that is due at the first display call after the framework has
    returned: the bundle is not built, nothing is appended, current is what
    it was, and the running flag is left set. *)
Lemma interrupted_success_stores_nothing :
  let out := analysis_form (sample_env returns_buy) (sample_widgets "NVDA" true)
               ["market"] (MkWorld sample_state [] [] (Some 7)) in
  framework_returns (sample_env returns_buy) ["market"] (config sample_state) "NVDA"
    "2024-11-16" uptrend (VStr "BUY") /\
  length (calls out.2) = 1 /\
  out.1 = Raise RerunException /\
  analysis_history (session out.2) = [] /\
  current_analysis (session out.2) = None /\
  analysis_running (session out.2) = true.
Proof.
  split; [eexists; split; reflexivity|].
  vm_compute. repeat split.
Qed.

(** C5, as the code has it.  When ticker and date are not empty, the
    external call returns and no request cuts the run off, the invoker
    returns a bundle, and the form leaves a history that is the old one with
    that bundle appended (one entry longer), the bundle as current, and the
    running flag false.  When a request cuts the run off, either the same
    has been stored, with the flag false, or nothing has: history and current
    are what they were. *)
Theorem analysis_success_appends (env : environment) (w : widgets)
    (analysts : list string) (s : session_state) (pg : list st_call)
    (cl : list framework_call) (fs : gmap string pyval) (dec : pyval) :
  w_submitted w = true ->
  PyStr.truthy (w_ticker w) = true ->
  framework_returns env analysts (config s) (w_ticker w) (date_str (w_trade_date w))
    fs dec ->
  let b := AnalysisResult (w_ticker w) (date_str (w_trade_date w)) fs dec
                          (now env) analysts in
  (exists (s1 : session_state) (pg1 pg2 : list st_call) (cl1 : list framework_call),
     run_analysis env (w_ticker w) (date_str (w_trade_date w)) analysts
       (World (with_running true s) pg cl)
     = (Return (Some b), World s1 pg1 cl1) /\
     analysis_form env w analysts (World s pg cl)
     = (Raise RerunException,
        World (SessionState (analysis_history s ++ [b]) (Some b) false (config s))
              pg2 cl1) /\
     length (analysis_history s ++ [b]) = S (length (analysis_history s)) /\
     last (analysis_history s ++ [b]) = Some b) /\
  (forall rq,
     let out := analysis_form env w analysts (MkWorld s pg cl rq) in
     out.1 = Raise RerunException /\
     (session out.2
      = SessionState (analysis_history s ++ [b]) (Some b) false (config s) \/
      rq <> None /\
      analysis_history (session out.2) = analysis_history s /\
      current_analysis (session out.2) = current_analysis s)).
Proof.
  intros Hs Ht Hret b. split.
  - destruct Hret as (ta & Hc & Hp).
    pose proof (date_str_truthy (w_trade_date w)) as Hd.
    pose proof (run_analysis_returns env _ _ analysts (with_running true s) pg cl
                  ta fs dec Ht Hd Hc Hp) as Hrun.
    cbv zeta in Hrun. fold b in Hrun.
    do 4 eexists. split; [exact Hrun|]. split; [|split].
    + rewrite (analysis_form_submitted env w analysts s pg cl _ _ _ _ Hs Hrun).
      reflexivity.
    + rewrite length_app. cbn. lia.
    + apply last_snoc.
  - intros rq out. subst out.
    destruct (analysis_form_any env w analysts s pg cl rq)
      as (_ & _ & [(fs' & dec' & _ & _ & Hret' & _ & Ho & Hsess)
                  | (Hh & Hc & [(_ & _ & Hwhy) | (Ho & Hne & _)])]).
    + destruct (returns_unique _ _ _ _ _ _ _ _ _ Hret Hret') as [-> ->].
      split; [exact Ho|]. left. exact Hsess.
    + destruct Hwhy as [Hn | [Hn | (m & Hraise)]]; [congruence | congruence|].
      destruct (raises_or_returns _ _ _ _ _ _ _ _ Hraise Hret).
    + split; [exact Ho|]. right. auto.
Qed.

(** The same on a sample submission whose framework call returns. *)
Lemma analysis_success_witness :
  let env := sample_env returns_buy in
  let w := sample_widgets "NVDA" true in
  let b := AnalysisResult "NVDA" "2024-11-16" uptrend (VStr "BUY") sample_time
                          ["market"] in
  (exists (s1 : session_state) (pg1 pg2 : list st_call) (cl1 : list framework_call),
     run_analysis env "NVDA" "2024-11-16" ["market"]
       (World (with_running true sample_state) [] [])
     = (Return (Some b), World s1 pg1 cl1) /\
     analysis_form env w ["market"] (World sample_state [] [])
     = (Raise RerunException,
        World (SessionState ([] ++ [b]) (Some b) false ∅) pg2 cl1) /\
     length ([] ++ [b]) = S (length (@nil analysis_result)) /\
     last ([] ++ [b]) = Some b) /\
  (forall rq,
     let out := analysis_form env w ["market"] (MkWorld sample_state [] [] rq) in
     out.1 = Raise RerunException /\
     (session out.2 = SessionState ([] ++ [b]) (Some b) false ∅ \/
      rq <> None /\
      analysis_history (session out.2) = [] /\
      current_analysis (session out.2) = None)).
Proof.
  exact (analysis_success_appends (sample_env returns_buy)
           (sample_widgets "NVDA" true) ["market"] sample_state [] []
           uptrend (VStr "BUY") eq_refl eq_refl
           (ex_intro _ (fun _ _ => Propagated uptrend (VStr "BUY"))
                     (conj eq_refl eq_refl))).
Defined.

(** ** The running flag *)

(** A session in which a request cut off the first submission while the
    framework was at work: the flag is stored set.  The next submission is
    run like any other: the framework is called and the history grows. *)
Lemma running_flag_does_not_gate :
  let env := sample_env returns_buy in
  let w := sample_widgets "NVDA" true in
  let stored := store (session (script_run env fresh w (Some 10)).2) in
  reachable stored /\
  stored_running stored = Some true /\
  stored_history stored = Some [] /\
  length (analysis_history (session (main env stored w).2)) = 1 /\
  length (calls (main env stored w).2) = 1.
Proof.
  split.
  - apply (reachable_run (sample_env returns_buy) fresh (sample_widgets "NVDA" true)
             (Some 10) reachable_fresh).
  - vm_compute. repeat split.
Qed.

Lemma analysis_form_flag (env : environment) (w : widgets) (analysts : list string)
    (h : list analysis_result) (c : option analysis_result) (f1 f2 : bool)
    (cfg : gmap string cfgval) (pg : list st_call) (cl : list framework_call) :
  w_submitted w = true ->
  analysis_form env w analysts (World (SessionState h c f1 cfg) pg cl)
  = analysis_form env w analysts (World (SessionState h c f2 cfg) pg cl).
Proof.
  intros Hs. unfold analysis_form. rewrite Hs. reflexivity.
Qed.

Lemma analysis_form_flag_any (env : environment) (w : widgets)
    (analysts : list string) (h : list analysis_result) (c : option analysis_result)
    (f1 f2 : bool) (cfg : gmap string cfgval) (pg : list st_call)
    (cl : list framework_call) (rq : option nat) :
  w_submitted w = true -> rq <> Some 0 ->
  analysis_form env w analysts (MkWorld (SessionState h c f1 cfg) pg cl rq)
  = analysis_form env w analysts (MkWorld (SessionState h c f2 cfg) pg cl rq).
Proof.
  intros Hs Hne. unfold analysis_form. rewrite !bind_yield, Hs.
  destruct rq as [[|n]|]; [congruence | reflexivity | reflexivity].
Qed.

(** Two script runs that differ in the running flag they find: the flag is
    written before anything reads the session state again. *)
Lemma script_run_flag (env : environment) (w : widgets) (h : list analysis_result)
    (c : option analysis_result) (f1 f2 : bool) (cfg : gmap string cfgval)
    (rq : option nat) :
  w_submitted w = true ->
  let a := script env w (MkWorld (SessionState h c f1 cfg) [] [] rq) in
  let b := script env w (MkWorld (SessionState h c f2 cfg) [] [] rq) in
  a.1 = b.1 /\ page a.2 = page b.2 /\ calls a.2 = calls b.2 /\
  analysis_history (session a.2) = analysis_history (session b.2) /\
  current_analysis (session a.2) = current_analysis (session b.2) /\
  config (session a.2) = config (session b.2).
Proof.
  intros Hs a b. subst a b. unfold script.
  destruct rq as [[|[|[|n]]]|];
    cbv [mbind M_bind mret M_ret emit yield show create_sidebar get_state put_state
         session page calls pending analysis_history current_analysis
         analysis_running config fst snd];
    try (repeat split; reflexivity).
  - destruct n as [|n].
    + unfold analysis_form. rewrite !bind_yield. repeat split; reflexivity.
    + rewrite (analysis_form_flag_any env w _ h c f1 f2 _ _ _ (Some (S n)) Hs)
        by discriminate.
      repeat split; reflexivity.
  - rewrite (analysis_form_flag_any env w _ h c f1 f2 _ _ _ None Hs) by discriminate.
    repeat split; reflexivity.
Qed.

Lemma initialize_store (env : environment) (s : session_state) :
  initialize_session_state env (store s) = s.
Proof. destruct s; reflexivity. Qed.

(** C2, as the code has it.  A submission sets the running flag, makes the
    one blocking invoker call (at most one call of the framework) and, when
    no request cuts the run off, clears the flag when the call has returned.
    The value the flag had before plays no part: a submission that finds the
    flag set is handled exactly like one that finds it clear, by the form
    and by the whole script run.  After a submission the flag is set only
    where a request has cut the run off.  Also in a run that a request cuts
    off, the outcome, the page, the calls, the history, the current analysis
    and the configuration do not depend on the flag that the run found. *)
Theorem submission_ignores_running_flag (env : environment) (w : widgets)
    (analysts : list string) (s : session_state) (pg : list st_call)
    (cl : list framework_call) (flag : bool) :
  w_submitted w = true ->
  analysis_form env w analysts (World (with_running flag s) pg cl)
    = analysis_form env w analysts (World s pg cl) /\
  main env (store (with_running flag s)) w = main env (store s) w /\
  analysis_running (session (analysis_form env w analysts (World s pg cl)).2) = false /\
  (forall rq,
     let after := analysis_form env w analysts (MkWorld s pg cl rq) in
     (analysis_running (session after.2) = true ->
      after.1 = Raise RerunException /\ rq <> None) /\
     (calls after.2 = cl \/
      calls after.2 = cl ++ [FrameworkCall analysts (config s) (w_ticker w)
                                           (date_str (w_trade_date w))])) /\
  (forall rq,
     let found_set := script_run env (store (with_running flag s)) w rq in
     let found := script_run env (store s) w rq in
     found_set.1 = found.1 /\ page found_set.2 = page found.2 /\
     calls found_set.2 = calls found.2 /\
     analysis_history (session found_set.2) = analysis_history (session found.2) /\
     current_analysis (session found_set.2) = current_analysis (session found.2) /\
     config (session found_set.2) = config (session found.2)).
Proof.
  intros Hs.
  assert (Hany : forall rq,
     let after := analysis_form env w analysts (MkWorld s pg cl rq) in
     (analysis_running (session after.2) = true ->
      after.1 = Raise RerunException /\ rq <> None) /\
     (calls after.2 = cl \/
      calls after.2 = cl ++ [FrameworkCall analysts (config s) (w_ticker w)
                                           (date_str (w_trade_date w))])).
  { intros rq after. subst after.
    destruct (analysis_form_any env w analysts s pg cl rq)
      as (_ & Hcl & [(fs & dec & _ & _ & _ & _ & Ho & ->)
                    | (_ & _ & [(Ho & Hf & _) | (Ho & Hne & _)])]).
    - split; [discriminate|]. destruct Hcl as [? | (_ & _ & ?)]; auto.
    - rewrite Hs in Hf. rewrite Hf. split; [discriminate|].
      destruct Hcl as [? | (_ & _ & ?)]; auto.
    - split; [auto|]. destruct Hcl as [? | (_ & _ & ?)]; auto. }
  split; [|split; [|split; [|split]]].
  - destruct s as [h c r cfg]. apply analysis_form_flag. exact Hs.
  - unfold main, script_run. rewrite !initialize_store. destruct s as [h c r cfg].
    unfold script, with_running.
    cbv [mbind M_bind mret M_ret yield show emit create_sidebar get_state put_state
         session page calls pending analysis_history current_analysis analysis_running
         config].
    rewrite (analysis_form_flag env w _ h c flag r _ _ _ Hs). reflexivity.
  - destruct (Hany None) as [Hf _]. cbv zeta in Hf.
    destruct (analysis_running _); [|reflexivity].
    destruct (Hf eq_refl) as [_ Hne]. now destruct Hne.
  - exact Hany.
  - intros rq. unfold script_run. rewrite !initialize_store.
    destruct s as [h c r cfg]. now apply script_run_flag.
Qed.

(** The same on a sample submission that finds the flag set. *)
Lemma submission_ignores_running_flag_witness :
  let env := sample_env returns_buy in
  let w := sample_widgets "NVDA" true in
  analysis_form env w ["market"] (World (with_running true sample_state) [] [])
    = analysis_form env w ["market"] (World sample_state [] []) /\
  main env (store (with_running true sample_state)) w = main env (store sample_state) w /\
  analysis_running (session (analysis_form env w ["market"]
                               (World sample_state [] [])).2) = false /\
  (forall rq,
     let after := analysis_form env w ["market"] (MkWorld sample_state [] [] rq) in
     (analysis_running (session after.2) = true ->
      after.1 = Raise RerunException /\ rq <> None) /\
     (calls after.2 = [] \/
      calls after.2 = [] ++ [FrameworkCall ["market"] ∅ "NVDA" "2024-11-16"])) /\
  (forall rq,
     let found_set := script_run env (store (with_running true sample_state)) w rq in
     let found := script_run env (store sample_state) w rq in
     found_set.1 = found.1 /\ page found_set.2 = page found.2 /\
     calls found_set.2 = calls found.2 /\
     analysis_history (session found_set.2) = analysis_history (session found.2) /\
     current_analysis (session found_set.2) = current_analysis (session found.2) /\
     config (session found_set.2) = config (session found.2)).
Proof.
  exact (submission_ignores_running_flag (sample_env returns_buy)
           (sample_widgets "NVDA" true) ["market"] sample_state [] [] true eq_refl).
Defined.
(** * The session-state invariant *)

Section Preservation.

Context {A B : Type} (P : session_state -> Prop).

Lemma preserves_ret (a : A) : preserves P (mret a).
Proof. intros w H. exact H. Qed.

Lemma preserves_raise (e : exn) : preserves P (raise e : M A).
Proof. intros w H. exact H. Qed.

Lemma preserves_emit (c : st_call) : preserves P (emit c).
Proof. intros [s pg cl [[|n]|]] H; exact H. Qed.

Lemma preserves_emit_all (cs : list st_call) : preserves P (emit_all cs).
Proof.
  intros [s pg cl [n|]] H; unfold emit_all; cbn [pending]; [|exact H].
  destruct (n <? length cs)%nat; exact H.
Qed.

Lemma preserves_get_state : preserves P get_state.
Proof. intros w H. exact H. Qed.

Lemma preserves_bind (m : M A) (k : A -> M B) :
  preserves P m -> (forall a, preserves P (k a)) -> preserves P (m ≫= k).
Proof.
  intros Hm Hk w H. specialize (Hm w H).
  unfold mbind, M_bind. destruct (m w) as [[a | e] w']; cbn in Hm |- *.
  - now apply Hk.
  - exact Hm.
Qed.

Lemma preserves_within (container : list st_call -> st_call) (m : M A) :
  preserves P m -> preserves P (within container m).
Proof.
  intros Hm [s pg cl rq] H. cbn [session] in H. unfold within.
  rewrite bind_yield. destruct rq as [[|n]|]; [exact H| |].
  - specialize (Hm (MkWorld s [] cl (Some n)) H). cbn [session page calls pending].
    destruct (m _) as [r w']. exact Hm.
  - specialize (Hm (MkWorld s [] cl None) H). cbn [session page calls pending].
    destruct (m _) as [r w']. exact Hm.
Qed.

Lemma preserves_try_except (m : M A) (handler : string -> M A) :
  preserves P m -> (forall message, preserves P (handler message)) ->
  preserves P (try_except m handler).
Proof.
  intros Hm Hh w H. specialize (Hm w H). unfold try_except.
  destruct (m w) as [[a | [message |]] w']; cbn in Hm |- *; try exact Hm.
  now apply Hh.
Qed.

End Preservation.

Lemma preserves_yield (P : session_state -> Prop) : preserves P yield.
Proof. intros [s pg cl [[|n]|]] H; exact H. Qed.

Lemma preserves_st_tabs (P : session_state -> Prop) (blocks : list (string * M unit)) :
  Forall (fun block => preserves P block.2) blocks -> preserves P (st_tabs blocks).
Proof.
  intros Hb. unfold st_tabs. apply preserves_bind; [apply preserves_yield|].
  intros _. induction Hb as [|[label body] rest Hbody _ IH]; [apply preserves_ret|].
  intros w H. cbn [fill_tabs]. cbn [snd] in Hbody.
  specialize (Hbody (MkWorld (session w) [] (calls w) (pending w)) H).
  destruct (body _) as [[[]|e] w']; cbn [snd] in Hbody |- *.
  - apply IH. exact Hbody.
  - exact Hbody.
Qed.

Lemma preserves_when (P : session_state -> Prop) (b : bool) (m : M unit) :
  preserves P m -> preserves P (when b m).
Proof. intros Hm. destruct b; [exact Hm | apply preserves_ret]. Qed.

(** Steps through a fragment built from the combinators above. *)
Ltac preserve :=
  repeat match goal with
    | |- preserves _ (mbind _ _) => apply preserves_bind; [|intros ?]
    | |- preserves _ (emit _) => apply preserves_emit
    | |- preserves _ yield => apply preserves_yield
    | |- preserves _ (emit_all _) => apply preserves_emit_all
    | |- preserves _ (mret _) => apply preserves_ret
    | |- preserves _ (raise _) => apply preserves_raise
    | |- preserves _ get_state => apply preserves_get_state
    | |- preserves _ (within _ _) => apply preserves_within
    | |- preserves _ (when _ _) => apply preserves_when
    end.

(** The renderer reads the session state and writes nothing to it. *)
Lemma debate_rounds_preserves (P : session_state -> Prop) (rounds : list string) :
  forall n, preserves P (debate_rounds n rounds).
Proof.
  induction rounds as [|debate rest IH]; intros n; cbn [debate_rounds].
  - apply preserves_ret.
  - preserve. apply IH.
Qed.

Lemma display_analysis_results_preserves (P : session_state -> Prop)
    (env : environment) (w : widgets) (r : analysis_result) :
  preserves P (display_analysis_results env w r).
Proof.
  unfold display_analysis_results, summary_tab, analyst_reports_tab, research_tab,
    trading_tab, risk_tab, charts_tab, export_tab, report_expander, report_section,
    debate_history_section.
  apply preserves_st_tabs. repeat constructor; cbn [snd]; preserve.
  destruct (final_state r !! "debate_history") as [v|]; preserve.
  - destruct v; unfold py_iter; preserve.
  - apply debate_rounds_preserves.
Qed.

(** What the script writes to the session state: the sidebar writes the
    configuration, the form the running flag, the invoker appends a bundle
    and makes it current, the history view makes an entry of the history
    current.  A property that these writes keep is kept by every script
    run, however the run ends. *)
Section Writes.

Context (P : session_state -> Prop).

Hypothesis P_config : forall s cfg,
  P s -> P (SessionState (analysis_history s) (current_analysis s)
                         (analysis_running s) cfg).

Hypothesis P_running : forall s b,
  P s -> P (SessionState (analysis_history s) (current_analysis s) b (config s)).

Hypothesis P_view : forall s i r,
  analysis_history s !! i = Some r ->
  P s -> P (SessionState (analysis_history s) (Some r) (analysis_running s) (config s)).

Hypothesis P_append : forall s b,
  PyStr.truthy (ticker b) = true -> (exists d, trade_date b = date_str d) ->
  P s -> P (SessionState (analysis_history s ++ [b]) (Some b) (analysis_running s)
                         (config s)).

Lemma create_sidebar_preserves (w : widgets) : preserves P (create_sidebar w).
Proof.
  intros [s pg cl [[|n]|]] H; cbn [session] in H; [exact H | |];
    apply P_config; exact H.
Qed.

Lemma set_running_preserves (b : bool) : preserves P (set_running b).
Proof. intros [s pg cl rq] H. apply P_running. exact H. Qed.

(** A run of the invoker appends the bundle and makes it current, or writes
    nothing. *)
Lemma run_analysis_preserves (env : environment) (ticker : string) (d : date)
    (analysts : list string) :
  preserves P (run_analysis env ticker (date_str d) analysts).
Proof.
  intros [s pg cl rq] H. cbn [session] in H.
  destruct (run_analysis_any env ticker (date_str d) analysts s pg cl rq)
    as (_ & [(fs & dec & _ & Ht & _ & _ & ->) | (_ & ->)]); [|exact H].
  apply P_append; [exact Ht | now exists d | exact H].
Qed.

Lemma analysis_form_preserves (env : environment) (w : widgets)
    (analysts : list string) :
  preserves P (analysis_form env w analysts).
Proof.
  unfold analysis_form. apply preserves_bind; [apply preserves_yield|]. intros _.
  destruct (w_submitted w); [|apply preserves_ret].
  preserve.
  - apply set_running_preserves.
  - apply run_analysis_preserves.
  - apply set_running_preserves.
  - match goal with |- preserves _ (match ?r with _ => _ end) => destruct r end;
      unfold st_rerun; preserve.
Qed.

(** The history view makes an entry of the history current, or raises and
    changes nothing. *)
Lemma display_analysis_history_preserves (w : widgets) :
  preserves P (display_analysis_history w).
Proof.
  unfold display_analysis_history.
  apply preserves_bind; [apply preserves_emit|]. intros _.
  apply preserves_bind; [apply preserves_get_state|]. intros s0.
  destruct (analysis_history s0); [apply preserves_emit|].
  apply preserves_bind; [apply preserves_yield|]. intros _.
  apply preserves_bind; [|intros _; apply preserves_emit].
  apply preserves_when.
  intros [s pg cl rq] H. cbn [session] in H.
  unfold history_item, set_current. run_script.
  destruct (analysis_history s !! w_selected_analysis w) as [r|] eqn:Hl; cbn.
  - eapply P_view; eassumption.
  - exact H.
Qed.

Lemma script_preserves_from (env : environment) (w : widgets) :
  (forall analysts, preserves P (analysis_form env w analysts)) ->
  preserves P (script env w).
Proof.
  intros Hform. unfold script. preserve.
  - apply create_sidebar_preserves.
  - apply Hform.
  - match goal with |- preserves _ (match ?c with _ => _ end) => destruct c end;
      preserve.
    apply display_analysis_results_preserves.
  - match goal with |- preserves _ (match ?h with _ => _ end) => destruct h end;
      preserve.
    apply display_analysis_history_preserves.
Qed.

Lemma script_preserves (env : environment) (w : widgets) :
  preserves P (script env w).
Proof. apply script_preserves_from. intros analysts. apply analysis_form_preserves. Qed.

End Writes.

(** Without a submission the form writes nothing. *)
Lemma analysis_form_idle (P : session_state -> Prop) (env : environment) (w : widgets)
    (analysts : list string) :
  w_submitted w = false -> preserves P (analysis_form env w analysts).
Proof.
  intros Hs. unfold analysis_form. rewrite Hs.
  apply preserves_bind; [apply preserves_yield | intros _; apply preserves_ret].
Qed.

Lemma current_in_history_append (s : session_state) (b : analysis_result) :
  current_in_history
    (SessionState (analysis_history s ++ [b]) (Some b) (analysis_running s) (config s)).
Proof.
  unfold current_in_history. cbn [current_analysis analysis_history].
  apply elem_of_app. right. apply list_elem_of_singleton. reflexivity.
Qed.

Lemma current_in_history_view (s : session_state) (i : nat) (r : analysis_result) :
  analysis_history s !! i = Some r ->
  current_in_history
    (SessionState (analysis_history s) (Some r) (analysis_running s) (config s)).
Proof. intros Hl. unfold current_in_history. cbn. eapply list_elem_of_lookup_2, Hl. Qed.

Lemma script_keeps_current_in_history (env : environment) (w : widgets) :
  preserves current_in_history (script env w).
Proof.
  apply script_preserves.
  - intros s cfg H. exact H.
  - intros s b H. exact H.
  - intros s i r Hl _. now apply current_in_history_view with i.
  - intros s b _ _ _. apply current_in_history_append.
Qed.

(** C10.  In every state that a session can reach, the current analysis is
    absent or an entry of the history: this holds once a new session is
    initialised, and every script run keeps it (the invoker appends the
    bundle before it makes it current; the history view promotes an entry
    of the history). *)
Theorem current_analysis_in_history (env : environment) (stored : stored_state) :
  reachable stored ->
  current_in_history (initialize_session_state env stored).
Proof.
  induction 1 as [|env' stored w request Hreach IH].
  - exact I.
  - rewrite initialize_store.
    unfold script_run. apply script_keeps_current_in_history. cbn [session].
    destruct Hreach as [|env'' stored' w' request' Hreach'].
    + exact I.
    + rewrite initialize_store in IH |- *. exact IH.
Qed.

(** The same on the state that a first successful run leaves. *)
Lemma current_analysis_in_history_witness :
  current_in_history
    (initialize_session_state (sample_env returns_buy)
       (store (session (main (sample_env returns_buy) fresh
                             (sample_widgets "NVDA" true)).2))).
Proof.
  exact (current_analysis_in_history (sample_env returns_buy) _
           (reachable_run (sample_env returns_buy) fresh (sample_widgets "NVDA" true)
                          None reachable_fresh)).
Defined.

(** * The export and its reading back *)

Lemma exported_reports_entry (fs : gmap string pyval) :
  StreamlitUtils.exported_reports fs =
  List.flat_map (fun key => match entry fs key with
                            | Some t => [(key, Json.JStr t)]
                            | None => []
                            end) StreamlitUtils.EXPORT_KEYS.
Proof.
  unfold StreamlitUtils.exported_reports.
  apply flat_map_ext. intros key. unfold populated, entry.
  destruct (fs !! key) as [v|]; [destruct (truthy v)|]; reflexivity.
Qed.

(** Members written under distinct keys are found again under their keys. *)
Lemma to_dict_flat_map (g : string -> option string) (keys : list string) :
  NoDup keys ->
  forall (acc : gmap string Json.json) (k : string),
    fold_left (fun d kv => <[kv.1 := kv.2]> d)
      (List.flat_map (fun key => match g key with
                                 | Some t => [(key, Json.JStr t)]
                                 | None => []
                                 end) keys) acc !! k
    = if decide (k ∈ keys)
      then match g k with Some t => Some (Json.JStr t) | None => acc !! k end
      else acc !! k.
Proof.
  induction 1 as [|key keys Hnotin Hnodup IH]; intros acc k.
  - cbn. destruct (decide (k ∈ [])) as [Hin|]; [|reflexivity].
    now apply elem_of_nil in Hin.
  - cbn [List.flat_map]. rewrite fold_left_app, IH.
    destruct (decide (k ∈ keys)) as [Hin | Hout].
    + rewrite decide_True by (now apply elem_of_cons; right).
      assert (k <> key) by (intros ->; contradiction).
      destruct (g k); [reflexivity|].
      destruct (g key); cbn; [now rewrite lookup_insert_ne | reflexivity].
    + destruct (decide (k = key)) as [-> | Hne].
      * rewrite decide_True by (now apply elem_of_cons; left).
        destruct (g key); cbn; [now rewrite lookup_insert_eq | reflexivity].
      * rewrite decide_False by (rewrite elem_of_cons; tauto).
        destruct (g key); cbn; [now rewrite lookup_insert_ne | reflexivity].
Qed.

Lemma export_keys_nodup : NoDup StreamlitUtils.EXPORT_KEYS.
Proof. apply (bool_decide_unpack _). vm_compute. exact I. Qed.

(** The reports of a parsed export, key by key. *)
Lemma parsed_reports_lookup (r : analysis_result) :
  exists reports,
    parsed_reports (StreamlitUtils.export_data r) = Some reports /\
    forall key,
      reports !! key =
      if decide (key ∈ StreamlitUtils.EXPORT_KEYS) then entry (final_state r) key
      else None.
Proof.
  eexists. split.
  - unfold parsed_reports, StreamlitUtils.export_data, Json.to_dict.
    cbn [fold_left fst snd]. rewrite lookup_insert_eq. reflexivity.
  - intros key. rewrite lookup_omap, exported_reports_entry.
    unfold Json.to_dict.
    rewrite (to_dict_flat_map (entry (final_state r)) _ export_keys_nodup).
    rewrite lookup_empty.
    destruct (decide (key ∈ StreamlitUtils.EXPORT_KEYS)); [|reflexivity].
    destruct (entry (final_state r) key); reflexivity.
Qed.

(** A populated report outside the exported keys is not in the export. *)
Lemma export_drops_risk_assessment :
  let r := sample_bundle {[ "risk_assessment" := VStr "High volatility" ]} in
  populated (final_state r) "risk_assessment" = true /\
  (Json.loads (StreamlitUtils.export_analysis_to_json r) ≫= parsed_reports) = Some ∅.
Proof. vm_compute. split; reflexivity. Qed.

(** C1, as the code has it.  The export of every bundle parses, and the
    report keys of the parsed document are exactly the exported keys
    (market, sentiment, news and fundamentals reports, investment plan,
    trader investment plan, final trade decision) that the bundle holds
    with a truthy value; each carries the [str] of its value, which for a
    text is the text itself. *)
Theorem export_round_trip (r : analysis_result) :
  exists (doc : Json.json) (reports : gmap string string),
    Json.loads (StreamlitUtils.export_analysis_to_json r) = Some doc /\
    parsed_reports doc = Some reports /\
    (forall key, key ∈ dom reports <->
                 key ∈ StreamlitUtils.EXPORT_KEYS /\ populated (final_state r) key = true) /\
    (forall key v, key ∈ StreamlitUtils.EXPORT_KEYS ->
                   final_state r !! key = Some v -> truthy v = true ->
                   reports !! key = Some (py_str v)) /\
    (forall key s, key ∈ StreamlitUtils.EXPORT_KEYS ->
                   final_state r !! key = Some (VStr s) -> s <> EmptyString ->
                   reports !! key = Some s).
Proof.
  destruct (parsed_reports_lookup r) as (reports & Hparsed & Hlookup).
  exists (StreamlitUtils.export_data r), reports.
  split; [apply loads_dumps|]. split; [exact Hparsed|].
  assert (Hval : forall key v, key ∈ StreamlitUtils.EXPORT_KEYS ->
                   final_state r !! key = Some v -> truthy v = true ->
                   reports !! key = Some (py_str v)).
  { intros key v Hin Hv Ht. rewrite Hlookup, decide_True by exact Hin.
    unfold entry. now rewrite Hv, Ht. }
  split; [|split].
  - intros key. rewrite elem_of_dom, Hlookup. unfold entry, populated.
    destruct (decide (key ∈ StreamlitUtils.EXPORT_KEYS)) as [Hin | Hout].
    + destruct (final_state r !! key) as [v|]; [destruct (truthy v)|].
      * split; [intros _; split; [exact Hin | reflexivity] | intros _; now eexists].
      * split; [intros [? ?]; discriminate | intros [_ ?]; discriminate].
      * split; [intros [? ?]; discriminate | intros [_ ?]; discriminate].
    + split; [intros [? ?]; discriminate | tauto].
  - exact Hval.
  - intros key s Hin Hv Hs. apply (Hval key (VStr s) Hin Hv).
    now apply truthy_not_empty.
Qed.

(** * Report sections *)

Lemma report_expander_shown (fs : gmap string pyval) (key label : string)
    (s : session_state) (pg : list st_call) (cl : list framework_call) :
  report_expander fs key label (World s pg cl) =
  (Return tt,
   World s
         (pg ++ (if populated fs key
                 then [st_expander label true [st_markdown (report_text fs key)]]
                 else []))
         cl).
Proof.
  unfold report_expander. destruct (populated fs key); run_script.
  - reflexivity.
  - now rewrite app_nil_r.
Qed.

Lemma report_section_shown (fs : gmap string pyval) (key heading : string)
    (s : session_state) (pg : list st_call) (cl : list framework_call) :
  report_section fs key heading (World s pg cl) =
  (Return tt,
   World s
         (pg ++ (if populated fs key
                 then [st_markdown heading; st_markdown (report_text fs key)]
                 else []))
         cl).
Proof.
  unfold report_section. destruct (populated fs key); run_script.
  - now rewrite <- app_assoc.
  - now rewrite app_nil_r.
Qed.

(** Where no report is populated and the state has no debate history, the
    report tabs show their fixed parts only. *)
Lemma unpopulated_reports_omitted (fs : gmap string pyval) (s : session_state)
    (cl : list framework_call) :
  (forall key, populated fs key = false) ->
  fs !! "debate_history" = None ->
  analyst_reports_tab fs (World s [] cl)
    = (Return tt, World s [st_subheader "📊 Analyst Team Reports"] cl) /\
  research_tab fs (World s [] cl)
    = (Return tt, World s [st_subheader "🔬 Research Team Analysis"] cl) /\
  trading_tab fs (World s [] cl)
    = (Return tt, World s [st_subheader "💼 Trading Team Decision"] cl).
Proof.
  intros Hpop Hdebate.
  unfold analyst_reports_tab, research_tab, trading_tab, debate_history_section.
  rewrite Hdebate.
  cbv [mbind M_bind mret M_ret emit yield show session page calls pending].
  repeat (rewrite ?report_expander_shown, ?report_section_shown, ?Hpop;
          cbn [session page calls pending app]).
  repeat split.
Qed.

(** C3.  The debate history is the one report whose section does not
    depend on its content: for a bundle whose state holds the key with an
    empty sequence (so that the key is not populated), the research tab of
    the rendered page has the heading of the debate history, with nothing
    under it. *)
Theorem empty_debate_history_renders_heading (env : environment) (w : widgets)
    (s : session_state) (cl : list framework_call) :
  let r := sample_bundle {[ "debate_history" := VSeq [] ]} in
  populated (final_state r) "debate_history" = false /\
  research_tab (final_state r) (World s [] cl) =
    (Return tt,
     World s [st_subheader "🔬 Research Team Analysis"; st_markdown "### Debate History"]
           cl) /\
  exists summary reports rest,
    page (display_analysis_results env w r (World s [] cl)).2 =
    summary :: reports ::
    st_tab "🔬 Research Debate"
      [st_subheader "🔬 Research Team Analysis"; st_markdown "### Debate History"]
    :: rest.
Proof.
  intros r. subst r. split; [vm_compute; reflexivity|].
  split; [vm_compute; reflexivity|].
  destruct w.
  match goal with
  | |- context [Widgets _ _ _ _ _ _ _ _ _ _ _ _ _ ?copy _ _] => destruct copy
  end; vm_compute; do 3 eexists; reflexivity.
Qed.

(** A debate history that is [None] stops the page with an exception. *)
Lemma none_debate_history_raises (s : session_state) (cl : list framework_call) :
  research_tab {[ "debate_history" := VNone ]} (World s [] cl) =
  (Raise (Exception "'NoneType' object is not iterable"),
   World s [st_subheader "🔬 Research Team Analysis"; st_markdown "### Debate History"]
         cl).
Proof. vm_compute. reflexivity. Qed.

(** * Display fragments *)

Lemma shows_ret {A : Type} (a : A) : shows (mret a).
Proof. intros s pg cl. exists a, []. cbn. now rewrite app_nil_r. Qed.

Lemma shows_yield : shows yield.
Proof. intros s pg cl. exists tt, []. cbn. now rewrite app_nil_r. Qed.

Lemma shows_emit (c : st_call) : shows (emit c).
Proof. intros s pg cl. now exists tt, [c]. Qed.

Lemma shows_emit_all (cs : list st_call) : shows (emit_all cs).
Proof. intros s pg cl. now exists tt, cs. Qed.

Lemma shows_get_state : shows get_state.
Proof. intros s pg cl. exists s, []. cbn. now rewrite app_nil_r. Qed.

Lemma shows_bind {A B : Type} (m : M A) (k : A -> M B) :
  shows m -> (forall a, shows (k a)) -> shows (m ≫= k).
Proof.
  intros Hm Hk s pg cl. destruct (Hm s pg cl) as (a & shown & Ha).
  destruct (Hk a s (pg ++ shown) cl) as (b & shown' & Hb).
  exists b, (shown ++ shown'). unfold mbind, M_bind. rewrite Ha, Hb.
  now rewrite app_assoc.
Qed.

Lemma within_shows {A : Type} (container : list st_call -> st_call) (m : M A) :
  shows m -> forall s pg cl, exists (a : A) (shown : list st_call),
    m (World s [] cl) = (Return a, World s shown cl) /\
    within container m (World s pg cl)
    = (Return a, World s (pg ++ [container shown]) cl).
Proof.
  intros Hm s pg cl. destruct (Hm s [] cl) as (a & shown & Ha).
  exists a, shown. split; [exact Ha|]. unfold within. rewrite bind_yield.
  cbn [session page calls pending]. now rewrite Ha.
Qed.

Lemma shows_within {A : Type} (container : list st_call -> st_call) (m : M A) :
  shows m -> shows (within container m).
Proof.
  intros Hm s pg cl. destruct (within_shows container m Hm s pg cl) as (a & shown & _ & Ha).
  now exists a, [container shown].
Qed.

Lemma shows_when (b : bool) (m : M unit) : shows m -> shows (when b m).
Proof. intros Hm. destruct b; [exact Hm | apply shows_ret]. Qed.

Ltac showing :=
  repeat match goal with
    | |- shows (mbind _ _) => apply shows_bind; [|intros ?]
    | |- shows (emit _) => apply shows_emit
    | |- shows yield => apply shows_yield
    | |- shows (emit_all _) => apply shows_emit_all
    | |- shows (mret _) => apply shows_ret
    | |- shows get_state => apply shows_get_state
    | |- shows (within _ _) => apply shows_within
    | |- shows (when _ _) => apply shows_when
    end.

(** Fragments that only display. *)
Section Displays.

Context {A B : Type}.

Lemma displays_ret (a : A) : displays (mret a).
Proof. intros w. split; reflexivity. Qed.

Lemma displays_raise (e : exn) : displays (raise e : M A).
Proof. intros w. split; reflexivity. Qed.

Lemma displays_bind (m : M A) (k : A -> M B) :
  displays m -> (forall a, displays (k a)) -> displays (m ≫= k).
Proof.
  intros Hm Hk w. destruct (Hm w) as [Hs Hc].
  unfold mbind, M_bind. destruct (m w) as [[a | e] w']; cbn [snd] in Hs, Hc |- *.
  - destruct (Hk a w') as [Hs' Hc']. split; congruence.
  - split; assumption.
Qed.

Lemma displays_within (container : list st_call -> st_call) (m : M A) :
  displays m -> displays (within container m).
Proof.
  intros Hm [s pg cl rq]. unfold within. rewrite bind_yield.
  destruct rq as [[|n]|]; [split; reflexivity| |].
  - destruct (Hm (MkWorld s [] cl (Some n))) as [Hs Hc].
    cbn [session page calls pending] in *. destruct (m _) as [r w']. now split.
  - destruct (Hm (MkWorld s [] cl None)) as [Hs Hc].
    cbn [session page calls pending] in *. destruct (m _) as [r w']. now split.
Qed.

End Displays.

Lemma displays_yield : displays yield.
Proof. intros [s pg cl [[|n]|]]; split; reflexivity. Qed.

Lemma displays_emit (c : st_call) : displays (emit c).
Proof. intros [s pg cl [[|n]|]]; split; reflexivity. Qed.

Lemma displays_emit_all (cs : list st_call) : displays (emit_all cs).
Proof.
  intros [s pg cl [n|]]; unfold emit_all; cbn [pending]; [|split; reflexivity].
  destruct (n <? length cs)%nat; split; reflexivity.
Qed.

Lemma displays_get_state : displays get_state.
Proof. intros w. split; reflexivity. Qed.

Lemma displays_when (b : bool) (m : M unit) : displays m -> displays (when b m).
Proof. intros Hm. destruct b; [exact Hm | apply displays_ret]. Qed.

Ltac displaying :=
  repeat match goal with
    | |- displays (mbind _ _) => apply displays_bind; [|intros ?]
    | |- displays (emit _) => apply displays_emit
    | |- displays yield => apply displays_yield
    | |- displays (emit_all _) => apply displays_emit_all
    | |- displays (mret _) => apply displays_ret
    | |- displays (raise _) => apply displays_raise
    | |- displays get_state => apply displays_get_state
    | |- displays (within _ _) => apply displays_within
    | |- displays (when _ _) => apply displays_when
    end.

(** The tabs are filled one after the other; a page that has its tabs has
    them all, in the order of the labels. *)
Lemma fill_tabs_page (blocks : list (string * M unit)) :
  forall w, exists tabs,
    page (fill_tabs blocks w).2 = page w ++ tabs /\
    tab_labels tabs = blocks.*1 /\ length tabs = length blocks.
Proof.
  induction blocks as [|[label body] rest IH]; intros w; cbn [fill_tabs].
  - exists []. cbn. now rewrite app_nil_r.
  - destruct (body _) as [[[]|e] w'].
    + destruct (IH (MkWorld (session w') (page w ++ [st_tab label (page w')])
                            (calls w') (pending w'))) as (tabs & Hp & Hl & Hn).
      exists (st_tab label (page w') :: tabs). rewrite Hp. cbn [page].
      rewrite <- app_assoc. split; [reflexivity|].
      change (tab_labels (st_tab label (page w') :: tabs)) with (label :: tab_labels tabs).
      rewrite Hl. cbn. now rewrite Hn.
    + exists (st_tab label (page w') :: List.map (fun block => st_tab block.1 []) rest).
      cbn [snd page]. rewrite <- app_assoc. split; [reflexivity|].
      cbn. rewrite length_map. split; [|reflexivity]. f_equal.
      clear. induction rest as [|[l b] rest IH]; cbn; [reflexivity | now rewrite IH].
Qed.


Lemma displays_fill_tabs (blocks : list (string * M unit)) :
  Forall (fun block => displays block.2) blocks -> displays (fill_tabs blocks).
Proof.
  induction 1 as [|[label body] rest Hbody _ IH]; [apply displays_ret|].
  intros w. cbn [fill_tabs]. cbn [snd] in Hbody.
  destruct (Hbody (MkWorld (session w) [] (calls w) (pending w))) as [Hs Hc].
  destruct (body _) as [[[]|e] w']; cbn [snd session calls] in Hs, Hc |- *.
  - destruct (IH (MkWorld (session w') (page w ++ [st_tab label (page w')])
                          (calls w') (pending w'))) as [Hs' Hc'].
    cbn [session calls] in Hs', Hc'. split; congruence.
  - now split.
Qed.

(** The rounds of a debate are shown one by one, numbered in their order. *)
Lemma debate_rounds_shown (rounds : list string) :
  forall (first : nat) (s : session_state) (pg : list st_call)
         (cl : list framework_call),
    debate_rounds first rounds (World s pg cl)
    = (Return tt, World s (pg ++ imap (round_expander first) rounds) cl).
Proof.
  induction rounds as [|debate rest IH]; intros first s pg cl; cbn [debate_rounds].
  - cbn. now rewrite app_nil_r.
  - cbv [mbind M_bind within emit yield show session page calls pending]. rewrite IH.
    cbn [imap]. rewrite <- app_assoc. cbn [app].
    unfold round_expander at 2. rewrite Nat.add_0_r.
    do 4 f_equal. apply imap_ext. intros i x _. unfold round_expander, compose.
    now rewrite Nat.add_succ_r.
Qed.

Lemma shows_debate_rounds (first : nat) (rounds : list string) :
  shows (debate_rounds first rounds).
Proof. intros s pg cl. eexists tt, _. apply debate_rounds_shown. Qed.

Lemma displays_debate_rounds (rounds : list string) :
  forall first, displays (debate_rounds first rounds).
Proof.
  induction rounds as [|debate rest IH]; intros first; cbn [debate_rounds].
  - apply displays_ret.
  - displaying. apply IH.
Qed.

Lemma shows_summary_tab (env : environment) (r : analysis_result) :
  shows (summary_tab env r).
Proof. unfold summary_tab. showing. Qed.

Lemma shows_report_expander (fs : gmap string pyval) (key label : string) :
  shows (report_expander fs key label).
Proof. unfold report_expander. showing. Qed.

Lemma shows_report_section (fs : gmap string pyval) (key heading : string) :
  shows (report_section fs key heading).
Proof. unfold report_section. showing. Qed.

Lemma shows_analyst_reports_tab (fs : gmap string pyval) : shows (analyst_reports_tab fs).
Proof. unfold analyst_reports_tab. showing; apply shows_report_expander. Qed.

Lemma shows_trading_tab (fs : gmap string pyval) : shows (trading_tab fs).
Proof. unfold trading_tab. showing; apply shows_report_section. Qed.

Lemma shows_risk_tab (fs : gmap string pyval) : shows (risk_tab fs).
Proof. unfold risk_tab. showing; apply shows_report_section. Qed.

Lemma shows_charts_tab (env : environment) (r : analysis_result) :
  shows (charts_tab env r).
Proof. unfold charts_tab. showing. Qed.

Lemma shows_export_tab (env : environment) (w : widgets) (r : analysis_result) :
  shows (export_tab env w r).
Proof. unfold export_tab. showing. Qed.

Lemma shows_research_tab (fs : gmap string pyval) :
  fs !! "debate_history" <> Some VNone -> shows (research_tab fs).
Proof.
  intros H. unfold research_tab, debate_history_section. showing.
  - apply shows_report_section.
  - destruct (fs !! "debate_history") as [[| s | l]|]; [congruence | | |]; showing.
    + unfold py_iter. showing.
    + apply shows_debate_rounds.
    + unfold py_iter. showing.
    + apply shows_debate_rounds.
Qed.

Lemma research_tab_raises (fs : gmap string pyval) (s : session_state)
    (pg : list st_call) (cl : list framework_call) :
  fs !! "debate_history" = Some VNone ->
  exists shown,
    research_tab fs (World s pg cl)
    = (Raise (Exception "'NoneType' object is not iterable"),
       World s (pg ++ shown) cl).
Proof.
  intros H. unfold research_tab, debate_history_section. rewrite H.
  cbv [mbind M_bind emit yield show py_iter raise session page calls pending].
  rewrite report_section_shown.
  eexists. rewrite <- !app_assoc. reflexivity.
Qed.

(** With a debate history that is [None] the research tab never returns:
    it raises at the iteration, or is cut off before. *)
Lemma research_tab_stops (fs : gmap string pyval) (w : world) :
  fs !! "debate_history" = Some VNone -> (research_tab fs w).1 <> Return tt.
Proof.
  intros H. unfold research_tab, debate_history_section. rewrite H.
  unfold mbind, M_bind.
  destruct (emit _ w) as [[[]|e] w1]; [|discriminate].
  destruct (report_section _ _ _ w1) as [[[]|e] w2]; [|discriminate].
  destruct (emit _ w2) as [[[]|e] w3]; discriminate.
Qed.

Lemma displays_results_blocks (env : environment) (w : widgets) (r : analysis_result) :
  displays (summary_tab env r) /\ displays (analyst_reports_tab (final_state r)) /\
  displays (research_tab (final_state r)) /\ displays (trading_tab (final_state r)) /\
  displays (risk_tab (final_state r)) /\ displays (charts_tab env r) /\
  displays (export_tab env w r).
Proof.
  unfold summary_tab, analyst_reports_tab, research_tab, trading_tab, risk_tab,
    charts_tab, export_tab, report_expander, report_section, debate_history_section.
  repeat match goal with |- _ /\ _ => split end; displaying.
  destruct (final_state r !! "debate_history") as [v|]; displaying.
  - destruct v; unfold py_iter; displaying.
  - apply displays_debate_rounds.
Qed.

Lemma displays_display_analysis_results (env : environment) (w : widgets)
    (r : analysis_result) :
  displays (display_analysis_results env w r).
Proof.
  destruct (displays_results_blocks env w r) as (H1 & H2 & H3 & H4 & H5 & H6 & H7).
  unfold display_analysis_results, st_tabs.
  apply displays_bind; [apply displays_yield|]. intros _.
  apply displays_fill_tabs. repeat (apply Forall_cons_2; [assumption|]). apply Forall_nil_2.
Qed.
(** * The result renderer *)

(** Fills the next tab of the goal with a block that shows. *)
Ltac fill_tab H :=
  cbn [fill_tabs session page calls pending];
  match goal with
  | |- context [MkWorld ?s [] ?cl None] =>
      let t := fresh "t" in
      let E := fresh "E" in
      destruct (H s [] cl) as ([] & t & E); cbn [app] in E; rewrite E; clear E;
      cbn [session page calls pending]
  end.

Lemma display_analysis_results_cases (env : environment) (w : widgets)
    (r : analysis_result) (s : session_state) (pg : list st_call)
    (cl : list framework_call) :
  match final_state r !! "debate_history" with
  | Some VNone =>
      exists t1 t2 t3,
        display_analysis_results env w r (World s pg cl)
        = (Raise (Exception "'NoneType' object is not iterable"),
           World s
                 (pg ++ [st_tab "📊 Summary" t1; st_tab "🔍 Analyst Reports" t2;
                         st_tab "🔬 Research Debate" t3;
                         st_tab "💼 Trading Decision" [];
                         st_tab "⚠️ Risk Assessment" []; st_tab "📈 Charts" [];
                         st_tab "💾 Export" []])
                 cl)
  | _ =>
      exists t1 t2 t3 t4 t5 t6 t7,
        display_analysis_results env w r (World s pg cl)
        = (Return tt,
           World s
                 (pg ++ [st_tab "📊 Summary" t1; st_tab "🔍 Analyst Reports" t2;
                         st_tab "🔬 Research Debate" t3;
                         st_tab "💼 Trading Decision" t4;
                         st_tab "⚠️ Risk Assessment" t5; st_tab "📈 Charts" t6;
                         st_tab "💾 Export" t7])
                 cl)
  end.
Proof.
  assert (Hsome : final_state r !! "debate_history" <> Some VNone ->
    exists t1 t2 t3 t4 t5 t6 t7,
      display_analysis_results env w r (World s pg cl)
      = (Return tt,
         World s
               (pg ++ [st_tab "📊 Summary" t1; st_tab "🔍 Analyst Reports" t2;
                       st_tab "🔬 Research Debate" t3;
                       st_tab "💼 Trading Decision" t4;
                       st_tab "⚠️ Risk Assessment" t5; st_tab "📈 Charts" t6;
                       st_tab "💾 Export" t7])
               cl)).
  { intros Hsome. unfold display_analysis_results, st_tabs. rewrite bind_yield.
    fill_tab (shows_summary_tab env r).
    fill_tab (shows_analyst_reports_tab (final_state r)).
    fill_tab (shows_research_tab (final_state r) Hsome).
    fill_tab (shows_trading_tab (final_state r)).
    fill_tab (shows_risk_tab (final_state r)).
    fill_tab (shows_charts_tab env r).
    fill_tab (shows_export_tab env w r).
    cbn [fill_tabs mret M_ret].
    do 7 eexists. rewrite <- !app_assoc. reflexivity. }
  destruct (final_state r !! "debate_history") as [[| text | l]|] eqn:Hd;
    try (apply Hsome; congruence).
  clear Hsome. unfold display_analysis_results, st_tabs. rewrite bind_yield.
  fill_tab (shows_summary_tab env r).
  fill_tab (shows_analyst_reports_tab (final_state r)).
  cbn [fill_tabs session page calls pending].
  destruct (research_tab_raises (final_state r) s [] cl Hd) as (t3 & ->).
  cbn [session page calls pending app List.map fst].
  do 3 eexists. rewrite <- !app_assoc. reflexivity.
Qed.

(** Whatever the outcome, the renderer leaves the session state and the
    calls as they are. *)
Lemma display_analysis_results_renders (env : environment) (w : widgets)
    (r : analysis_result) (s : session_state) (pg : list st_call)
    (cl : list framework_call) :
  exists out shown,
    display_analysis_results env w r (World s pg cl)
    = (out, World s (pg ++ shown) cl).
Proof.
  pose proof (display_analysis_results_cases env w r s pg cl) as H.
  destruct (final_state r !! "debate_history") as [[| text | l]|].
  - destruct H as (t1 & t2 & t3 & ->). now eexists _, _.
  - destruct H as (t1 & t2 & t3 & t4 & t5 & t6 & t7 & ->). now eexists _, _.
  - destruct H as (t1 & t2 & t3 & t4 & t5 & t6 & t7 & ->). now eexists _, _.
  - destruct H as (t1 & t2 & t3 & t4 & t5 & t6 & t7 & ->). now eexists _, _.
Qed.

(** With a debate history that is [None], the blocks after the research tab
    are not entered: their tabs stay empty. *)
Lemma fill_tabs_stop_at_research (env : environment) (w : widgets)
    (r : analysis_result) (wd : world) :
  final_state r !! "debate_history" = Some VNone ->
  let out :=
    fill_tabs
      [("📊 Summary", summary_tab env r);
       ("🔍 Analyst Reports", analyst_reports_tab (final_state r));
       ("🔬 Research Debate", research_tab (final_state r));
       ("💼 Trading Decision", trading_tab (final_state r));
       ("⚠️ Risk Assessment", risk_tab (final_state r));
       ("📈 Charts", charts_tab env r);
       ("💾 Export", export_tab env w r)] wd in
  out.1 <> Return tt /\
  exists t1 t2 t3,
    page out.2
    = page wd ++ [st_tab "📊 Summary" t1; st_tab "🔍 Analyst Reports" t2;
                  st_tab "🔬 Research Debate" t3; st_tab "💼 Trading Decision" [];
                  st_tab "⚠️ Risk Assessment" []; st_tab "📈 Charts" [];
                  st_tab "💾 Export" []].
Proof.
  intros Hd out. subst out. cbn [fill_tabs].
  destruct (summary_tab env r _) as [[[]|e1] w1];
    cbn [session page calls pending List.map fst snd];
    [|split; [discriminate|]; do 3 eexists; rewrite <- app_assoc; reflexivity].
  destruct (analyst_reports_tab _ _) as [[[]|e2] w2];
    cbn [session page calls pending List.map fst snd];
    [|split; [discriminate|]; do 3 eexists; rewrite <- !app_assoc; reflexivity].
  match goal with
  | |- context [research_tab ?fs ?x] =>
      pose proof (research_tab_stops fs x Hd) as Hstop;
      destruct (research_tab fs x) as [[[]|e3] w3]
  end; [now destruct Hstop|].
  cbn [session page calls pending List.map fst snd].
  split; [discriminate|]. do 3 eexists. rewrite <- !app_assoc. reflexivity.
Qed.

(** The renderer writes nothing to the session state and calls nothing.
    [st.tabs] makes the seven tabs at once: unless a request cuts the
    renderer off at that call, the page has the seven tabs in their order,
    whatever the blocks do.  When the debate history of the state is [None]
    the renderer does not return, and the four tabs after the research tab
    stay empty. *)
Theorem display_analysis_results_tabs (env : environment) (w : widgets)
    (r : analysis_result) (s : session_state) (pg : list st_call)
    (cl : list framework_call) (rq : option nat) :
  let out := display_analysis_results env w r (MkWorld s pg cl rq) in
  session out.2 = s /\ calls out.2 = cl /\
  ((rq = Some 0 /\ out = (Raise RerunException, MkWorld s pg cl rq)) \/
   (rq <> Some 0 /\
    exists tabs,
      page out.2 = pg ++ tabs /\ tab_labels tabs = result_tabs /\ length tabs = 7)) /\
  (final_state r !! "debate_history" = Some VNone ->
   out.1 <> Return tt /\
   (rq <> Some 0 ->
    exists t1 t2 t3,
      page out.2
      = pg ++ [st_tab "📊 Summary" t1; st_tab "🔍 Analyst Reports" t2;
               st_tab "🔬 Research Debate" t3; st_tab "💼 Trading Decision" [];
               st_tab "⚠️ Risk Assessment" []; st_tab "📈 Charts" [];
               st_tab "💾 Export" []])).
Proof.
  intros out. subst out.
  destruct (displays_display_analysis_results env w r (MkWorld s pg cl rq)) as [Hs Hc].
  split; [exact Hs|]. split; [exact Hc|]. clear Hs Hc.
  unfold display_analysis_results, st_tabs. rewrite bind_yield.
  destruct rq as [[|n]|].
  - split; [left; split; reflexivity|]. intros _. split; [discriminate|].
    intros H. now destruct H.
  - split.
    + right. split; [discriminate|].
      match goal with |- context [fill_tabs ?b ?x] =>
        destruct (fill_tabs_page b x) as (tabs & Hp & Hl & Hn) end.
      exists tabs. split; [exact Hp|]. split; [exact Hl | exact Hn].
    + intros Hd.
      destruct (fill_tabs_stop_at_research env w r (MkWorld s pg cl (Some n)) Hd)
        as [Hr Hp].
      split; [exact Hr|]. intros _. exact Hp.
  - split.
    + right. split; [discriminate|].
      match goal with |- context [fill_tabs ?b ?x] =>
        destruct (fill_tabs_page b x) as (tabs & Hp & Hl & Hn) end.
      exists tabs. split; [exact Hp|]. split; [exact Hl | exact Hn].
    + intros Hd.
      destruct (fill_tabs_stop_at_research env w r (World s pg cl) Hd) as [Hr Hp].
      split; [exact Hr|]. intros _. exact Hp.
Qed.

(** The debate history is shown under its heading as one closed expander per
    round, numbered from 1 in the order of the sequence; a debate history
    that is a text is shown as one round per character. *)
Theorem debate_history_numbered (fs : gmap string pyval) (s : session_state)
    (pg : list st_call) (cl : list framework_call) :
  (forall rounds,
     debate_history_section (<["debate_history" := VSeq rounds]> fs) (World s pg cl)
     = (Return tt,
        World s
              (pg ++ st_markdown "### Debate History"
                     :: imap (round_expander 1) rounds)
              cl)) /\
  (forall text,
     debate_history_section (<["debate_history" := VStr text]> fs) (World s pg cl)
     = (Return tt,
        World s
              (pg ++ st_markdown "### Debate History"
                     :: imap (round_expander 1) (chars text))
              cl) /\
     length (chars text) = String.length text).
Proof.
  split; [intros rounds | intros text; split].
  - unfold debate_history_section. rewrite lookup_insert_eq.
    cbv [mbind M_bind emit yield show py_iter mret M_ret pending session page calls].
    rewrite debate_rounds_shown. now rewrite <- app_assoc.
  - unfold debate_history_section. rewrite lookup_insert_eq.
    cbv [mbind M_bind emit yield show py_iter mret M_ret pending session page calls].
    rewrite debate_rounds_shown. now rewrite <- app_assoc.
  - induction text as [|c text IH]; cbn; [reflexivity | now rewrite IH].
Qed.
(** * The decision classifier *)





(** * Percentages *)

Lemma zfill_two_digits (r : Z) :
  (0 <= r < 100)%Z -> PyStr.zfill 2 (StreamlitUtils.dec_Z r) = two_digits r.
Proof.
  intros Hr. replace r with (Z.of_nat (Z.to_nat r)) by lia.
  assert (Hn : (Z.to_nat r < 100)%nat) by lia.
  generalize dependent (Z.to_nat r). clear r Hr. intros n Hn.
  do 100 (destruct n as [|n]; [reflexivity|]). lia.
Qed.

(** The rounding of the formatter: the nearest integer, and the even one of
    the two when the value lies halfway. *)
Lemma round_half_even_nearest (n e : Z) :
  (e < 0)%Z ->
  let q := StreamlitUtils.round_half_even n e in
  (2 * Z.abs (n - q * 2 ^ (- e)) <= 2 ^ (- e))%Z /\
  ((2 * Z.abs (n - q * 2 ^ (- e)) = 2 ^ (- e))%Z -> Z.even q = true).
Proof.
  intros He q. subst q. unfold StreamlitUtils.round_half_even.
  destruct (Z.leb_spec 0 e) as [|_]; [lia|].
  assert (Hd : (0 < 2 ^ (- e))%Z) by (apply Z.pow_pos_nonneg; lia).
  set (d := (2 ^ (- e))%Z) in *.
  pose proof (Z.div_mod n d ltac:(lia)) as Hdm.
  pose proof (Z.mod_pos_bound n d Hd) as Hr.
  set (q0 := (n / d)%Z) in *. set (r := (n mod d)%Z) in *.
  destruct (Z.ltb_spec (2 * r) d); [split; [nia | intros; nia]|].
  destruct (Z.ltb_spec d (2 * r)); [split; [nia | intros; nia]|].
  destruct (Z.even q0) eqn:Heven.
  - split; [nia | intros _; exact Heven].
  - split; [nia|]. intros _.
    rewrite Z.add_1_r, Z.even_succ, <- Z.negb_even, Heven. reflexivity.
Qed.

(** A value halfway between two decimals goes to the even one, not up. *)
Lemma percentage_tie_goes_to_even :
  StreamlitUtils.format_percentage 0.125 = "0.12%" /\
  format_percentage_half_up 0.125 = "0.13%".
Proof. split; vm_compute; reflexivity. Qed.

(** C9, as the code has it.  A zero of either sign is written as its sign
    and [0.00%], an infinity as its sign and [inf%], a NaN as [nan%].  A
    finite argument [m * 2^e] of either sign is written as
    its sign, the integer part, a point, exactly two digits and the percent
    sign; the hundredths are the integer nearest to [100 * m * 2^e], the
    even one when two are equally near; and [format_percentage(12.345)] is
    [12.35%]. *)
Theorem format_percentage_two_places (value : float) :
  match Prim2SF value with
  | S754_zero s =>
      StreamlitUtils.format_percentage value = StreamlitUtils.sign_text s +:+ "0.00%"
  | S754_finite s m e =>
      let q := StreamlitUtils.round_half_even (100 * Z.pos m) e in
      StreamlitUtils.format_percentage value =
        StreamlitUtils.sign_text s +:+ StreamlitUtils.dec_Z (q / 100) +:+ "." +:+
        two_digits (q mod 100) +:+ "%" /\
      ((0 <= e)%Z -> q = (100 * Z.pos m * 2 ^ e)%Z) /\
      ((e < 0)%Z ->
       (2 * Z.abs (100 * Z.pos m - q * 2 ^ (- e)) <= 2 ^ (- e))%Z /\
       ((2 * Z.abs (100 * Z.pos m - q * 2 ^ (- e)) = 2 ^ (- e))%Z -> Z.even q = true))
  | S754_infinity s =>
      StreamlitUtils.format_percentage value = StreamlitUtils.sign_text s +:+ "inf%"
  | S754_nan => StreamlitUtils.format_percentage value = "nan%"
  end /\
  StreamlitUtils.format_percentage 12.345 = "12.35%" /\
  StreamlitUtils.format_percentage 0 = "0.00%" /\
  StreamlitUtils.format_percentage (-0) = "-0.00%".
Proof.
  split; [|repeat split; vm_compute; reflexivity].
  destruct (Prim2SF value) as [s | s | | s m e] eqn:Hx.
  - unfold StreamlitUtils.format_percentage, StreamlitUtils.format_2f.
    rewrite Hx. now destruct s.
  - unfold StreamlitUtils.format_percentage, StreamlitUtils.format_2f.
    rewrite Hx. now destruct s.
  - unfold StreamlitUtils.format_percentage, StreamlitUtils.format_2f.
    now rewrite Hx.
  - intros q. split; [|split].
    + unfold StreamlitUtils.format_percentage, StreamlitUtils.format_2f.
      rewrite Hx. fold q. unfold StreamlitUtils.hundredths.
      rewrite zfill_two_digits by (apply Z.mod_pos_bound; lia).
      rewrite !str_app_assoc. reflexivity.
    + intros He. subst q. unfold StreamlitUtils.round_half_even.
      destruct (Z.leb_spec 0 e); [reflexivity | lia].
    + intros He. exact (round_half_even_nearest (100 * Z.pos m) e He).
Qed.
(** * The launcher *)

(** Steps over a block of printed lines, and into one. *)
Ltac next_block := apply elem_of_app; right.

Ltac this_block := apply elem_of_app; left.

Ltac before_last :=
  lazymatch goal with
  | |- _ ∈ _ ++ [_] => this_block
  | _ => idtac
  end.

Lemma check_requirements_fails (env : RunStreamlit.environment) :
  (RunStreamlit.check_requirements env).2 = false ->
  RunStreamlit.check_requirements env =
  (["❌ Missing required packages: " +:+
      PyStr.join ", " (RunStreamlit.missing_packages env);
    "Please install them using:";
    "pip install " +:+ PyStr.join " " (RunStreamlit.missing_packages env)], false).
Proof.
  unfold RunStreamlit.check_requirements.
  destruct (RunStreamlit.missing_packages env); [discriminate | reflexivity].
Qed.

Lemma check_env_setup_fails (env : RunStreamlit.environment) :
  (RunStreamlit.check_env_setup env).2 = false ->
  RunStreamlit.check_env_setup env =
  (["⚠️  Missing environment variables: " +:+
      PyStr.join ", " (RunStreamlit.missing_vars env);
    "Please set them in your .env file or as environment variables.";
    "You can also enter them in the Streamlit UI sidebar."], false).
Proof.
  unfold RunStreamlit.check_env_setup.
  destruct (RunStreamlit.missing_vars env); [discriminate | reflexivity].
Qed.

(** The package check looks for a module named after the package with
    underscores for hyphens; where no module [python_dotenv] exists, the
    check fails. *)
Lemma dotenv_reported_missing (env : RunStreamlit.environment) :
  RunStreamlit.importable env "python_dotenv" = false ->
  (RunStreamlit.check_requirements env).2 = false.
Proof.
  intros H. unfold RunStreamlit.check_requirements.
  assert (Hin : "python-dotenv" ∈ RunStreamlit.missing_packages env).
  { unfold RunStreamlit.missing_packages. apply list_elem_of_In, filter_In. split.
    - cbn. tauto.
    - change (PyStr.replace_char "-" "_" "python-dotenv") with "python_dotenv".
      now rewrite H. }
  destruct (RunStreamlit.missing_packages env); [|reflexivity].
  now apply elem_of_nil in Hin.
Qed.

(** A package that cannot be imported ends the launcher with status 1, and
    no server is started. *)
Lemma missing_package_stops_launcher :
  let env := launch_env (fun module => negb (String.eqb module "plotly"))
                        (fun _ => Some "key") RunStreamlit.Completed in
  RunStreamlit.importable env "dotenv" = true /\
  (RunStreamlit.check_requirements env).2 = false /\
  RunStreamlit.exit_status (RunStreamlit.run_module env) = Some 1 /\
  RunStreamlit.started (RunStreamlit.run_module env) = None /\
  RunStreamlit.exit_status (RunStreamlit.main env) = Some 1 /\
  RunStreamlit.started (RunStreamlit.main env) = None.
Proof. vm_compute. repeat split. Qed.

(** C6, as the code has it, for a run of the file from the project
    directory.  Where the module dotenv cannot be imported the run ends at
    the import line, with status 1 and nothing printed.  Where it can: a
    failed check of the packages prints the missing ones and ends the
    launcher with status 1 before any server is started; a failed check of
    the environment variables prints warnings, and the launcher goes on to
    run the server command on port 8501, which starts the server unless the
    command cannot be run at all ([FileNotFoundError]: a last line is printed
    and the status is 1). *)
Theorem launcher_checks (env : RunStreamlit.environment) :
  RunStreamlit.app_exists env = true ->
  let run := RunStreamlit.run_module env in
  (RunStreamlit.importable env "dotenv" = false ->
   run = RunStreamlit.Result [] None (Some 1)) /\
  (RunStreamlit.importable env "dotenv" = true ->
   ((RunStreamlit.check_requirements env).2 = false ->
    RunStreamlit.started run = None /\
    RunStreamlit.exit_status run = Some 1 /\
    ("❌ Missing required packages: " +:+
       PyStr.join ", " (RunStreamlit.missing_packages env))
      ∈ RunStreamlit.printed run) /\
   ((RunStreamlit.check_requirements env).2 = true ->
    (RunStreamlit.subprocess_run env (RunStreamlit.command env)
       <> RunStreamlit.FileNotFoundError /\
     RunStreamlit.started run = Some (RunStreamlit.command env) \/
     RunStreamlit.subprocess_run env (RunStreamlit.command env)
       = RunStreamlit.FileNotFoundError /\
     RunStreamlit.started run = None /\
     RunStreamlit.exit_status run = Some 1 /\
     last (RunStreamlit.printed run)
       = Some "❌ Streamlit not found. Please install it using: pip install streamlit") /\
    last (RunStreamlit.command env) = Some "8501" /\
    ((RunStreamlit.check_env_setup env).2 = false ->
     ("⚠️  Missing environment variables: " +:+
        PyStr.join ", " (RunStreamlit.missing_vars env))
       ∈ RunStreamlit.printed run /\
     "⚠️  Some environment variables missing (you can set them in the UI)"
       ∈ RunStreamlit.printed run))).
Proof.
  intros Happ run. subst run. unfold RunStreamlit.run_module. split.
  - intros ->. reflexivity.
  - intros ->. unfold RunStreamlit.main. rewrite Happ. cbn [negb]. split.
    + intros Hreq. rewrite (check_requirements_fails env Hreq). cbn [negb].
      cbn [RunStreamlit.started RunStreamlit.exit_status RunStreamlit.printed].
      repeat split. next_block. apply list_elem_of_here.
    + intros Hreq.
      destruct (RunStreamlit.check_requirements env) as [req_out req_ok].
      cbn in Hreq. subst req_ok. cbn [negb].
      split; [|split; [reflexivity|]].
      * destruct (RunStreamlit.check_env_setup env) as [env_out env_ok].
        destruct (RunStreamlit.subprocess_run env (RunStreamlit.command env));
          cbn [RunStreamlit.started RunStreamlit.exit_status RunStreamlit.printed];
          try (left; split; [discriminate | reflexivity]).
        right. repeat split. apply last_snoc.
      * intros Henv. rewrite (check_env_setup_fails env Henv).
        destruct (RunStreamlit.subprocess_run env (RunStreamlit.command env));
          cbn [RunStreamlit.printed];
          (split; before_last; do 3 next_block;
           [|next_block]; this_block; apply list_elem_of_here).
Qed.

(** The same on a machine with every package and no variable set. *)
Lemma launcher_checks_witness :
  let env := launch_env (fun _ => true) (fun _ => None) RunStreamlit.Completed in
  let run := RunStreamlit.run_module env in
  (RunStreamlit.importable env "dotenv" = false ->
   run = RunStreamlit.Result [] None (Some 1)) /\
  (RunStreamlit.importable env "dotenv" = true ->
   ((RunStreamlit.check_requirements env).2 = false ->
    RunStreamlit.started run = None /\
    RunStreamlit.exit_status run = Some 1 /\
    ("❌ Missing required packages: " +:+
       PyStr.join ", " (RunStreamlit.missing_packages env))
      ∈ RunStreamlit.printed run) /\
   ((RunStreamlit.check_requirements env).2 = true ->
    (RunStreamlit.subprocess_run env (RunStreamlit.command env)
       <> RunStreamlit.FileNotFoundError /\
     RunStreamlit.started run = Some (RunStreamlit.command env) \/
     RunStreamlit.subprocess_run env (RunStreamlit.command env)
       = RunStreamlit.FileNotFoundError /\
     RunStreamlit.started run = None /\
     RunStreamlit.exit_status run = Some 1 /\
     last (RunStreamlit.printed run)
       = Some "❌ Streamlit not found. Please install it using: pip install streamlit") /\
    last (RunStreamlit.command env) = Some "8501" /\
    ((RunStreamlit.check_env_setup env).2 = false ->
     ("⚠️  Missing environment variables: " +:+
        PyStr.join ", " (RunStreamlit.missing_vars env))
       ∈ RunStreamlit.printed run /\
     "⚠️  Some environment variables missing (you can set them in the UI)"
       ∈ RunStreamlit.printed run))).
Proof.
  exact (launcher_checks
           (launch_env (fun _ => true) (fun _ => None) RunStreamlit.Completed) eq_refl).
Defined.

(** Without the module dotenv nothing is printed, whatever the checks would
    have said. *)
Example launcher_needs_dotenv_module :
  let env := launch_env (fun module => negb (String.eqb module "dotenv"))
                        (fun _ => Some "key") RunStreamlit.Completed in
  RunStreamlit.run_module env = RunStreamlit.Result [] None (Some 1).
Proof. reflexivity. Qed.

(** With the packages there and both variables missing, the server is
    started all the same. *)
Example launcher_starts_without_keys :
  let env := launch_env (fun _ => true) (fun _ => None) RunStreamlit.Completed in
  RunStreamlit.started (RunStreamlit.main env) =
    Some ["/usr/bin/python3"; "-m"; "streamlit"; "run";
          "/srv/trading-agent/streamlit_app.py";
          "--server.address"; "localhost"; "--server.port"; "8501"] /\
  RunStreamlit.exit_status (RunStreamlit.main env) = None.
Proof. vm_compute. split; reflexivity. Qed.

(** * Further properties of the launcher *)

Lemma filter_nil_iff {A : Type} (f : A -> bool) (l : list A) :
  List.filter f l = [] <-> forall x, x ∈ l -> f x = false.
Proof.
  induction l as [|a l IH]; cbn [List.filter].
  - split; [intros _ x Hx; now apply elem_of_nil in Hx | reflexivity].
  - destruct (f a) eqn:Ha.
    + split; [discriminate|]. intros H.
      rewrite (H a) in Ha by apply list_elem_of_here. discriminate.
    + rewrite IH. split.
      * intros H x Hx. apply elem_of_cons in Hx as [-> | Hx]; [exact Ha | now apply H].
      * intros H x Hx. apply H. now apply list_elem_of_further.
Qed.

(** The package check passes exactly when, for every required package, the
    module named after it with underscores for hyphens can be imported. *)
Theorem check_requirements_passes_iff (env : RunStreamlit.environment) :
  (RunStreamlit.check_requirements env).2 = true <->
  forall package, package ∈ RunStreamlit.required_packages ->
    RunStreamlit.importable env (PyStr.replace_char "-" "_" package) = true.
Proof.
  unfold RunStreamlit.check_requirements.
  assert (Hnil : RunStreamlit.missing_packages env = [] <->
    forall package, package ∈ RunStreamlit.required_packages ->
      RunStreamlit.importable env (PyStr.replace_char "-" "_" package) = true).
  { unfold RunStreamlit.missing_packages. rewrite filter_nil_iff.
    split; intros H package Hin; specialize (H package Hin).
    - now apply negb_false_iff in H.
    - now rewrite H. }
  destruct (RunStreamlit.missing_packages env) as [|p ps].
  - split; [intros _; now apply Hnil | reflexivity].
  - split; [discriminate|]. intros H. apply Hnil in H. discriminate.
Qed.

(** The variable check passes exactly when both variables are set to a text
    that is not empty: a variable set to the empty text counts as missing. *)
Theorem check_env_setup_passes_iff (env : RunStreamlit.environment) :
  (RunStreamlit.check_env_setup env).2 = true <->
  forall var, var ∈ RunStreamlit.required_env_vars ->
    exists value, RunStreamlit.getenv env var = Some value /\ value <> EmptyString.
Proof.
  unfold RunStreamlit.check_env_setup.
  assert (Hnil : RunStreamlit.missing_vars env = [] <->
    forall var, var ∈ RunStreamlit.required_env_vars ->
      exists value, RunStreamlit.getenv env var = Some value /\ value <> EmptyString).
  { unfold RunStreamlit.missing_vars. rewrite filter_nil_iff.
    split; intros H var Hin; specialize (H var Hin).
    - apply negb_false_iff in H. unfold RunStreamlit.is_set in H.
      destruct (RunStreamlit.getenv env var) as [value|]; [|discriminate].
      exists value. split; [reflexivity|]. intros ->. discriminate.
    - destruct H as (value & Hv & Hne). unfold RunStreamlit.is_set. rewrite Hv.
      now rewrite truthy_not_empty. }
  destruct (RunStreamlit.missing_vars env) as [|v vs].
  - split; [intros _; now apply Hnil | reflexivity].
  - split; [discriminate|]. intros H. apply Hnil in H. discriminate.
Qed.

(** On a machine where no module is called [python_dotenv] (the package
    python-dotenv installs the module [dotenv]), the launcher ends with
    status 1 and starts no server, whatever else is installed. *)
Theorem launcher_needs_python_dotenv_module (env : RunStreamlit.environment) :
  RunStreamlit.importable env "python_dotenv" = false ->
  RunStreamlit.exit_status (RunStreamlit.main env) = Some 1 /\
  RunStreamlit.started (RunStreamlit.main env) = None.
Proof.
  intros H. pose proof (dotenv_reported_missing env H) as Hreq.
  unfold RunStreamlit.main.
  destruct (RunStreamlit.app_exists env); cbn [negb]; [|split; reflexivity].
  rewrite (check_requirements_fails env Hreq). split; reflexivity.
Qed.

(** The same on a machine that has the five packages installed under their
    module names. *)
Lemma launcher_needs_python_dotenv_module_witness :
  let env := launch_env
               (fun module => bool_decide (module ∈ ["streamlit"; "plotly"; "pandas";
                                                     "yfinance"; "dotenv"]))
               (fun _ => Some "key") RunStreamlit.Completed in
  RunStreamlit.exit_status (RunStreamlit.main env) = Some 1 /\
  RunStreamlit.started (RunStreamlit.main env) = None.
Proof.
  apply (launcher_needs_python_dotenv_module
           (launch_env
              (fun module => bool_decide (module ∈ ["streamlit"; "plotly"; "pandas";
                                                    "yfinance"; "dotenv"]))
              (fun _ => Some "key") RunStreamlit.Completed)).
  vm_compute. reflexivity.
Defined.

(** What the launcher starts and how it ends, without what it prints. *)
Lemma main_started (env : RunStreamlit.environment) :
  RunStreamlit.started (RunStreamlit.main env) =
  if RunStreamlit.app_exists env && (RunStreamlit.check_requirements env).2
  then match RunStreamlit.subprocess_run env (RunStreamlit.command env) with
       | RunStreamlit.FileNotFoundError => None
       | _ => Some (RunStreamlit.command env)
       end
  else None.
Proof.
  unfold RunStreamlit.main.
  destruct (RunStreamlit.app_exists env); [|reflexivity].
  destruct (RunStreamlit.check_requirements env) as [req_out [|]]; [|reflexivity].
  destruct (RunStreamlit.check_env_setup env) as [env_out env_ok].
  cbn [negb andb snd].
  destruct (RunStreamlit.subprocess_run env (RunStreamlit.command env)); reflexivity.
Qed.

Lemma main_exit_status (env : RunStreamlit.environment) :
  RunStreamlit.exit_status (RunStreamlit.main env) =
  if RunStreamlit.app_exists env && (RunStreamlit.check_requirements env).2
  then match RunStreamlit.subprocess_run env (RunStreamlit.command env) with
       | RunStreamlit.Completed | RunStreamlit.KeyboardInterrupt => None
       | _ => Some 1
       end
  else Some 1.
Proof.
  unfold RunStreamlit.main.
  destruct (RunStreamlit.app_exists env); [|reflexivity].
  destruct (RunStreamlit.check_requirements env) as [req_out [|]]; [|reflexivity].
  destruct (RunStreamlit.check_env_setup env) as [env_out env_ok].
  cbn [negb andb snd].
  destruct (RunStreamlit.subprocess_run env (RunStreamlit.command env)); reflexivity.
Qed.

(** The launcher ends without an exit status exactly when the application
    file is there, the package check passes and the server process ends by
    itself or by a keyboard interrupt; and whenever it starts a process, it
    is the one fixed command, after both of these checks. *)
Theorem launcher_exit_and_start (env : RunStreamlit.environment) :
  (RunStreamlit.exit_status (RunStreamlit.main env) = None <->
   RunStreamlit.app_exists env = true /\
   (RunStreamlit.check_requirements env).2 = true /\
   (RunStreamlit.subprocess_run env (RunStreamlit.command env) = RunStreamlit.Completed \/
    RunStreamlit.subprocess_run env (RunStreamlit.command env)
      = RunStreamlit.KeyboardInterrupt)) /\
  (forall argv, RunStreamlit.started (RunStreamlit.main env) = Some argv ->
     argv = RunStreamlit.command env /\
     RunStreamlit.app_exists env = true /\
     (RunStreamlit.check_requirements env).2 = true).
Proof.
  rewrite main_exit_status, main_started.
  destruct (RunStreamlit.app_exists env), (RunStreamlit.check_requirements env).2;
    cbn [andb].
  2-4: split; [split; [discriminate | intros (? & ? & _); discriminate] | discriminate].
  destruct (RunStreamlit.subprocess_run env (RunStreamlit.command env)); split.
  all: try (split; [intros _; repeat split; auto | reflexivity]).
  all: try (split; [discriminate | intros (_ & _ & [? | ?]); discriminate]).
  all: try (intros argv [= <-]; repeat split).
  all: discriminate.
Qed.


(** * The configuration check *)

Lemma check_each_spec (missing : string -> bool) (message : string -> string)
    (xs issues : list string) :
  StreamlitConfig.check_each missing message xs issues
  = issues ++ List.map message (List.filter missing xs).
Proof.
  unfold StreamlitConfig.check_each. revert issues.
  induction xs as [|x xs IH]; intros issues; cbn [fold_left List.filter].
  - now rewrite app_nil_r.
  - rewrite IH. destruct (missing x); [|reflexivity].
    now rewrite <- app_assoc.
Qed.

Lemma map_filter_nil {A B : Type} (f : A -> B) (p : A -> bool) (l : list A) :
  List.map f (List.filter p l) = [] <-> forall x, x ∈ l -> p x = false.
Proof.
  rewrite <- filter_nil_iff. destruct (List.filter p l); [tauto|].
  split; discriminate.
Qed.

Lemma validate_configuration_returns_nil (config : gmap string cfgval) :
  StreamlitConfig.validate_configuration config = Return [] <->
  (forall field, field ∈ StreamlitConfig.required_fields ->
     exists v, config !! field = Some v /\ StreamlitConfig.cfg_truthy v = true) /\
  (exists data_vendors, config !! "data_vendors" = Some (CDict data_vendors) /\
     forall vendor, vendor ∈ StreamlitConfig.required_vendors ->
       exists s, data_vendors !! vendor = Some s /\ s <> EmptyString).
Proof.
  assert (Hfields :
    List.map (fun field => "Missing " +:+ field)
      (List.filter (StreamlitConfig.field_missing config) StreamlitConfig.required_fields)
      = [] <->
    forall field, field ∈ StreamlitConfig.required_fields ->
      exists v, config !! field = Some v /\ StreamlitConfig.cfg_truthy v = true).
  { rewrite map_filter_nil. unfold StreamlitConfig.field_missing.
    split; intros H field Hin; specialize (H field Hin).
    - destruct (config !! field) as [v|]; [|discriminate].
      exists v. split; [reflexivity|]. now apply negb_false_iff.
    - destruct H as (v & -> & ->). reflexivity. }
  assert (Hvendors : forall d,
    List.map (fun vendor => "Missing data vendor for " +:+ vendor)
      (List.filter (StreamlitConfig.vendor_missing d) StreamlitConfig.required_vendors)
      = [] <->
    forall vendor, vendor ∈ StreamlitConfig.required_vendors ->
      exists s, d !! vendor = Some s /\ s <> EmptyString).
  { intros d. rewrite map_filter_nil. unfold StreamlitConfig.vendor_missing.
    split; intros H vendor Hin; specialize (H vendor Hin).
    - destruct (d !! vendor) as [s|]; [|discriminate].
      exists s. split; [reflexivity|]. intros ->. discriminate.
    - destruct H as (s & -> & Hne). now rewrite truthy_not_empty. }
  unfold StreamlitConfig.validate_configuration. cbv zeta.
  destruct (config !! "data_vendors") as [[s | n | d]|] eqn:Hdv; cbn [from_option id];
    rewrite ?check_each_spec; cbn [app].
  - split; [discriminate | intros (_ & d & [=] & _)].
  - split; [discriminate | intros (_ & d & [=] & _)].
  - split.
    + intros [= H]. apply app_eq_nil in H as [H1 H2].
      split; [now apply Hfields|]. exists d. split; [reflexivity|]. now apply Hvendors.
    + intros (H1 & d' & [= <-] & H2).
      apply Hfields in H1. apply Hvendors in H2. now rewrite H1, H2.
  - split; [|intros (_ & d & [=] & _)].
    intros [= H]. apply app_eq_nil in H as [_ H2]. discriminate.
Qed.

(** The check reports no issue exactly when the three model fields hold a
    truthy value and [data_vendors] is a mapping that gives a text that is
    not empty for each of the four vendor kinds; a configuration without
    [data_vendors] gets the four vendor issues; and the check raises exactly
    when [data_vendors] is there and is not a mapping. *)
Theorem validate_configuration_no_issues_iff (config : gmap string cfgval) :
  (StreamlitConfig.validate_configuration config = Return [] <->
   (forall field, field ∈ StreamlitConfig.required_fields ->
      exists v, config !! field = Some v /\ StreamlitConfig.cfg_truthy v = true) /\
   (exists data_vendors, config !! "data_vendors" = Some (CDict data_vendors) /\
      forall vendor, vendor ∈ StreamlitConfig.required_vendors ->
        exists s, data_vendors !! vendor = Some s /\ s <> EmptyString)) /\
  (config !! "data_vendors" = None ->
   exists issues,
     StreamlitConfig.validate_configuration config
     = Return (issues ++ List.map (fun vendor => "Missing data vendor for " +:+ vendor)
                                  StreamlitConfig.required_vendors)) /\
  ((exists e, StreamlitConfig.validate_configuration config = Raise e) <->
   exists v, config !! "data_vendors" = Some v /\ forall d, v <> CDict d).
Proof.
  split; [apply validate_configuration_returns_nil|]. split.
  - intros Hnone. unfold StreamlitConfig.validate_configuration. cbv zeta.
    rewrite Hnone. cbn [from_option id]. rewrite check_each_spec. now eexists.
  - unfold StreamlitConfig.validate_configuration. cbv zeta.
    destruct (config !! "data_vendors") as [[s | n | d]|] eqn:Hdv; cbn [from_option id].
    + split; [intros _ | intros _; eexists; reflexivity].
      exists (CStr s). split; [reflexivity | discriminate].
    + split; [intros _ | intros _; eexists; reflexivity].
      exists (CInt n). split; [reflexivity | discriminate].
    + split; [intros [e [=]] | intros (v & [= <-] & H); now destruct (H d)].
    + split; [intros [e [=]] | intros (v & [=] & _)].
Qed.

(** * Agent statuses *)

Lemma status_key_suffix (agent_name : string) :
  exists stem, StreamlitConfig.status_key agent_name = stem +:+ "_status".
Proof. eexists. reflexivity. Qed.

Lemma agents_keys_distinct :
  forall a b, a ∈ agents -> b ∈ agents ->
    StreamlitConfig.status_key a = StreamlitConfig.status_key b -> a = b.
Proof.
  assert (H : Forall (fun a => Forall (fun b =>
                StreamlitConfig.status_key a = StreamlitConfig.status_key b -> a = b)
                agents) agents).
  { apply (bool_decide_unpack _). vm_compute. exact I. }
  intros a b Ha Hb. rewrite Forall_forall in H. specialize (H a Ha).
  rewrite Forall_forall in H. exact (H b Hb).
Qed.

(** A status written for one of the twelve agents is the status shown for
    that agent, the statuses shown for the other eleven are what they were,
    and the key written is none of the four keys of the session state,
    whatever the name of the agent. *)
Theorem agent_status_round_trip (state : gmap string string) (status : string) :
  (forall a b, a ∈ agents -> b ∈ agents ->
     StreamlitConfig.shown_status
       (StreamlitConfig.update_agent_status_in_session a status state) b
     = if decide (a = b) then status else StreamlitConfig.shown_status state b) /\
  (forall agent_name, StreamlitConfig.status_key agent_name ∉ state_keys) /\
  length agents = 12.
Proof.
  split; [|split; [|reflexivity]].
  - intros a b Ha Hb.
    unfold StreamlitConfig.shown_status, StreamlitConfig.update_agent_status_in_session.
    destruct (decide (a = b)) as [-> | Hne].
    + now rewrite lookup_insert_eq.
    + rewrite lookup_insert_ne; [reflexivity|].
      intros Hk. apply Hne. now apply agents_keys_distinct.
  - intros agent_name Hin. destruct (status_key_suffix agent_name) as [stem Hk].
    rewrite Hk in Hin. clear Hk. unfold state_keys in Hin.
    repeat (apply elem_of_cons in Hin as [Hin | Hin];
            [repeat (destruct stem as [|? stem]; [discriminate|];
                     injection Hin as _ Hin); destruct stem; discriminate|]).
    now apply elem_of_nil in Hin.
Qed.

(** * The history view *)

Lemma substring_length (n : nat) (s : string) :
  String.length (String.substring 0 n s) = Nat.min n (String.length s).
Proof.
  revert s. induction n as [|n IH]; intros [|c s]; cbn; try reflexivity.
  now rewrite IH.
Qed.

Lemma display_analysis_history_run (w : widgets) (s : session_state)
    (pg : list st_call) (cl : list framework_call) :
  analysis_history s <> [] ->
  display_analysis_history w (World s pg cl) =
  if w_view_clicked w then
    match analysis_history s !! w_selected_analysis w with
    | Some r =>
        (Return tt,
         World (SessionState (analysis_history s) (Some r) (analysis_running s) (config s))
               (pg ++ [st_subheader "📚 Analysis History";
                       st_dataframe (List.map history_row (analysis_history s))])
               cl)
    | None =>
        (Raise (Exception "list index out of range"),
         World s (pg ++ [st_subheader "📚 Analysis History"]) cl)
    end
  else
    (Return tt,
     World s (pg ++ [st_subheader "📚 Analysis History";
                     st_dataframe (List.map history_row (analysis_history s))])
           cl).
Proof.
  intros Hne. unfold display_analysis_history. run_script.
  destruct (analysis_history s) as [|b bs] eqn:Hh; [congruence|].
  destruct (w_view_clicked w).
  - rewrite Hh. destruct ((b :: bs) !! w_selected_analysis w) as [r|].
    + cbn [analysis_history analysis_running config current_analysis].
      rewrite Hh, <- app_assoc. reflexivity.
    + reflexivity.
  - rewrite <- app_assoc. reflexivity.
Qed.

(** The table of the history view has one row for every analysis of the
    history, in the order of the history; a row carries the ticker, the
    date, the time to the minute, the decision in at most 53 characters and
    the analysts; the table is shown whenever the selected position is one
    of the history. *)
Theorem history_table_rows (w : widgets) (s : session_state) (pg : list st_call)
    (cl : list framework_call) :
  w_selected_analysis w < length (analysis_history s) ->
  exists rows,
    page (display_analysis_history w (World s pg cl)).2
      = pg ++ [st_subheader "📚 Analysis History"; st_dataframe rows] /\
    length rows = length (analysis_history s) /\
    forall i r, analysis_history s !! i = Some r ->
      exists cell,
        rows !! i = Some [ticker r; trade_date r; strftime_minutes (timestamp r);
                          cell; PyStr.join ", " (selected_analysts r)] /\
        String.length cell <= 53 /\
        (String.length (py_str (decision r)) <= 50 -> cell = py_str (decision r)).
Proof.
  intros Hi. exists (List.map history_row (analysis_history s)).
  split; [|split].
  - rewrite display_analysis_history_run by (destruct (analysis_history s); cbn in *; [lia | discriminate]).
    destruct (w_view_clicked w); [|reflexivity].
    destruct (lookup_lt_is_Some_2 _ _ Hi) as [r ->]. reflexivity.
  - apply length_map.
  - intros i r Hr. eexists. split; [|split].
    + change (@List.map) with (@fmap list _). rewrite list_lookup_fmap, Hr. reflexivity.
    + destruct (50 <? String.length (py_str (decision r)))%nat eqn:Hlen.
      * rewrite str_length_app, substring_length.
        change (String.length "...") with 3. lia.
      * apply Nat.ltb_ge in Hlen. lia.
    + intros Hlen. apply Nat.ltb_ge in Hlen. now rewrite Hlen.
Qed.

(** The history table on a session with one analysis. *)
Lemma history_table_rows_witness :
  let s := SessionState [sample_bundle uptrend] None false ∅ in
  exists rows,
    page (display_analysis_history (sample_widgets "NVDA" false) (World s [] [])).2
      = [] ++ [st_subheader "📚 Analysis History"; st_dataframe rows] /\
    length rows = length (analysis_history s) /\
    forall i r, analysis_history s !! i = Some r ->
      exists cell,
        rows !! i = Some [ticker r; trade_date r; strftime_minutes (timestamp r);
                          cell; PyStr.join ", " (selected_analysts r)] /\
        String.length cell <= 53 /\
        (String.length (py_str (decision r)) <= 50 -> cell = py_str (decision r)).
Proof.
  apply (history_table_rows (sample_widgets "NVDA" false)
           (SessionState [sample_bundle uptrend] None false ∅) [] []).
  cbn. lia.
Defined.

(** * Script runs *)

Lemma script_steps (env : environment) (w : widgets) (s : session_state)
    (pg : list st_call) (cl : list framework_call) :
  script env w (World s pg cl) =
  match analysis_form env w (w_selected_analysts w)
          (World (with_config (sidebar_config w (config s)) s)
                 (pg ++ [st_html header; st_subheader "🚀 Run Analysis"]) cl) with
  | (Return _, wd) => after_form env w wd
  | (Raise e, wd) => (Raise e, wd)
  end.
Proof.
  change (script env w) with
    (emit (st_html header);;
     selected_analysts ← create_sidebar w;
     emit (st_subheader "🚀 Run Analysis");;
     analysis_form env w selected_analysts;;
     after_form env w).
  cbv [mbind M_bind mret M_ret emit yield show create_sidebar get_state put_state
       session page calls pending].
  rewrite <- app_assoc.
  change (SessionState (analysis_history s) (current_analysis s) (analysis_running s) _)
    with (with_config (sidebar_config w (config s)) s).
  cbn [app]. destruct (analysis_form _ _ _ _) as [[[] | e] wd]; reflexivity.
Qed.

(** After the form, the script shows the stored analysis and the history;
    the one thing it may write is the current analysis, which the view
    button sets to the selected entry of the history. *)
Lemma after_form_frame (env : environment) (w : widgets) (s : session_state)
    (pg : list st_call) (cl : list framework_call) :
  let wd' := (after_form env w (World s pg cl)).2 in
  analysis_history (session wd') = analysis_history s /\
  analysis_running (session wd') = analysis_running s /\
  config (session wd') = config s /\
  calls wd' = cl /\
  (current_analysis (session wd') = current_analysis s \/
   w_view_clicked w = true /\
   exists r, analysis_history s !! w_selected_analysis w = Some r /\
             current_analysis (session wd') = Some r).
Proof.
  unfold after_form.
  cbv [mbind M_bind mret M_ret emit emit_all yield show get_state session page calls
       pending].
  assert (Hrest : forall pg',
    let wd' := (match analysis_history s with
                | [] => (mret tt : M unit)
                | _ :: _ => emit (st_markdown "---");; display_analysis_history w
                end (World s pg' cl)).2 in
    analysis_history (session wd') = analysis_history s /\
    analysis_running (session wd') = analysis_running s /\
    config (session wd') = config s /\
    calls wd' = cl /\
    (current_analysis (session wd') = current_analysis s \/
     w_view_clicked w = true /\
     exists r, analysis_history s !! w_selected_analysis w = Some r /\
               current_analysis (session wd') = Some r)).
  { intros pg'. destruct (analysis_history s) as [|b bs] eqn:Hh.
    - cbn. rewrite Hh. auto 6.
    - cbv [mbind M_bind emit yield show session page calls pending].
      rewrite display_analysis_history_run by (rewrite Hh; discriminate).
      destruct (w_view_clicked w); [|cbn; rewrite Hh; auto 6].
      rewrite Hh. destruct ((b :: bs) !! w_selected_analysis w) as [r|] eqn:Hl.
      + cbn. repeat split; auto. right. split; [reflexivity|]. now exists r.
      + cbn. rewrite Hh. auto 6. }
  cbv [mbind M_bind mret M_ret emit emit_all yield show get_state session page calls
       pending] in Hrest.
  destruct (current_analysis s) as [r|] eqn:Hc.
  - match goal with |- context [display_analysis_results env w r (MkWorld ?s1 ?pg1 ?cl1 None)] =>
      destruct (display_analysis_results_renders env w r s1 pg1 cl1)
        as (out & shown & ->) end.
    cbn [session page calls].
    destruct out as [[] | e].
    + apply Hrest.
    + cbn. rewrite Hc. auto 6.
  - apply Hrest.
Qed.

(** Every run of the invoker returns, in one of three ways: nothing is
    called and nothing is written; the framework is called, raises, and
    nothing is written; or the framework is called, returns, and the bundle
    built from its result is appended and made current. *)
Lemma run_analysis_outcome (env : environment) (ticker trade_date : string)
    (analysts : list string) (s : session_state) (pg : list st_call)
    (cl : list framework_call) :
  let call := FrameworkCall analysts (config s) ticker trade_date in
  let run := run_analysis env ticker trade_date analysts (World s pg cl) in
  (exists pg', run = (Return None, World s pg' cl)) \/
  (PyStr.truthy ticker = true /\
   exists pg', run = (Return None, World s pg' (cl ++ [call]))) \/
  (PyStr.truthy ticker = true /\
   exists fs dec pg',
     framework_returns env analysts (config s) ticker trade_date fs dec /\
     let b := AnalysisResult ticker trade_date fs dec (now env) analysts in
     run = (Return (Some b),
            World (SessionState (analysis_history s ++ [b]) (Some b)
                                (analysis_running s) (config s))
                  pg' (cl ++ [call]))).
Proof.
  intros call run. subst call run.
  destruct (PyStr.truthy ticker) eqn:Ht; [destruct (PyStr.truthy trade_date) eqn:Hd|].
  - destruct (TradingAgentsGraph env analysts (config s)) as [m | ta] eqn:Hc.
    + left. rewrite (run_analysis_construct_raises _ _ _ _ _ _ _ m Ht Hd Hc).
      now eexists.
    + destruct (ta ticker trade_date) as [m | fs dec] eqn:Hp.
      * right. left. split; [reflexivity|].
        rewrite (run_analysis_propagate_raises _ _ _ _ _ _ _ ta m Ht Hd Hc Hp).
        now eexists.
      * right. right. split; [reflexivity|]. exists fs, dec.
        pose proof (run_analysis_returns _ _ _ _ _ pg cl ta fs dec Ht Hd Hc Hp) as E.
        cbv zeta in E. rewrite E. eexists. split; [now exists ta | reflexivity].
  - left. rewrite run_analysis_invalid by (right; exact Hd). now eexists.
  - left. rewrite run_analysis_invalid by (left; exact Ht). now eexists.
Qed.

(** What a script run leaves. *)
Lemma main_summary (env : environment) (stored : stored_state) (w : widgets) :
  let s0 := initialize_session_state env stored in
  let cfg := sidebar_config w (config s0) in
  let out := main env stored w in
  config (session out.2) = cfg /\
  ((analysis_history (session out.2) = analysis_history s0 /\
    analysis_running (session out.2)
      = (if w_submitted w then false else analysis_running s0) /\
    (calls out.2 = [] \/
     w_submitted w = true /\ PyStr.truthy (w_ticker w) = true /\
     calls out.2 = [submitted_call w cfg])) \/
   (w_submitted w = true /\ PyStr.truthy (w_ticker w) = true /\
    exists fs dec,
      framework_returns env (w_selected_analysts w) cfg (w_ticker w)
        (date_str (w_trade_date w)) fs dec /\
      out.1 = Raise RerunException /\
      analysis_history (session out.2)
        = analysis_history s0 ++ [submitted_bundle env w fs dec] /\
      current_analysis (session out.2) = Some (submitted_bundle env w fs dec) /\
      analysis_running (session out.2) = false /\
      calls out.2 = [submitted_call w cfg])).
Proof.
  intros s0 cfg out. subst out. unfold main, script_run. fold s0.
  destruct s0 as [h c f cfg0].
  rewrite script_steps. cbn [config] in cfg. unfold with_config.
  cbn [analysis_history current_analysis analysis_running config]. fold cfg.
  destruct (w_submitted w) eqn:Hs.
  - set (s1 := SessionState h c f cfg).
    destruct (run_analysis_outcome env (w_ticker w) (date_str (w_trade_date w))
                (w_selected_analysts w) (with_running true s1)
                ([] ++ [st_html header; st_subheader "🚀 Run Analysis"]) [])
      as [(pg' & Hrun) | [(Ht & pg' & Hrun) | (Ht & fs & dec & pg' & Hret & Hrun)]];
      cbv zeta in Hrun;
      rewrite (analysis_form_submitted env w _ s1 _ _ _ _ _ _ Hs Hrun).
    + match goal with |- context [after_form env w (MkWorld ?s2 ?pg2 ?cl2 None)] =>
        destruct (after_form_frame env w s2 pg2 cl2) as (Hh & Hf & Hc & Hcl & _) end.
      cbn [session calls with_running analysis_history analysis_running config] in *.
      split; [exact Hc|]. left. auto.
    + match goal with |- context [after_form env w (MkWorld ?s2 ?pg2 ?cl2 None)] =>
        destruct (after_form_frame env w s2 pg2 cl2) as (Hh & Hf & Hc & Hcl & _) end.
      cbn [session calls with_running analysis_history analysis_running config app] in *.
      split; [exact Hc|]. left. split; [exact Hh|]. split; [exact Hf|]. right. auto.
    + cbn [fst snd session calls with_running analysis_history analysis_running
           current_analysis config app].
      split; [reflexivity|]. right. split; [reflexivity|]. split; [exact Ht|].
      exists fs, dec. repeat split. exact Hret.
  - unfold analysis_form. rewrite bind_yield, Hs. cbv [mret M_ret].
    match goal with |- context [after_form env w (MkWorld ?s2 ?pg2 ?cl2 None)] =>
      destruct (after_form_frame env w s2 pg2 cl2) as (Hh & Hf & Hc & Hcl & _) end.
    cbn [session calls analysis_history analysis_running config] in *.
    split; [exact Hc|]. left. auto.
Qed.

(** A script run never removes or rewrites an entry of the history.  It
    leaves the history as it found it, or, when the form was submitted and
    the framework returned, one entry longer; the new entry carries the
    ticker, the date and the analysts of the widgets and the time of the
    clock, it is made current, and the run ends by asking for a rerun. *)
Theorem history_append_only (env : environment) (stored : stored_state) (w : widgets) :
  let s0 := initialize_session_state env stored in
  let out := main env stored w in
  analysis_history (session out.2) = analysis_history s0 \/
  exists fs dec,
    w_submitted w = true /\
    framework_returns env (w_selected_analysts w) (sidebar_config w (config s0))
      (w_ticker w) (date_str (w_trade_date w)) fs dec /\
    out.1 = Raise RerunException /\
    analysis_history (session out.2)
      = analysis_history s0 ++
        [AnalysisResult (w_ticker w) (date_str (w_trade_date w)) fs dec (now env)
                        (w_selected_analysts w)] /\
    current_analysis (session out.2) = last (analysis_history (session out.2)).
Proof.
  intros s0 out.
  destruct (main_summary env stored w)
    as (_ & [(Hh & _) | (Hs & _ & fs & dec & Hret & Hout & Hh & Hc & _)]).
  - left. exact Hh.
  - right. exists fs, dec. repeat split; try assumption.
    subst out s0. rewrite Hc, Hh, last_snoc. reflexivity.
Qed.

(** A script run calls the framework at most once, and only for a submitted
    form with a ticker that is not empty; the call carries the analysts, the
    ticker and the date of the widgets, and the configuration that the run
    leaves in the session state. *)
Theorem framework_called_at_most_once (env : environment) (stored : stored_state)
    (w : widgets) :
  let out := main env stored w in
  calls out.2 = [] \/
  w_submitted w = true /\ w_ticker w <> EmptyString /\
  calls out.2 = [FrameworkCall (w_selected_analysts w) (config (session out.2))
                               (w_ticker w) (date_str (w_trade_date w))].
Proof.
  intros out.
  assert (Hne : PyStr.truthy (w_ticker w) = true -> w_ticker w <> EmptyString)
    by (intros Ht E; rewrite E in Ht; discriminate).
  destruct (main_summary env stored w)
    as (Hcfg & [(_ & _ & [Hcl | (Hs & Ht & Hcl)])
               | (Hs & Ht & fs & dec & _ & _ & _ & _ & _ & Hcl)]).
  - left. exact Hcl.
  - right. subst out. rewrite Hcfg. auto.
  - right. subst out. rewrite Hcfg. auto.
Qed.





(** * The view button and the form *)

Lemma after_form_view (env : environment) (w : widgets) (s : session_state)
    (pg : list st_call) (cl : list framework_call) (r : analysis_result) :
  analysis_history s !! w_selected_analysis w = Some r ->
  let clicked := after_form env (with_view_clicked true w) (World s pg cl) in
  let idle := after_form env (with_view_clicked false w) (World s pg cl) in
  clicked.1 = idle.1 /\
  page clicked.2 = page idle.2 /\
  session idle.2 = s /\
  (clicked.1 = Return tt ->
   session clicked.2
   = SessionState (analysis_history s) (Some r) (analysis_running s) (config s)).
Proof.
  intros Hr clicked idle. subst clicked idle. unfold after_form.
  cbv [mbind M_bind mret M_ret emit emit_all yield show get_state session page calls
       pending].
  assert (Hne : analysis_history s <> []) by (intros E; now rewrite E in Hr).
  assert (Hhist : forall pg',
    let clicked := match analysis_history s with
                   | [] => (mret tt : M unit)
                   | _ :: _ => emit (st_markdown "---");;
                               display_analysis_history (with_view_clicked true w)
                   end (World s pg' cl) in
    let idle := match analysis_history s with
                | [] => (mret tt : M unit)
                | _ :: _ => emit (st_markdown "---");;
                            display_analysis_history (with_view_clicked false w)
                end (World s pg' cl) in
    clicked.1 = idle.1 /\
    page clicked.2 = page idle.2 /\
    session idle.2 = s /\
    (clicked.1 = Return tt ->
     session clicked.2
     = SessionState (analysis_history s) (Some r) (analysis_running s) (config s))).
  { intros pg'. destruct (analysis_history s) as [|b bs] eqn:Hh; [congruence|].
    assert (Hne' : analysis_history s <> []) by (rewrite Hh; discriminate).
    cbv [mbind M_bind emit yield show]. cbn [session page calls pending].
    rewrite !display_analysis_history_run by exact Hne'.
    cbn [with_view_clicked w_view_clicked w_selected_analysis].
    rewrite Hh, Hr. cbn. auto. }
  cbv [mbind M_bind mret M_ret emit emit_all yield show get_state session page calls
       pending] in Hhist.
  destruct (current_analysis s) as [c|] eqn:Hc; [|apply Hhist].
  change (display_analysis_results env (with_view_clicked true w) c)
    with (display_analysis_results env w c).
  change (display_analysis_results env (with_view_clicked false w) c)
    with (display_analysis_results env w c).
  match goal with |- context [display_analysis_results env w c (MkWorld ?s1 ?pg1 ?cl1 None)] =>
    destruct (display_analysis_results_renders env w c s1 pg1 cl1)
      as (out & shown & ->) end.
  cbn [session page calls]. destruct out as [[] | e]; [apply Hhist|].
  cbn. repeat split. discriminate.
Qed.

(** In a run without submission, pressing the view button changes nothing
    on the page of that run: the results shown are those of the analysis
    that was current before, and the selected entry of the history becomes
    current for the runs that follow. *)
Theorem view_click_shows_on_next_run (env : environment) (stored : stored_state)
    (w : widgets) :
  let s0 := initialize_session_state env stored in
  let clicked := main env stored (with_view_clicked true w) in
  let idle := main env stored (with_view_clicked false w) in
  w_submitted w = false ->
  w_selected_analysis w < length (analysis_history s0) ->
  page clicked.2 = page idle.2 /\
  clicked.1 = idle.1 /\
  current_analysis (session idle.2) = current_analysis s0 /\
  (clicked.1 = Return tt ->
   current_analysis (session clicked.2) = analysis_history s0 !! w_selected_analysis w).
Proof.
  intros s0 clicked idle Hs Hi. subst clicked idle. unfold main, script_run. fold s0.
  destruct (lookup_lt_is_Some_2 _ _ Hi) as [r Hr].
  rewrite !script_steps. unfold analysis_form. rewrite !bind_yield.
  change (w_submitted (with_view_clicked _ w)) with (w_submitted w). rewrite Hs.
  change (sidebar_config (with_view_clicked _ w)) with (sidebar_config w).
  cbv [mret M_ret].
  match goal with |- context [after_form env _ (World ?s ?pg ?cl)] =>
    destruct (after_form_view env w s pg cl r Hr) as (H1 & H2 & H3 & H4) end.
  cbv zeta in *. split; [exact H2|]. split; [exact H1|]. split.
  - rewrite H3. reflexivity.
  - intros Hret. rewrite (H4 Hret), Hr. reflexivity.
Qed.

(** The same on a session that holds one analysis and shows none. *)
Lemma view_click_shows_on_next_run_witness :
  let env := sample_env returns_buy in
  let stored := store (SessionState [sample_bundle uptrend] None false ∅) in
  let w := sample_widgets "NVDA" false in
  page (main env stored (with_view_clicked true w)).2
    = page (main env stored (with_view_clicked false w)).2 /\
  (main env stored (with_view_clicked true w)).1
    = (main env stored (with_view_clicked false w)).1 /\
  current_analysis (session (main env stored (with_view_clicked false w)).2) = None /\
  ((main env stored (with_view_clicked true w)).1 = Return tt ->
   current_analysis (session (main env stored (with_view_clicked true w)).2)
   = Some (sample_bundle uptrend)).
Proof.
  apply (view_click_shows_on_next_run (sample_env returns_buy)
           (store (SessionState [sample_bundle uptrend] None false ∅))
           (sample_widgets "NVDA" false)).
  - reflexivity.
  - cbn. lia.
Defined.

(** A submitted form shows the request for ticker and date exactly when the
    ticker is empty: the text of the date widget is never empty, so the
    date is never what is missing. *)
Theorem form_error_iff_empty_ticker (env : environment) (w : widgets)
    (analysts : list string) (s : session_state) (pg : list st_call)
    (cl : list framework_call) :
  w_submitted w = true ->
  exists shown,
    page (analysis_form env w analysts (World s pg cl)).2 = pg ++ shown /\
    (st_error "Please provide both ticker symbol and trade date" ∈ shown
     <-> w_ticker w = EmptyString).
Proof.
  intros Hs.
  pose proof (date_str_truthy (w_trade_date w)) as Hd.
  destruct (PyStr.truthy (w_ticker w)) eqn:Ht.
  - assert (Hne : w_ticker w <> EmptyString) by (intros E; rewrite E in Ht; discriminate).
    destruct (TradingAgentsGraph env analysts (config (with_running true s)))
      as [m | ta] eqn:Hc.
    + pose proof (run_analysis_construct_raises env _ _ analysts (with_running true s)
                    pg cl m Ht Hd Hc) as Hrun.
      rewrite (analysis_form_submitted env w analysts s pg cl _ _ _ _ Hs Hrun).
      eexists. split; [reflexivity|]. split; [|congruence].
      unfold progress_start, failure_report.
      rewrite !elem_of_app, !elem_of_cons, !elem_of_nil.
      intros H; decompose [or] H; (discriminate || contradiction).
    + destruct (ta (w_ticker w) (date_str (w_trade_date w))) as [m | fs dec] eqn:Hp.
      * pose proof (run_analysis_propagate_raises env _ _ analysts (with_running true s)
                      pg cl ta m Ht Hd Hc Hp) as Hrun.
        rewrite (analysis_form_submitted env w analysts s pg cl _ _ _ _ Hs Hrun).
        eexists. split; [reflexivity|]. split; [|congruence].
        unfold progress_start, progress_running, failure_report.
        rewrite !elem_of_app, !elem_of_cons, !elem_of_nil.
        intros H; decompose [or] H; (discriminate || contradiction).
      * pose proof (run_analysis_returns env _ _ analysts (with_running true s)
                      pg cl ta fs dec Ht Hd Hc Hp) as Hrun.
        cbv zeta in Hrun.
        rewrite (analysis_form_submitted env w analysts s pg cl _ _ _ _ Hs Hrun).
        cbn [snd page]. rewrite <- app_assoc.
        eexists. split; [reflexivity|]. split; [|congruence].
        unfold progress_start, progress_running, progress_done.
        rewrite !elem_of_app, !elem_of_cons, !elem_of_nil.
        intros H; decompose [or] H; (discriminate || contradiction).
  - assert (He : w_ticker w = EmptyString) by (destruct (w_ticker w); [reflexivity | discriminate]).
    pose proof (run_analysis_invalid env (w_ticker w) (date_str (w_trade_date w)) analysts
                  (with_running true s) pg cl (or_introl Ht)) as Hrun.
    rewrite (analysis_form_submitted env w analysts s pg cl _ _ _ _ Hs Hrun).
    eexists. split; [reflexivity|]. split; [intros _; exact He|].
    intros _. apply list_elem_of_here.
Qed.

(** The same on a sample submission with a ticker. *)
Lemma form_error_iff_empty_ticker_witness :
  exists shown,
    page (analysis_form (sample_env returns_buy) (sample_widgets "NVDA" true) ["market"]
            (World sample_state [] [])).2 = [] ++ shown /\
    (st_error "Please provide both ticker symbol and trade date" ∈ shown
     <-> "NVDA" = EmptyString).
Proof.
  exact (form_error_iff_empty_ticker (sample_env returns_buy) (sample_widgets "NVDA" true)
           ["market"] sample_state [] [] eq_refl).
Defined.

(** * Further properties of the export *)

Lemma export_not_empty (r : analysis_result) :
  PyStr.truthy (StreamlitUtils.export_analysis_to_json r) = true.
Proof. reflexivity. Qed.

Lemma parsed_export_members (r : analysis_result) (key : string) :
  parsed_member (StreamlitUtils.export_data r) key =
  if decide (key = "final_state")
  then Some (Json.JObj (StreamlitUtils.exported_reports (final_state r)))
  else if decide (key = "selected_analysts")
  then Some (Json.JArr (List.map Json.JStr (selected_analysts r)))
  else if decide (key = "decision") then Some (Json.JStr (py_str (decision r)))
  else if decide (key = "timestamp") then Some (Json.JStr (isoformat (timestamp r)))
  else if decide (key = "trade_date") then Some (Json.JStr (trade_date r))
  else if decide (key = "ticker") then Some (Json.JStr (ticker r))
  else None.
Proof.
  unfold parsed_member, StreamlitUtils.export_data, Json.to_dict.
  cbn [fold_left fst snd].
  repeat (destruct (decide _) as [-> | Hne];
          [now rewrite lookup_insert_eq
          |rewrite lookup_insert_ne by (intros E; now apply Hne); clear Hne]).
  apply lookup_empty.
Qed.

(** The export of every bundle parses to an object of six members: the
    ticker, the date, the time in ISO format, the text of the decision, the
    analysts in their order, and the reports. *)
Theorem export_metadata_round_trip (r : analysis_result) :
  exists doc,
    Json.loads (StreamlitUtils.export_analysis_to_json r) = Some doc /\
    parsed_member doc "ticker" = Some (Json.JStr (ticker r)) /\
    parsed_member doc "trade_date" = Some (Json.JStr (trade_date r)) /\
    parsed_member doc "timestamp" = Some (Json.JStr (isoformat (timestamp r))) /\
    parsed_member doc "decision" = Some (Json.JStr (py_str (decision r))) /\
    parsed_member doc "selected_analysts"
      = Some (Json.JArr (List.map Json.JStr (selected_analysts r))) /\
    (forall key, is_Some (parsed_member doc key) <->
                 key ∈ ["ticker"; "trade_date"; "timestamp"; "decision";
                        "selected_analysts"; "final_state"]).
Proof.
  exists (StreamlitUtils.export_data r). split; [apply loads_dumps|].
  repeat (split; [now rewrite parsed_export_members|]).
  intros key. rewrite parsed_export_members, !elem_of_cons, elem_of_nil.
  repeat (destruct (decide _) as [-> | ?]; [split; [tauto | now eexists]|]).
  split; [intros [? ?]; discriminate | intros H; decompose [or] H; (congruence || contradiction)].
Qed.

Lemma map_JStr_inj (l1 l2 : list string) :
  List.map Json.JStr l1 = List.map Json.JStr l2 -> l1 = l2.
Proof.
  revert l2. induction l1 as [|x l1 IH]; intros [|y l2] H; try discriminate.
  - reflexivity.
  - cbn in H. injection H as -> H. f_equal. now apply IH.
Qed.

(** Two bundles have the same export exactly when they agree on the ticker,
    the date, the time as ISO text, the text of the decision, the analysts
    and what the seven exported keys hold as populated text: the export
    carries this and nothing else of a bundle. *)
Theorem export_equal_iff (r1 r2 : analysis_result) :
  StreamlitUtils.export_analysis_to_json r1 = StreamlitUtils.export_analysis_to_json r2 <->
  ticker r1 = ticker r2 /\ trade_date r1 = trade_date r2 /\
  isoformat (timestamp r1) = isoformat (timestamp r2) /\
  py_str (decision r1) = py_str (decision r2) /\
  selected_analysts r1 = selected_analysts r2 /\
  forall key, key ∈ StreamlitUtils.EXPORT_KEYS ->
    entry (final_state r1) key = entry (final_state r2) key.
Proof.
  split.
  - intros H.
    assert (Hdata : StreamlitUtils.export_data r1 = StreamlitUtils.export_data r2).
    { apply (f_equal Json.loads) in H.
      unfold StreamlitUtils.export_analysis_to_json in H.
      rewrite !loads_dumps in H. congruence. }
    destruct (parsed_reports_lookup r1) as (reports1 & Hp1 & Hl1).
    destruct (parsed_reports_lookup r2) as (reports2 & Hp2 & Hl2).
    rewrite Hdata, Hp2 in Hp1. injection Hp1 as <-.
    unfold StreamlitUtils.export_data in Hdata.
    injection Hdata as Ht Hd Hts Hdec Han _.
    repeat (split; [assumption|]). split; [now apply map_JStr_inj|].
    intros key Hin. specialize (Hl1 key). specialize (Hl2 key).
    rewrite decide_True in Hl1, Hl2 by exact Hin. congruence.
  - intros (Ht & Hd & Hts & Hdec & Han & Hfs).
    unfold StreamlitUtils.export_analysis_to_json, StreamlitUtils.export_data.
    rewrite Ht, Hd, Hts, Hdec, Han, !exported_reports_entry.
    do 9 f_equal. unfold StreamlitUtils.EXPORT_KEYS in *. cbn [List.flat_map].
    rewrite !Hfs by (rewrite !elem_of_cons; auto 10). reflexivity.
Qed.


(** * Amounts *)

(** A negative amount never gets a unit: it is written in full, with its
    sign after the dollar sign and two decimal places, however large it
    is. *)
Theorem format_currency_negative (value : float) (m : positive) (e : Z) :
  Prim2SF value = S754_finite true m e ->
  StreamlitUtils.format_currency value
  = "$-" +:+ StreamlitUtils.hundredths
               (StreamlitUtils.round_half_even (100 * Z.pos m) e).
Proof.
  intros Hx. unfold StreamlitUtils.format_currency, StreamlitUtils.format_2f.
  rewrite !leb_spec, Hx.
  change (SFleb (Prim2SF 1e9) (S754_finite true m e)) with false.
  change (SFleb (Prim2SF 1e6) (S754_finite true m e)) with false.
  change (SFleb (Prim2SF 1e3) (S754_finite true m e)) with false.
  reflexivity.
Qed.

(** The same on minus two and a half billion. *)
Lemma format_currency_negative_witness :
  StreamlitUtils.format_currency (-2500000000)
  = "$-" +:+ StreamlitUtils.hundredths
               (StreamlitUtils.round_half_even (100 * 5242880000000000) (-21)).
Proof.
  apply (format_currency_negative (-2500000000) 5242880000000000 (-21)).
  vm_compute. reflexivity.
Defined.

(** * Further properties of the chat front end *)

Lemma gradio_config_lookup (env : GradioApp.environment) :
  gradio_config env !! "deep_think_llm" = Some (CStr "gpt-4o-mini") /\
  gradio_config env !! "quick_think_llm" = Some (CStr "gpt-4o-mini") /\
  gradio_config env !! "max_debate_rounds" = Some (CInt 1) /\
  (forall key, key ∉ ["deep_think_llm"; "quick_think_llm"; "max_debate_rounds"] ->
     gradio_config env !! key = GradioApp.DEFAULT_CONFIG env !! key).
Proof.
  unfold gradio_config.
  repeat (split; [repeat (rewrite lookup_insert_ne by discriminate);
                  now rewrite lookup_insert_eq|]).
  intros key Hkey. rewrite !not_elem_of_cons in Hkey. destruct Hkey as (? & ? & ? & _).
  now rewrite !lookup_insert_ne by congruence.
Qed.

(** The chat front end calls the framework at most once, and exactly when
    the framework is available, the ticker is not empty and the constructor
    returns; the call carries the analysts, the ticker and the date as
    given, and a configuration that is the default one with both models set
    to gpt-4o-mini and one debate round. *)
Theorem gradio_framework_calls (env : GradioApp.environment) (ticker date_str : string)
    (analysts : list string) :
  let out := GradioApp.run_trading_analysis env ticker date_str analysts in
  (GradioApp.framework_calls out = [] \/
   GradioApp.framework_calls out
     = [FrameworkCall analysts (gradio_config env) ticker date_str]) /\
  (GradioApp.framework_calls out <> [] <->
   GradioApp.TRADING_AGENTS_AVAILABLE env = true /\ ticker <> EmptyString /\
   exists ta, GradioApp.TradingAgentsGraph env analysts (gradio_config env)
              = Constructed ta) /\
  gradio_config env !! "deep_think_llm" = Some (CStr "gpt-4o-mini") /\
  gradio_config env !! "quick_think_llm" = Some (CStr "gpt-4o-mini") /\
  gradio_config env !! "max_debate_rounds" = Some (CInt 1) /\
  (forall key, key ∉ ["deep_think_llm"; "quick_think_llm"; "max_debate_rounds"] ->
     gradio_config env !! key = GradioApp.DEFAULT_CONFIG env !! key).
Proof.
  intros out. subst out. split; [|split; [|apply gradio_config_lookup]].
  - unfold GradioApp.run_trading_analysis. fold (gradio_config env).
    destruct (GradioApp.TRADING_AGENTS_AVAILABLE env); cbn [negb]; [|now left].
    destruct (PyStr.truthy ticker); cbn [negb]; [|now left].
    destruct (GradioApp.TradingAgentsGraph env analysts (gradio_config env))
      as [m | ta]; [now left|].
    destruct (ta ticker date_str) as [m | fs dec]; [now right|].
    destruct (GradioApp.format_results env ticker date_str fs dec) as [[? ?] ?].
    now right.
  - unfold GradioApp.run_trading_analysis. fold (gradio_config env).
    destruct (GradioApp.TRADING_AGENTS_AVAILABLE env); cbn [negb];
      [|split; [intros H; now destruct H | intros (? & _); discriminate]].
    destruct ticker as [|c ticker]; cbn [PyStr.truthy negb];
      [split; [intros H; now destruct H | intros (_ & ? & _); congruence]|].
    destruct (GradioApp.TradingAgentsGraph env analysts (gradio_config env))
      as [m | ta];
      [split; [intros H; now destruct H | intros (_ & _ & ? & ?); discriminate]|].
    assert (Hcall : GradioApp.framework_calls
              match ta (String c ticker) date_str with
              | PropagateRaised message =>
                  GradioApp.Outputs ("❌ Analysis failed: " +:+ message) EmptyString
                    EmptyString
                    [FrameworkCall analysts (gradio_config env) (String c ticker) date_str]
              | Propagated fs decision =>
                  let '(s, d, t) :=
                    GradioApp.format_results env (String c ticker) date_str fs decision in
                  GradioApp.Outputs s d t
                    [FrameworkCall analysts (gradio_config env) (String c ticker) date_str]
              end <> []).
    { destruct (ta (String c ticker) date_str) as [m | fs dec]; [discriminate|].
      destruct (GradioApp.format_results env _ date_str fs dec) as [[? ?] ?].
      discriminate. }
    split; [intros _ | intros _; exact Hcall].
    split; [reflexivity|]. split; [discriminate | now exists ta].
Qed.

Lemma join_blocks_empty (a b c d : list string) :
  (forall x, x ∈ a ++ b ++ c ++ d -> x <> EmptyString) ->
  PyStr.join PyStr.nl (a ++ b ++ c ++ d) = EmptyString -> a ++ b ++ c ++ d = [].
Proof.
  intros Hne. destruct (a ++ b ++ c ++ d) as [|x [|y l]]; [reflexivity | |].
  - cbn. intros ->. now destruct (Hne EmptyString (list_elem_of_here _ _)).
  - cbn [PyStr.join]. intros H. destruct x; [|discriminate].
    now destruct (Hne EmptyString (list_elem_of_here _ _)).
Qed.

(** When the framework returns, the reports pane of the chat front end is
    empty exactly when none of the four analyst reports is populated, and
    the trading pane is empty exactly when none of the three plans is. *)
Theorem gradio_panes_empty_iff (env : GradioApp.environment) (ticker date_str : string)
    (analysts : list string) (ta : string -> string -> propagated)
    (fs : gmap string pyval) (dec : pyval) :
  GradioApp.TRADING_AGENTS_AVAILABLE env = true ->
  ticker <> EmptyString ->
  GradioApp.TradingAgentsGraph env analysts (gradio_config env) = Constructed ta ->
  ta ticker date_str = Propagated fs dec ->
  let out := GradioApp.run_trading_analysis env ticker date_str analysts in
  (GradioApp.detailed_reports out = EmptyString <->
   forall key, key ∈ ["market_report"; "sentiment_report"; "news_report";
                      "fundamentals_report"] -> populated fs key = false) /\
  (GradioApp.trading_info out = EmptyString <->
   forall key, key ∈ ["investment_plan"; "trader_investment_plan";
                      "final_trade_decision"] -> populated fs key = false).
Proof.
  intros Ha Ht Hc Hp out. subst out.
  unfold GradioApp.run_trading_analysis. fold (gradio_config env).
  rewrite Ha, (truthy_not_empty _ Ht), Hc, Hp. cbn [negb].
  unfold GradioApp.format_results.
  cbn [GradioApp.detailed_reports GradioApp.trading_info].
  unfold GradioApp.report, GradioApp.plan. split.
  - destruct (populated fs "market_report") eqn:H1;
      destruct (populated fs "sentiment_report") eqn:H2;
      destruct (populated fs "news_report") eqn:H3;
      destruct (populated fs "fundamentals_report") eqn:H4;
      cbn [app PyStr.join];
      (split;
       [try reflexivity; try discriminate
       |intros H; try reflexivity;
        try (rewrite (H "market_report") in H1 by (rewrite !elem_of_cons; auto);
             discriminate);
        try (rewrite (H "sentiment_report") in H2 by (rewrite !elem_of_cons; auto);
             discriminate);
        try (rewrite (H "news_report") in H3 by (rewrite !elem_of_cons; auto);
             discriminate);
        try (rewrite (H "fundamentals_report") in H4 by (rewrite !elem_of_cons; auto);
             discriminate)]).
    intros _ key Hin. rewrite !elem_of_cons, elem_of_nil in Hin.
    decompose [or] Hin; subst; (assumption || contradiction).
  - destruct (populated fs "investment_plan") eqn:H1;
      destruct (populated fs "trader_investment_plan") eqn:H2;
      destruct (populated fs "final_trade_decision") eqn:H3;
      (split;
       [try reflexivity; try discriminate
       |intros H; try reflexivity;
        try (rewrite (H "investment_plan") in H1 by (rewrite !elem_of_cons; auto);
             discriminate);
        try (rewrite (H "trader_investment_plan") in H2 by (rewrite !elem_of_cons; auto);
             discriminate);
        try (rewrite (H "final_trade_decision") in H3 by (rewrite !elem_of_cons; auto);
             discriminate)]).
    intros _ key Hin. rewrite !elem_of_cons, elem_of_nil in Hin.
    decompose [or] Hin; subst; (assumption || contradiction).
Qed.

(** The panes on a run whose framework returns one report. *)
Lemma gradio_panes_empty_iff_witness :
  let env := GradioApp.Environment true ∅
               (fun _ _ => Constructed (fun _ _ => Propagated uptrend (VStr "BUY")))
               sample_time in
  let out := GradioApp.run_trading_analysis env "NVDA" "2024-11-16" ["market"] in
  (GradioApp.detailed_reports out = EmptyString <->
   forall key, key ∈ ["market_report"; "sentiment_report"; "news_report";
                      "fundamentals_report"] -> populated uptrend key = false) /\
  (GradioApp.trading_info out = EmptyString <->
   forall key, key ∈ ["investment_plan"; "trader_investment_plan";
                      "final_trade_decision"] -> populated uptrend key = false).
Proof.
  apply (gradio_panes_empty_iff
           (GradioApp.Environment true ∅
              (fun _ _ => Constructed (fun _ _ => Propagated uptrend (VStr "BUY")))
              sample_time)
           "NVDA" "2024-11-16" ["market"]
           (fun _ _ => Propagated uptrend (VStr "BUY")) uptrend (VStr "BUY")).
  - reflexivity.
  - discriminate.
  - reflexivity.
  - reflexivity.
Defined.

(** * What the session holds between script runs *)

(** A script run without a submission leaves the running flag as it found
    it, whether or not a request cuts the run off.  A run with a submission
    that no request cuts off leaves the flag clear, whatever it was.  A
    submission that a request cuts off while the invoker is at work leaves
    the flag set, and nothing clears it before the next submission. *)
Theorem running_flag_between_runs (env : environment) (stored : stored_state)
    (w : widgets) (request : option nat) :
  let s0 := initialize_session_state env stored in
  let out := script_run env stored w request in
  (w_submitted w = false ->
   analysis_running (session out.2) = analysis_running s0) /\
  (w_submitted w = true -> request = None ->
   analysis_running (session out.2) = false) /\
  analysis_running
    (session (script_run (sample_env returns_buy) fresh (sample_widgets "NVDA" true)
                         (Some 10)).2) = true.
Proof.
  intros s0 out. subst out. split; [|split].
  - intros Hs. unfold script_run. fold s0.
    apply (script_preserves_from (fun s => analysis_running s = analysis_running s0)).
    + intros s cfg H. exact H.
    + intros s i r _ H. exact H.
    + intros analysts. now apply analysis_form_idle.
    + reflexivity.
  - intros Hs ->.
    destruct (main_summary env stored w)
      as (_ & [(_ & Hf & _) | (_ & _ & fs & dec & _ & _ & _ & _ & Hf & _)]).
    + unfold main in Hf. rewrite Hf, Hs. reflexivity.
    + exact Hf.
  - vm_compute. reflexivity.
Qed.

Lemma complete_entry_append (s : session_state) (b : analysis_result) :
  PyStr.truthy (ticker b) = true -> (exists d, trade_date b = date_str d) ->
  Forall complete_entry (analysis_history s) ->
  Forall complete_entry (analysis_history s ++ [b]).
Proof.
  intros Ht Hd H. apply Forall_app. split; [exact H|].
  apply Forall_singleton. split; [|exact Hd].
  intros E. rewrite E in Ht. discriminate.
Qed.

Lemma script_keeps_entries_complete (env : environment) (w : widgets) :
  preserves (fun s => Forall complete_entry (analysis_history s)) (script env w).
Proof.
  apply script_preserves.
  - intros s cfg H. exact H.
  - intros s b H. exact H.
  - intros s i r _ H. exact H.
  - intros s b Ht Hd H. now apply complete_entry_append.
Qed.

(** Every analysis that a session has in its history has a ticker that is
    not empty and the text of a date of the date widget as its date. *)
Theorem history_entries_complete (env : environment) (stored : stored_state) :
  reachable stored ->
  Forall complete_entry (analysis_history (initialize_session_state env stored)).
Proof.
  intros H. revert env. induction H as [|env' stored w request Hreach IH]; intros env.
  - apply List.Forall_nil.
  - rewrite initialize_store. unfold script_run.
    apply (script_keeps_entries_complete env' w). apply IH.
Qed.

(** The same on the state that a first successful run leaves. *)
Lemma history_entries_complete_witness :
  Forall complete_entry
    (analysis_history
       (initialize_session_state (sample_env returns_buy)
          (store (session (main (sample_env returns_buy) fresh
                                (sample_widgets "NVDA" true)).2)))).
Proof.
  exact (history_entries_complete (sample_env returns_buy) _
           (reachable_run (sample_env returns_buy) fresh (sample_widgets "NVDA" true)
                          None reachable_fresh)).
Defined.
(** * The characters of the export *)

Lemma plain_ascii_app (a b : string) :
  plain_ascii (a +:+ b) = plain_ascii a && plain_ascii b.
Proof.
  induction a as [|c a IH]; [reflexivity|].
  change (String c a +:+ b) with (String c (a +:+ b)).
  cbn [plain_ascii]. rewrite IH. now rewrite andb_assoc.
Qed.

Lemma plain_escape_char (c : ascii) : plain_ascii (Json.escape_char c) = true.
Proof.
  destruct c as [[|] [|] [|] [|] [|] [|] [|] [|]]; reflexivity.
Qed.

Lemma plain_basestring (s : string) :
  plain_ascii (Json.encode_basestring_ascii s) = true.
Proof.
  unfold Json.encode_basestring_ascii.
  change (String PyStr.dquote (PyStr.concat_map Json.escape_char s))
    with (String PyStr.dquote EmptyString +:+ PyStr.concat_map Json.escape_char s).
  rewrite !plain_ascii_app.
  change (plain_ascii (String PyStr.dquote EmptyString)) with true.
  rewrite andb_true_r. cbn [andb].
  induction s as [|c s IH]; [reflexivity|].
  cbn [PyStr.concat_map]. now rewrite plain_ascii_app, plain_escape_char, IH.
Qed.

Lemma plain_newline_indent (level : nat) :
  plain_ascii (Json.newline_indent level) = true.
Proof.
  unfold Json.newline_indent. rewrite plain_ascii_app.
  change (plain_ascii PyStr.nl) with true. cbn [andb].
  induction (2 * level) as [|n IH]; [reflexivity|].
  cbn [PyStr.repeat_str]. now rewrite plain_ascii_app, IH.
Qed.

Lemma plain_more_items (level : nat) (xs : list Json.json) :
  Forall (fun x => forall level, plain_ascii (Json.encode level x) = true) xs ->
  plain_ascii (encode_more_items level xs) = true.
Proof.
  induction 1 as [|y ys Hy Hys IH]; cbn [encode_more_items].
  - rewrite plain_ascii_app, plain_newline_indent. reflexivity.
  - rewrite !plain_ascii_app, plain_newline_indent, Hy, IH. reflexivity.
Qed.

Lemma plain_more_members (level : nat) (ms : list (string * Json.json)) :
  Forall (fun kv => forall level, plain_ascii (Json.encode level kv.2) = true) ms ->
  plain_ascii (encode_more_members level ms) = true.
Proof.
  induction 1 as [|[k y] ys Hy Hys IH]; cbn [encode_more_members].
  - rewrite plain_ascii_app, plain_newline_indent. reflexivity.
  - cbn [snd] in Hy.
    rewrite !plain_ascii_app, plain_newline_indent, plain_basestring, Hy, IH.
    reflexivity.
Qed.

Lemma plain_encode (v : Json.json) :
  forall level, plain_ascii (Json.encode level v) = true.
Proof.
  induction v as [s | items IH | members IH] using json_ind'; intros level.
  - apply plain_basestring.
  - destruct items as [|x xs]; [reflexivity|].
    apply Forall_cons in IH as [Hx Hxs].
    rewrite encode_arr_cons, !plain_ascii_app, plain_newline_indent, Hx,
      (plain_more_items level xs Hxs).
    reflexivity.
  - destruct members as [|[k x] ms]; [reflexivity|].
    apply Forall_cons in IH as [Hx Hxs]. cbn [snd] in Hx.
    rewrite encode_obj_cons, !plain_ascii_app, plain_newline_indent, plain_basestring,
      Hx, (plain_more_members level ms Hxs).
    reflexivity.
Qed.

(** Whatever characters the reports, the ticker and the decision hold, the
    export is a text of printable ASCII characters and newlines: everything
    else is written as an escape. *)
Theorem export_is_plain_ascii (r : analysis_result) :
  plain_ascii (StreamlitUtils.export_analysis_to_json r) = true.
Proof. apply plain_encode. Qed.
